(** * AIWriterExtension: the command pipeline of the LibreOffice add-in

    A shallow embedding of [src/AIWriterExtension.py]: the settings store
    ([get_config], [set_config]), the prompt table and the completion client
    ([process_text]), the result inserter ([insert_text]), the two dialog
    adapters ([settings_box], [translation_box]), the dispatcher
    ([trigger]) and the start-up code that locates the installed extension
    and loads its language file ([find_extension_path], [get_language]).

    Conventions of the embedding.
    - A Python [str] is a [string]; its characters stand for the code points
      U+0000..U+00FF.
    - The host (document, dialogs, file system, network) is an explicit
      [World] threaded through the code, together with an [Env] holding what
      the outside answers during one command: what the user does with a
      dialog and what the endpoint replies.
    - Python exceptions are values of [exn]; a computation returns a
      [result] together with the world it leaves behind.
    - Floating point, [str.upper] and [json.loads] are library code with
      table-driven or IEEE semantics: they are the fields of the class
      [Builtins], and every theorem holds for all of its instances.
    - The language file ([self.lang]) is not part of the sources: the
      table is the section variable [lang], giving the label stored under
      each key the code reads.
    - The settings file is in one of the states of [file_state]. Two of
      them make the store raise (bytes that cannot be decoded, JSON that
      is no object); a statement that needs the store to answer says
      [readable w = true], and writes [stored w key dflt] for what
      [get_config] then returns and [written key val w] for the world
      [set_config] leaves.
    - What the start-up code asks of the operating system and of the
      office suite is a record [Platform]. *)

From stdpp Require Import gmap strings list fin_maps pretty.
From Stdlib Require Import ZArith Ascii.

(* ===================================================================== *)
(** ** Python strings *)
(* ===================================================================== *)

Definition nl : string := String "010"%char "".

(** [str.isspace] on one character, for the code points below U+0100:
    TAB..CR, FS..US, SPACE, NEL and NBSP. *)
Definition isspace (c : ascii) : bool :=
  let n := nat_of_ascii c in
  (Nat.leb 9 n && Nat.leb n 13) || (Nat.leb 28 n && Nat.leb n 32)
  || Nat.eqb n 133 || Nat.eqb n 160.

Fixpoint lstrip (s : string) : string :=
  match s with
  | EmptyString => EmptyString
  | String c s' => if isspace c then lstrip s' else s
  end.

Fixpoint rstrip (s : string) : string :=
  match s with
  | EmptyString => EmptyString
  | String c s' =>
      match rstrip s' with
      | EmptyString => if isspace c then EmptyString else String c EmptyString
      | r => String c r
      end
  end.

(** [s.strip()] *)
Definition strip (s : string) : string := rstrip (lstrip s).

(** Truth value of a string: [bool(s)], false exactly for the empty one. *)
Definition truthy (s : string) : bool :=
  match s with EmptyString => false | _ => true end.

(** [str.isdigit] on one character below U+0100: the decimal digits and the
    superscripts two, three and one. *)
Definition isdigit_char (c : ascii) : bool :=
  let n := nat_of_ascii c in
  (Nat.leb 48 n && Nat.leb n 57) || Nat.eqb n 178 || Nat.eqb n 179
  || Nat.eqb n 185.

Fixpoint all_chars (p : ascii -> bool) (s : string) : bool :=
  match s with
  | EmptyString => true
  | String c s' => p c && all_chars p s'
  end.

(** [s.isdigit()]: non-empty and every character a digit. *)
Definition isdigit (s : string) : bool := truthy s && all_chars isdigit_char s.

Definition decimal_digit (c : ascii) : option Z :=
  let n := nat_of_ascii c in
  if Nat.leb 48 n && Nat.leb n 57 then Some (Z.of_nat n - 48)%Z else None.

(** The digit part of an integer literal: decimal digits, single
    underscores allowed between two digits. [after_digit] tells whether the
    previous character was a digit. *)
Fixpoint int_digits (acc : Z) (after_digit : bool) (s : string) : option Z :=
  match s with
  | EmptyString => if after_digit then Some acc else None
  | String c s' =>
      match decimal_digit c with
      | Some d => int_digits (10 * acc + d)%Z true s'
      | None =>
          if Ascii.eqb c "_"%char && after_digit
          then match s' with
               | EmptyString => None
               | _ => int_digits acc false s'
               end
          else None
      end
  end.

(* ===================================================================== *)
(** ** Exceptions and results *)
(* ===================================================================== *)

(** The exception classes the code meets. [KeyError] carries the [repr] of
    the missing key; [HostError] stands for any other exception (a UNO
    runtime exception, a socket timeout, ...). *)
Inductive exn : Type :=
| KeyError (key_repr : string)
| ValueError (msg : string)
| TypeError (msg : string)
| IndexError (msg : string)
| AttributeError (msg : string)
| UnicodeDecodeError (msg : string)
| HTTPError (code : Z) (reason : string)
| URLError (reason : string)
| HostError (msg : string).

(** [str(e)] *)
Definition exn_str (e : exn) : string :=
  match e with
  | KeyError k => k
  | ValueError m | TypeError m | IndexError m | AttributeError m
  | UnicodeDecodeError m | HostError m => m
  | HTTPError code reason => "HTTP Error " +:+ pretty code +:+ ": " +:+ reason
  | URLError reason => "<urlopen error " +:+ reason +:+ ">"
  end.

Inductive result (A : Type) : Type :=
| Ok (a : A)
| Raise (e : exn).
Arguments Ok {A} a.
Arguments Raise {A} e.

(** [int(s)] for a string: surrounding whitespace, an optional sign, then
    the digits. The message quotes the literal the way [repr] does for
    literals without quotes, backslashes or non-printing characters. *)
Definition int_of_string (s : string) : result Z :=
  let t := strip s in
  let parsed :=
    match t with
    | String "-"%char r => Z.opp <$> int_digits 0 false r
    | String "+"%char r => int_digits 0 false r
    | _ => int_digits 0 false t
    end in
  match parsed with
  | Some n => Ok n
  | None => Raise (ValueError
      ("invalid literal for int() with base 10: '" +:+ s +:+ "'"))
  end.

(* ===================================================================== *)
(** ** Library code taken as an interface *)
(* ===================================================================== *)

(** A decoded JSON document, as [json.loads] returns it. *)
#[warnings="-register-all"]
Inductive json (F : Type) : Type :=
| JNull
| JBool (b : bool)
| JInt (n : Z)
| JFloat (f : F)
| JStr (s : string)
| JArr (items : list (json F))
| JObj (members : gmap string (json F)).
Arguments JNull {F}.
Arguments JBool {F} b.
Arguments JInt {F} n.
Arguments JFloat {F} f.
Arguments JStr {F} s.
Arguments JArr {F} items.
Arguments JObj {F} members.

Class Builtins : Type := {
  (** Python's [float] *)
  float : Type;
  (** [float(s)] for a string; [ValueError] when [s] is no float literal *)
  float_of_string : string -> result float;
  (** [float(n)] for an integer; [OverflowError] beyond the float range *)
  float_of_int : Z -> result float;
  (** [int(f)]; fails on infinities and NaN *)
  int_of_float : float -> result Z;
  (** [str(f)] *)
  str_of_float : float -> string;
  (** [s.upper()] *)
  upper : string -> string;
  (** [json.loads(s)] *)
  json_loads : string -> result (json float)
}.

(* ===================================================================== *)
(** ** The world of the extension *)
(* ===================================================================== *)

(** What [desktop.getCurrentComponent()] is. A Writer document is
    represented by the text under its view cursor, which is also the text
    of the first range of its selection. *)
Inductive component_state : Type :=
| NoComponent
| OtherComponent
| Writer (selected : string).

(** What the endpoint answers to a request: a final HTTP reply (after
    [urllib] has followed redirects), or no reply at all. *)
Inductive server : Type :=
| Reply (status : Z) (reason : string) (body : string)
| Unreachable (e : exn).

(** What the user does with a modal form. [Fails] is an exception of the
    dialog toolkit. *)
Inductive user_action (A : Type) : Type :=
| Confirm (fields : A)
| Cancel
| Fails (e : exn).
Arguments Confirm {A} fields.
Arguments Cancel {A}.
Arguments Fails {A} e.

(** The four edit fields of the settings dialog, as the user leaves them. *)
Record settings_form : Type := mkSettingsForm {
  edit_openai_api_key : string;
  edit_model : string;
  edit_max_tokens : string;
  edit_temperature : string
}.

Record Env : Type := mkEnv {
  endpoint : server;
  settings_user : user_action settings_form;
  translation_user : user_action string
}.

Section Extension.
Context `{Builtins}.

(** [self.lang]: the label stored under each key of the language file. *)
Variable lang : string -> string.

(** A settings value: the scalars the data model allows in the file. *)
Inductive value : Type :=
| VStr (s : string)
| VInt (n : Z)
| VFloat (f : float).

(** [str(v)], also what an f-string does with [{v}] *)
Definition py_str (v : value) : string :=
  match v with
  | VStr s => s
  | VInt n => pretty n
  | VFloat f => str_of_float f
  end.

(** [int(v)] *)
Definition py_int (v : value) : result Z :=
  match v with
  | VStr s => int_of_string s
  | VInt n => Ok n
  | VFloat f => int_of_float f
  end.

(** [float(v)] *)
Definition py_float (v : value) : result float :=
  match v with
  | VStr s => float_of_string s
  | VInt n => float_of_int n
  | VFloat f => Ok f
  end.

(** [v == ""] *)
Definition is_empty_str (v : value) : bool :=
  match v with
  | VStr EmptyString => true
  | _ => false
  end.

(** A JSON document that is no object, as [json.load] returns it: what it
    holds plays no part, its Python type does. *)
Inductive other_json : Type :=
| OtherNull
| OtherBool
| OtherInt
| OtherFloat
| OtherStr
| OtherList.

(** [type(doc).__name__] *)
Definition other_type_name (doc : other_json) : string :=
  match doc with
  | OtherNull => "NoneType"
  | OtherBool => "bool"
  | OtherInt => "int"
  | OtherFloat => "float"
  | OtherStr => "str"
  | OtherList => "list"
  end.

(** The settings file [aiwriter.json] as [get_config] and [set_config] see
    it:
    - absent ([os.path.exists] is false);
    - present but not loadable, [open] or [json.load] raising one of the
      two exceptions the code catches, [IOError] or [JSONDecodeError];
    - present with bytes that the codec of [open] cannot decode: reading
      raises [UnicodeDecodeError], with the given message;
    - holding a flat JSON object;
    - holding JSON that is no object (a list, [null], a number, a string,
      [true] or [false]). *)
Inductive file_state : Type :=
| FileMissing
| FileUnreadable
| FileUndecodable (msg : string)
| FileObject (config_data : gmap string value)
| FileOther (doc : other_json).

(** One call of [urllib.request.urlopen]: the POST sent to [API_URL]. *)
Record request : Type := mkRequest {
  req_url : string;
  req_authorization : string;
  req_model : value;
  req_assistant_text : string;
  req_user_text : string;
  req_max_completion_tokens : Z;
  req_temperature : float
}.

Record World : Type := mkWorld {
  (** the settings file under the user configuration directory *)
  settings_file : file_state;
  (** the text of the [IOError] with which opening the file for writing
      fails, [None] when it can be written *)
  write_error : option string;
  (** [config_file_path] *)
  config_file_path : string;
  (** the current component of the desktop *)
  component : component_state;
  (** message boxes shown by [show_dialog]: title and message *)
  dialogs : list (string * string);
  (** modal forms executed by the dialog adapters: their titles *)
  forms : list string;
  (** requests sent to the endpoint *)
  requests : list request;
  (** lines written by [print] *)
  printed : list string
}.

Definition set_settings_file (f : file_state) (w : World) : World :=
  mkWorld f (write_error w) (config_file_path w) (component w) (dialogs w)
          (forms w) (requests w) (printed w).
Definition set_component (c : component_state) (w : World) : World :=
  mkWorld (settings_file w) (write_error w) (config_file_path w) c (dialogs w)
          (forms w) (requests w) (printed w).
Definition add_dialog (d : string * string) (w : World) : World :=
  mkWorld (settings_file w) (write_error w) (config_file_path w) (component w)
          (dialogs w ++ [d]) (forms w) (requests w) (printed w).
Definition add_form (t : string) (w : World) : World :=
  mkWorld (settings_file w) (write_error w) (config_file_path w) (component w)
          (dialogs w) (forms w ++ [t]) (requests w) (printed w).
Definition add_request (r : request) (w : World) : World :=
  mkWorld (settings_file w) (write_error w) (config_file_path w) (component w)
          (dialogs w) (forms w) (requests w ++ [r]) (printed w).
Definition add_printed (l : string) (w : World) : World :=
  mkWorld (settings_file w) (write_error w) (config_file_path w) (component w)
          (dialogs w) (forms w) (requests w) (printed w ++ [l]).

(** *** Computations: state passing with exceptions *)

Definition M (A : Type) : Type := World -> result A * World.

Definition ret {A} (a : A) : M A := fun w => (Ok a, w).

Definition bind {A B} (m : M A) (k : A -> M B) : M B :=
  fun w =>
    match m w with
    | (Ok a, w') => k a w'
    | (Raise e, w') => (Raise e, w')
    end.

Definition raise {A} (e : exn) : M A := fun w => (Raise e, w).

(** A pure computation that may raise. *)
Definition lift {A} (r : result A) : M A := fun w => (r, w).

(** Reading the world. *)
Definition gets {A} (f : World -> A) : M A := fun w => (Ok (f w), w).

(** Changing the world. *)
Definition modify (f : World -> World) : M unit := fun w => (Ok tt, f w).

(** [try: m  except Exception as e: h e] *)
Definition try_except {A} (m : M A) (h : exn -> M A) : M A :=
  fun w =>
    match m w with
    | (Ok a, w') => (Ok a, w')
    | (Raise e, w') => h e w'
    end.

Notation "'do' x <- m ; k" := (bind m (fun x => k))
  (at level 10, x name, m at level 100, k at level 200).

(* ===================================================================== *)
(** ** Settings store *)
(* ===================================================================== *)

(** [get_config(key, default)]. It changes nothing. The [except] of line
    185 names [IOError] and [JSONDecodeError]: the [UnicodeDecodeError] of
    a read leaves the function, and so does the [AttributeError] of
    [config_data.get] when what was loaded is no object. *)
Definition get_config (key : string) (default : value) : M value :=
  fun w =>
    match settings_file w with
    | FileMissing => (Ok default, w)
    | FileUnreadable => (Ok default, w)
    | FileUndecodable msg => (Raise (UnicodeDecodeError msg), w)
    | FileObject config_data =>
        match config_data !! key with
        | Some v => (Ok v, w)
        | None => (Ok default, w)
        end
    | FileOther doc =>
        (Raise (AttributeError
           ("'" +:+ other_type_name doc +:+ "' object has no attribute 'get'")),
         w)
    end.

(** [config_data[key] = value] on what [json.load] returned when it is no
    object: the message of the [TypeError]. *)
Definition setitem_error (doc : other_json) : string :=
  match doc with
  | OtherList => "list indices must be integers or slices, not str"
  | _ => "'" +:+ other_type_name doc +:+ "' object does not support item assignment"
  end.

(** [set_config(key, value)]: load what is there, update one key, write
    the object back. Loading is as in [get_config], with [{}] for a file
    that is absent or not loadable; the update raises [TypeError] on what
    is no object; both happen before the file is opened for writing. An
    [IOError] on writing is printed and swallowed. *)
Definition set_config (key : string) (val : value) : M unit :=
  fun w =>
    let loaded : result (gmap string value) :=
      match settings_file w with
      | FileMissing => Ok ∅
      | FileUnreadable => Ok ∅
      | FileUndecodable msg => Raise (UnicodeDecodeError msg)
      | FileObject config_data => Ok config_data
      | FileOther doc => Raise (TypeError (setitem_error doc))
      end in
    match loaded with
    | Raise e => (Raise e, w)
    | Ok config_data =>
        let config_data := <[key := val]> config_data in
        match write_error w with
        | None => (Ok tt, set_settings_file (FileObject config_data) w)
        | Some e =>
            (Ok tt,
             add_printed
               ("Error writing to " +:+ config_file_path w +:+ ": " +:+ e) w)
        end
    end.

(* ===================================================================== *)
(** ** Host capabilities *)
(* ===================================================================== *)

(** [show_dialog(title, message)]: a modal error box with an OK button. *)
Definition show_dialog (title message : string) : M unit :=
  modify (add_dialog (title, message)).

(** Lines 79-83 of [trigger]: when the current component is no text
    document, a new Writer document is loaded into a new frame; it is
    empty and becomes the current component. *)
Definition ensure_writer : M unit :=
  modify (fun w =>
    match component w with
    | Writer _ => w
    | _ => set_component (Writer "") w
    end).

(** [get_document()]: the current component, [None] when there is none.
    The document itself lives in the world, so only its presence is
    returned. *)
Definition get_document : M bool :=
  gets (fun w =>
    match component w with
    | NoComponent => false
    | _ => true
    end).

(** [getString()] on the view cursor (or on the first selected range). *)
Definition getString : M string :=
  fun w =>
    match component w with
    | Writer s => (Ok s, w)
    | _ => (Raise (AttributeError "getViewCursor"), w)
    end.

(** [setString(s)] on the view cursor (or on the first selected range):
    the selected text is replaced. *)
Definition setString (s : string) : M unit :=
  fun w =>
    match component w with
    | Writer _ => (Ok tt, set_component (Writer s) w)
    | _ => (Raise (AttributeError "getViewCursor"), w)
    end.

(** [urllib.request.urlopen(req)]: the request goes out; a reply with a
    status outside 200..299 is turned into an [HTTPError] by the default
    opener, and a missing reply raises what the network layer raised. *)
Definition urlopen (env : Env) (req : request) : M (Z * string) :=
  do _ <- modify (add_request req);
  match endpoint env with
  | Reply status reason body =>
      if (200 <=? status)%Z && (status <? 300)%Z
      then ret (status, body)
      else raise (HTTPError status reason)
  | Unreachable e => raise e
  end.

(* ===================================================================== *)
(** ** Prompt table and completion client *)
(* ===================================================================== *)

Definition API_URL : string := "https://api.openai.com/v1/chat/completions".

(** The dictionary [prompt_map] built at the start of [process_text]. *)
Definition prompt_map (text language : string) : gmap string string :=
  {[ "complete" := lang "prompt_complete" +:+ ": " +:+ text;
     "summarize" := lang "prompt_summarize" +:+ ": " +:+ text;
     "improve" := lang "prompt_improve" +:+ ": " +:+ text;
     "expand" := lang "prompt_expand" +:+ ": " +:+ text;
     "translate" :=
       lang "prompt_translate" +:+ " " +:+ language +:+ ": " +:+ text ]}.

(** The prompt builder: [prompt_map[command]], [None] when
    [command not in prompt_map]. *)
Definition build_prompt (command text language : string) : option string :=
  prompt_map text language !! command.

Definition type_name (j : json float) : string :=
  match j with
  | JNull => "NoneType"
  | JBool _ => "bool"
  | JInt _ => "int"
  | JFloat _ => "float"
  | JStr _ => "str"
  | JArr _ => "list"
  | JObj _ => "dict"
  end.

(** [j[key]] for a string key *)
Definition getitem (j : json float) (key : string) : result (json float) :=
  match j with
  | JObj members =>
      match members !! key with
      | Some v => Ok v
      | None => Raise (KeyError ("'" +:+ key +:+ "'"))
      end
  | JArr _ =>
      Raise (TypeError "list indices must be integers or slices, not str")
  | JStr _ => Raise (TypeError "string indices must be integers, not 'str'")
  | _ => Raise (TypeError ("'" +:+ type_name j +:+ "' object is not subscriptable"))
  end.

(** [j[0]] *)
Definition getitem0 (j : json float) : result (json float) :=
  match j with
  | JArr (first :: _) => Ok first
  | JArr [] => Raise (IndexError "list index out of range")
  | JObj _ => Raise (KeyError "0")
  | JStr (String c _) => Ok (JStr (String c ""))
  | JStr EmptyString => Raise (IndexError "string index out of range")
  | _ => Raise (TypeError ("'" +:+ type_name j +:+ "' object is not subscriptable"))
  end.

(** [j.strip()] *)
Definition strip_method (j : json float) : result string :=
  match j with
  | JStr s => Ok (strip s)
  | _ => Raise (AttributeError
           ("'" +:+ type_name j +:+ "' object has no attribute 'strip'"))
  end.

(** [response_data["choices"][0]["message"]["content"]] *)
Definition message_content (response_data : json float) : result (json float) :=
  match getitem response_data "choices" with
  | Raise e => Raise e
  | Ok choices =>
      match getitem0 choices with
      | Raise e => Raise e
      | Ok choice =>
          match getitem choice "message" with
          | Raise e => Raise e
          | Ok message => getitem message "content"
          end
      end
  end.

(** [process_text(text, command, lang)]. *)
Definition process_text (env : Env) (text command language : string)
  : M (option string) :=
  match build_prompt command text language with
  | None => ret None
  | Some prompt =>
      do openai_api_key <- get_config "openai_api_key" (VStr "");
      do model <- get_config "model" (VStr "gpt-4o-mini");
      do max_tokens <- get_config "max_tokens" (VStr "1000");
      do max_completion_tokens <- lift (py_int max_tokens);
      do temperature <- get_config "temperature" (VStr "0.5");
      do temperature <- lift (py_float temperature);
      let req :=
        mkRequest API_URL ("Bearer " +:+ py_str openai_api_key) model
                  (lang "prompt_assistant") prompt max_completion_tokens
                  temperature in
      try_except
        (do response <- urlopen env req;
         if (fst response =? 200)%Z
         then
           do response_data <- lift (json_loads (snd response));
           do content <- lift (message_content response_data);
           do stripped <- lift (strip_method content);
           ret (Some stripped)
         else
           do _ <- show_dialog (lang "error") (snd response);
           ret None)
        (fun e =>
           do _ <- show_dialog (lang "error") (exn_str e);
           ret None)
  end.

(* ===================================================================== *)
(** ** Result inserter *)
(* ===================================================================== *)

(** The text [insert_text] builds from the selection, the generated text,
    the command label and the language. *)
Definition block (selection new_text label language : string) : string :=
  selection +:+ nl +:+ nl +:+ "[---" +:+ lang "block_start" +:+ " "
  +:+ upper label +:+ " " +:+ language +:+ "---]" +:+ nl +:+ new_text +:+ nl
  +:+ "[/---" +:+ lang "block_end" +:+ " " +:+ upper label +:+ " "
  +:+ language +:+ "---]" +:+ nl +:+ nl.

(** [insert_text(doc, new_text, selection, command)]; [doc] is the
    current component of the world. *)
Definition insert_text (new_text selection command : string) : M unit :=
  do language <-
    (if String.eqb command "translate"
     then do language <- get_config "language" (VStr ""); ret (py_str language)
     else ret "");
  let label := lang ("command_" +:+ command) in
  setString (block selection new_text label language).

(* ===================================================================== *)
(** ** Dialog adapters *)
(* ===================================================================== *)

(** A Python dictionary is false exactly when it is empty. *)
Definition dict_is_empty (d : gmap string value) : bool :=
  bool_decide (size d = 0).

(** [d[key]] *)
Definition dict_getitem (d : gmap string value) (key : string) : result value :=
  match d !! key with
  | Some v => Ok v
  | None => Raise (KeyError ("'" +:+ key +:+ "'"))
  end.

(** [settings_box(title)]: the four edit fields are filled from the store
    (lines 402-411) and their text is selected (lines 428-437), which reads
    the store again; then the form is executed, and the record is built
    from the edit fields (confirmed) or from the store (cancelled). *)
Definition settings_box (env : Env) (title : string) : M (gmap string value) :=
  do _ <- get_config "openai_api_key" (VStr "");
  do _ <- get_config "model" (VStr "gpt-4o-mini");
  do _ <- get_config "max_tokens" (VStr "1000");
  do _ <- get_config "temperature" (VStr "0.5");
  do _ <- get_config "openai_api_key" (VStr "");
  do _ <- get_config "model" (VStr "gpt-4o-mini");
  do _ <- get_config "max_tokens" (VStr "1000");
  do _ <- get_config "temperature" (VStr "0.5");
  do _ <- modify (add_form title);
  match settings_user env with
  | Fails e => raise e
  | Confirm fields =>
      do temperature <- lift (float_of_string (edit_temperature fields));
      let result : gmap string value :=
        {[ "openai_api_key" := VStr (edit_openai_api_key fields);
           "model" := VStr (edit_model fields);
           "temperature" := VFloat temperature ]} in
      if isdigit (edit_max_tokens fields)
      then
        do max_tokens <- lift (int_of_string (edit_max_tokens fields));
        ret (<["max_tokens" := VInt max_tokens]> result)
      else ret result
  | Cancel =>
      do openai_api_key <- get_config "openai_api_key" (VStr "");
      do model <- get_config "model" (VStr "gpt-4o-mini");
      do max_tokens <- get_config "max_tokens" (VStr "1000");
      do temperature <- get_config "temperature" (VStr "0.5");
      do temperature <- lift (py_float temperature);
      ret ({[ "openai_api_key" := VStr (py_str openai_api_key);
              "model" := VStr (py_str model);
              "max_tokens" := VStr (py_str max_tokens);
              "temperature" := VFloat temperature ]} : gmap string value)
  end.

(** [translation_box(title)]: the edit field is filled from the store
    (line 505) and its text selected (line 522) before the form is
    executed. *)
Definition translation_box (env : Env) (title : string) : M (gmap string value) :=
  do _ <- get_config "language" (VStr "");
  do _ <- get_config "language" (VStr "");
  do _ <- modify (add_form title);
  match translation_user env with
  | Fails e => raise e
  | Confirm language =>
      ret ({[ "language" := VStr language ]} : gmap string value)
  | Cancel =>
      do language <- get_config "language" (VStr "");
      ret ({[ "language" := VStr (py_str language) ]} : gmap string value)
  end.

(* ===================================================================== *)
(** ** Command dispatcher *)
(* ===================================================================== *)

(** The body of the [try] of the [settings] branch. *)
Definition settings_flow (env : Env) : M unit :=
  do result <- settings_box env (lang "settings");
  if dict_is_empty result then ret tt
  else
    do openai_api_key <- lift (dict_getitem result "openai_api_key");
    do _ <- set_config "openai_api_key" openai_api_key;
    do openai_model <- lift (dict_getitem result "model");
    do _ <- set_config "model" openai_model;
    do max_tokens <- lift (dict_getitem result "max_tokens");
    do _ <- set_config "max_tokens" max_tokens;
    do temperature <- lift (dict_getitem result "temperature");
    set_config "temperature" temperature.

(** The handler of the [settings] branch: [selection] is still the
    selection object of the document, and the message is appended to its
    first range. *)
Definition append_error (e : exn) : M unit :=
  do current <- getString;
  setString (current +:+ ":error: " +:+ exn_str e).

(** The pipeline shared by the AI commands: complete the selection and
    insert what comes back, when something does. *)
Definition complete_and_insert (env : Env) (selection command language : string)
  : M unit :=
  do ai_result <- process_text env selection command language;
  match ai_result with
  | Some new_text =>
      if truthy new_text then insert_text new_text selection command
      else ret tt
  | None => ret tt
  end.

(** The body of the [try] of the [translate] branch. *)
Definition translate_flow (env : Env) (selection command : string) : M unit :=
  do result <- translation_box env (lang "translate");
  if dict_is_empty result then ret tt
  else
    do language <- lift (dict_getitem result "language");
    do _ <- set_config "language" language;
    if negb (is_empty_str language)
    then complete_and_insert env selection command (py_str language)
    else ret tt.

(** The handler of the [translate] branch: [selection] has been rebound to
    the selected text, a [str], so [selection.getByIndex] raises inside
    the handler. *)
Definition translate_handler (e : exn) : M unit :=
  raise (AttributeError "'str' object has no attribute 'getByIndex'").

(** [trigger(command)] *)
Definition trigger (env : Env) (command : string) : M unit :=
  do _ <- ensure_writer;
  if String.eqb command "hello" then ret tt
  else if String.eqb command "settings" then
    try_except (settings_flow env) append_error
  else if String.eqb command "translate" then
    do doc <- get_document;
    if negb doc then ret tt
    else
      do selection <- getString;
      if negb (truthy (strip selection))
      then show_dialog (lang "error") (lang "no_text_selected")
      else
        do openai_api_key <- get_config "openai_api_key" (VStr "");
        if is_empty_str openai_api_key
        then show_dialog (lang "error") (lang "no_api_key")
        else try_except (translate_flow env selection command) translate_handler
  else
    do doc <- get_document;
    if negb doc then ret tt
    else
      do selection <- getString;
      if negb (truthy (strip selection))
      then show_dialog (lang "error") (lang "no_text_selected")
      else
        do openai_api_key <- get_config "openai_api_key" (VStr "");
        if is_empty_str openai_api_key
        then show_dialog (lang "error") (lang "no_api_key")
        else complete_and_insert env selection command "".

End Extension.

Notation "'do' x <- m ; k" := (bind m (fun x => k))
  (at level 10, x name, m at level 100, k at level 200).

(* ===================================================================== *)
(** ** Start-up: locating the extension and loading the language file *)
(* ===================================================================== *)

Definition EXTENSION_NAME : string := "AIWriterExtension.oxt".
Definition DEFAULT_LANG : string := "es".

(** What the start-up code asks of the platform: the operating system, the
    path services of the office suite, the registry, the file system and
    the locale of the user interface. *)
Record Platform : Type := mkPlatform {
  (** [platform.system()] *)
  system : string;
  (** whether [PathSubstitution] could be imported *)
  HAS_PATH_SUBSTITUTION : bool;
  (** [ps.substituteVariables(text, True)] *)
  substituteVariables : string -> string;
  (** [uno.fileUrlToSystemPath(url)] *)
  fileUrlToSystemPath : string -> string;
  (** [os.path.expanduser("~")] *)
  home : string;
  (** the [InstallPath] value read through [winreg], or the [ImportError]
      or [OSError] of the attempt *)
  install_path : result string;
  (** [os.path.join(a, b)] *)
  join : string -> string -> string;
  (** [os.path.exists(path)] *)
  path_exists : string -> bool;
  (** [os.path.isdir(path)] *)
  isdir : string -> bool;
  (** [os.listdir(path)] *)
  listdir : string -> result (list string);
  (** the [ooLocale] property that [get_ui_language] returns *)
  ooLocale : string;
  (** [open(filename, "r", encoding="utf-8").read()] *)
  read_text : string -> result string;
  (** what an f-string prints for a list of strings *)
  list_repr : list string -> string
}.

(** [os.path.join(first, *rest)] *)
Definition join_all (p : Platform) (first : string) (rest : list string) : string :=
  fold_left (join p) rest first.

(** The three ways the first half of [find_extension_path] ends. *)
Inductive path_choice : Type :=
| Paths (potential_paths : list string)
| Unsupported
| RegistryFailed (e : exn).

Definition choose_paths (p : Platform) : path_choice :=
  if HAS_PATH_SUBSTITUTION p then
    if String.eqb (system p) "Windows" then
      Paths
        [ substituteVariables p
            "${user}/AppData/Roaming/LibreOffice/4/user/uno_packages/cache/uno_packages/";
          substituteVariables p
            "${user}/AppData/Roaming/LibreOffice/user/uno_packages/cache/uno_packages/";
          substituteVariables p
            "${ProgramFiles}/LibreOffice/program/uno_packages/cache/uno_packages/" ]
    else if String.eqb (system p) "Linux" then
      Paths
        [ substituteVariables p "${user}/uno_packages/cache/uno_packages/";
          substituteVariables p
            "${user}/.config/libreoffice/4/user/uno_packages/cache/uno_packages/" ]
    else Unsupported
  else
    if String.eqb (system p) "Windows" then
      match install_path p with
      | Ok install_dir =>
          Paths
            [ join_all p (home p)
                ["AppData"; "Roaming"; "LibreOffice"; "4"; "user";
                 "uno_packages"; "cache"; "uno_packages"];
              join_all p (home p)
                ["AppData"; "Roaming"; "LibreOffice"; "user";
                 "uno_packages"; "cache"; "uno_packages"];
              join_all p install_dir
                ["program"; "uno_packages"; "cache"; "uno_packages"] ]
      | Raise e => RegistryFailed e
      end
    else if String.eqb (system p) "Linux" then
      Paths
        [ join_all p (home p)
            [".config"; "libreoffice"; "4"; "user";
             "uno_packages"; "cache"; "uno_packages"];
          join_all p (home p) ["uno_packages"; "cache"; "uno_packages"] ]
    else Unsupported.

(** The inner loop: the folders of one base path. *)
Fixpoint search_folders (p : Platform) (base_path : string)
    (folders : list string) : result (option string) :=
  match folders with
  | [] => Ok None
  | folder :: rest =>
      let extension_path := join p base_path folder in
      if isdir p extension_path then
        match listdir p extension_path with
        | Raise e => Raise e
        | Ok entries =>
            if bool_decide (EXTENSION_NAME ∈ entries)
            then Ok (Some (join p extension_path EXTENSION_NAME))
            else search_folders p base_path rest
        end
      else search_folders p base_path rest
  end.

(** [base_path] of one potential path *)
Definition base_of (p : Platform) (potential_path : string) : string :=
  if HAS_PATH_SUBSTITUTION p then fileUrlToSystemPath p potential_path
  else potential_path.

(** The outer loop over the potential paths. *)
Fixpoint search_paths (p : Platform) (potential_paths : list string)
  : result (option string) :=
  match potential_paths with
  | [] => Ok None
  | potential_path :: rest =>
      let base_path := base_of p potential_path in
      if path_exists p base_path then
        match listdir p base_path with
        | Raise e => Raise e
        | Ok folders =>
            match search_folders p base_path folders with
            | Ok None => search_paths p rest
            | found => found
            end
        end
      else search_paths p rest
  end.

Section Startup.
Context `{Builtins}.

(** [self.show_dialog(self.lang['error'], message)] followed by
    [return None]. [self.lang] is [None] while [__init__] has not assigned
    it: reading it raises. *)
Definition error_dialog (lang : option (string -> string))
    (message : (string -> string) -> string) : M (option string) :=
  match lang with
  | Some table =>
      do _ <- show_dialog (table "error") (message table);
      ret None
  | None =>
      raise (AttributeError "'AIWriterExtension' object has no attribute 'lang'")
  end.

(** [find_extension_path()] *)
Definition find_extension_path (p : Platform) (lang : option (string -> string))
  : M (option string) :=
  match choose_paths p with
  | Unsupported =>
      error_dialog lang
        (fun table => table "unsuported_os" +:+ " " +:+ system p +:+ ".")
  | RegistryFailed e =>
      error_dialog lang
        (fun table => table "lo_path_error" +:+ ": " +:+ exn_str e)
  | Paths potential_paths =>
      do found <- lift (search_paths p potential_paths);
      match found with
      | Some path => ret (Some path)
      | None =>
          error_dialog lang
            (fun _ => "ERROR: Could not find extension '" +:+ EXTENSION_NAME
                      +:+ "'. Checked potential paths: "
                      +:+ list_repr p potential_paths)
      end
  end.

(** [get_ui_language()] *)
Definition get_ui_language (p : Platform) : string := ooLocale p.

(** [get_language()] *)
Definition get_language (p : Platform) (lang : option (string -> string))
  : M string :=
  do base_path <- find_extension_path p lang;
  let ui := String.substring 0 2 (get_ui_language p) in
  match base_path with
  | None =>
      raise (TypeError
        "expected str, bytes or os.PathLike object, not NoneType")
  | Some base_path =>
      let filename := join_all p base_path ["lang"; ui +:+ ".json"] in
      let filename :=
        if path_exists p filename then filename
        else join_all p base_path ["lang"; DEFAULT_LANG +:+ ".json"] in
      lift (read_text p filename)
  end.

(** The first statement of [__init__]:
    [self.lang = json.loads(self.get_language())]. *)
Definition load_lang (p : Platform) : M (json float) :=
  do text <- get_language p None;
  lift (json_loads text).

End Startup.

(* ===================================================================== *)
(** ** An instance for running the model *)
(* ===================================================================== *)

(** The theorems below hold for every instance of [Builtins] and every
    language table. To run the model on concrete inputs this module gives
    one instance: decimal numbers with finitely many digits for the floats,
    [upper] on the letters a..z, a JSON reader for documents whose
    characters stay below U+0100, and a small English language table. *)
Module Sample.

(** A decimal: [mantissa * 10 ^ (- scale)]. *)
Record decimal : Type := mkDecimal { mantissa : Z; scale : nat }.

Fixpoint digits_value (acc : Z) (s : string) : option Z :=
  match s with
  | EmptyString => Some acc
  | String c s' =>
      match decimal_digit c with
      | Some d => digits_value (10 * acc + d)%Z s'
      | None => None
      end
  end.

(** Splits at the first occurrence of [sep]. *)
Fixpoint split_at (sep : ascii) (s : string) : string * option string :=
  match s with
  | EmptyString => (EmptyString, None)
  | String c s' =>
      if Ascii.eqb c sep then (EmptyString, Some s')
      else let (a, b) := split_at sep s' in (String c a, b)
  end.

Definition unsigned_decimal (s : string) : option decimal :=
  match split_at "."%char s with
  | (int_part, None) =>
      if truthy int_part
      then (fun m => mkDecimal m 0) <$> digits_value 0 int_part
      else None
  | (int_part, Some frac_part) =>
      if truthy int_part || truthy frac_part
      then (fun m => mkDecimal m (String.length frac_part))
             <$> digits_value 0 (int_part +:+ frac_part)
      else None
  end.

Definition decimal_of_string (s : string) : result decimal :=
  let t := strip s in
  let parsed :=
    match t with
    | String "-"%char r =>
        (fun d => mkDecimal (- mantissa d) (scale d)) <$> unsigned_decimal r
    | String "+"%char r => unsigned_decimal r
    | _ => unsigned_decimal t
    end in
  match parsed with
  | Some d => Ok d
  | None => Raise (ValueError ("could not convert string to float: '" +:+ s +:+ "'"))
  end.

Fixpoint pad_zeros (n : nat) (s : string) : string :=
  match n with
  | O => s
  | S n' => if Nat.ltb (String.length s) n then pad_zeros n' ("0" +:+ s) else s
  end.

Definition str_of_decimal (d : decimal) : string :=
  let p := (10 ^ Z.of_nat (scale d))%Z in
  let a := Z.abs (mantissa d) in
  (if (mantissa d <? 0)%Z then "-" else "") +:+ pretty (a / p)%Z +:+ "."
  +:+ (if Nat.eqb (scale d) 0 then "0"
       else pad_zeros (scale d) (pretty (a mod p)%Z)).

Definition int_of_decimal (d : decimal) : result Z :=
  Ok (Z.quot (mantissa d) (10 ^ Z.of_nat (scale d))).

Definition upper_char (c : ascii) : ascii :=
  let n := nat_of_ascii c in
  if Nat.leb 97 n && Nat.leb n 122 then ascii_of_nat (n - 32) else c.

Fixpoint ascii_upper (s : string) : string :=
  match s with
  | EmptyString => EmptyString
  | String c s' => String (upper_char c) (ascii_upper s')
  end.

(** *** A JSON reader *)

Definition dquote : ascii := "034"%char.

Definition json_space (c : ascii) : bool :=
  let n := nat_of_ascii c in
  Nat.eqb n 32 || Nat.eqb n 9 || Nat.eqb n 10 || Nat.eqb n 13.

Fixpoint skip_ws (s : string) : string :=
  match s with
  | EmptyString => EmptyString
  | String c s' => if json_space c then skip_ws s' else s
  end.

(** The characters of a string literal after the opening quote, with the
    single-character escapes; returns the text and what follows the
    closing quote. *)
Fixpoint read_chars (acc : string) (s : string) : option (string * string) :=
  match s with
  | EmptyString => None
  | String c s' =>
      if Ascii.eqb c dquote then Some (acc, s')
      else if Ascii.eqb c "\"%char then
        match s' with
        | String e s'' =>
            let unescaped :=
              if Ascii.eqb e "n"%char then Some "010"%char
              else if Ascii.eqb e "t"%char then Some "009"%char
              else if Ascii.eqb e "r"%char then Some "013"%char
              else if Ascii.eqb e "b"%char then Some "008"%char
              else if Ascii.eqb e "f"%char then Some "012"%char
              else if Ascii.eqb e "/"%char then Some "/"%char
              else if Ascii.eqb e "\"%char then Some "\"%char
              else if Ascii.eqb e dquote then Some dquote
              else None in
            match unescaped with
            | Some u => read_chars (acc +:+ String u "") s''
            | None => None
            end
        | EmptyString => None
        end
      else if Nat.ltb (nat_of_ascii c) 32 then None
      else read_chars (acc +:+ String c "") s'
  end.

Fixpoint strip_prefix (p s : string) : option string :=
  match p, s with
  | EmptyString, _ => Some s
  | String a p', String b s' => if Ascii.eqb a b then strip_prefix p' s' else None
  | _, EmptyString => None
  end.

Definition number_char (c : ascii) : bool :=
  match decimal_digit c with
  | Some _ => true
  | None => Ascii.eqb c "-"%char || Ascii.eqb c "."%char
  end.

Fixpoint span (p : ascii -> bool) (s : string) : string * string :=
  match s with
  | EmptyString => (EmptyString, EmptyString)
  | String c s' =>
      if p c then let (a, b) := span p s' in (String c a, b)
      else (EmptyString, s)
  end.

Definition read_number (s : string) : option (json decimal * string) :=
  let (token, rest) := span number_char s in
  match int_of_string token, decimal_of_string token with
  | Ok n, _ => if all_chars (fun c => negb (Ascii.eqb c "_"%char)) token
               then Some (JInt n, rest) else None
  | _, Ok d => Some (JFloat d, rest)
  | _, _ => None
  end.

Definition read_scalar (s : string) : option (json decimal * string) :=
  match strip_prefix "null" s, strip_prefix "true" s, strip_prefix "false" s with
  | Some r, _, _ => Some (JNull, r)
  | _, Some r, _ => Some (JBool true, r)
  | _, _, Some r => Some (JBool false, r)
  | _, _, _ => read_number s
  end.

Fixpoint read_value (fuel : nat) (s : string) : option (json decimal * string) :=
  match fuel with
  | O => None
  | S n =>
      match skip_ws s with
      | EmptyString => None
      | String c r =>
          if Ascii.eqb c "{"%char then
            match skip_ws r with
            | String "}"%char r' => Some (JObj ∅, r')
            | _ => read_members n ∅ r
            end
          else if Ascii.eqb c "["%char then
            match skip_ws r with
            | String "]"%char r' => Some (JArr [], r')
            | _ => read_elements n [] r
            end
          else if Ascii.eqb c dquote then
            match read_chars "" r with
            | Some (text, r') => Some (JStr text, r')
            | None => None
            end
          else read_scalar (String c r)
      end
  end
with read_elements (fuel : nat) (acc : list (json decimal)) (s : string)
  : option (json decimal * string) :=
  match fuel with
  | O => None
  | S n =>
      match read_value n s with
      | None => None
      | Some (v, r) =>
          match skip_ws r with
          | String ","%char r' => read_elements n (acc ++ [v]) r'
          | String "]"%char r' => Some (JArr (acc ++ [v]), r')
          | _ => None
          end
      end
  end
with read_members (fuel : nat) (acc : gmap string (json decimal)) (s : string)
  : option (json decimal * string) :=
  match fuel with
  | O => None
  | S n =>
      match skip_ws s with
      | String c r =>
          if Ascii.eqb c dquote then
            match read_chars "" r with
            | Some (key, r1) =>
                match skip_ws r1 with
                | String ":"%char r2 =>
                    match read_value n r2 with
                    | Some (v, r3) =>
                        match skip_ws r3 with
                        | String ","%char r4 => read_members n (<[key := v]> acc) r4
                        | String "}"%char r4 => Some (JObj (<[key := v]> acc), r4)
                        | _ => None
                        end
                    | None => None
                    end
                | _ => None
                end
            | None => None
            end
          else None
      | EmptyString => None
      end
  end.

Definition read_json (s : string) : result (json decimal) :=
  match read_value (2 * String.length s + 2) s with
  | Some (v, r) =>
      match skip_ws r with
      | EmptyString => Ok v
      | _ => Raise (ValueError "Extra data")
      end
  | None => Raise (ValueError "Expecting value")
  end.

#[global] Instance builtins : Builtins := {|
  float := decimal;
  float_of_string := decimal_of_string;
  float_of_int := fun n => Ok (mkDecimal n 0);
  int_of_float := int_of_decimal;
  str_of_float := str_of_decimal;
  upper := ascii_upper;
  json_loads := read_json
|}.

(** The language table: placeholders for the labels of the language file. *)
Definition table : gmap string string :=
  list_to_map
    [ ("error", "Error");
      ("no_text_selected", "No text selected");
      ("no_api_key", "No API key configured");
      ("settings", "Settings");
      ("translate", "Translate");
      ("prompt_assistant", "You are a writing assistant");
      ("prompt_complete", "Complete the following text");
      ("prompt_summarize", "Summarize the following text");
      ("prompt_improve", "Improve the following text");
      ("prompt_expand", "Expand the following text");
      ("prompt_translate", "Translate the following text to");
      ("block_start", "START");
      ("block_end", "END");
      ("command_complete", "complete");
      ("command_summarize", "summarize");
      ("command_improve", "improve");
      ("command_expand", "expand");
      ("command_translate", "translate") ].

Definition lang (key : string) : string := default "" (table !! key).

(** A world with an empty Writer selection, no settings file and nothing
    shown or sent yet. *)
Definition fresh : World :=
  mkWorld FileMissing None "/profile/aiwriter.json" (Writer "") [] [] [] [].

Definition with_file (f : file_state) (w : World) : World := set_settings_file f w.
Definition with_selection (s : string) (w : World) : World := set_component (Writer s) w.

(** The settings file a confirmed settings dialog leaves behind. *)
Definition saved_settings : gmap string value :=
  {[ "openai_api_key" := VStr "sk-test";
     "model" := VStr "gpt-4o-mini";
     "max_tokens" := VInt 1000;
     "temperature" := VFloat (mkDecimal 5 1) ]}.

(** A world with saved settings and the text [hola] selected. *)
Definition ready : World :=
  with_selection "hola" (with_file (FileObject saved_settings) fresh).

(** The fresh world on a profile that cannot be written. *)
Definition read_only : World :=
  mkWorld FileMissing
          (Some "[Errno 13] Permission denied: '/profile/aiwriter.json'")
          "/profile/aiwriter.json" (Writer "") [] [] [] [].

(** An environment in which every dialog is cancelled and the endpoint
    does not answer. *)
Definition quiet : Env := mkEnv (Unreachable (URLError "timed out")) Cancel Cancel.

End Sample.

(* ===================================================================== *)
(** ** Notions of the specification *)
(* ===================================================================== *)

(** The commands that run the completion pipeline: the enumeration of the
    data model without [settings]. *)
Definition ai_commands : list string :=
  ["translate"; "complete"; "summarize"; "improve"; "expand"].

(** The start and end markers of the inserted block, as the specification
    writes them: [[---<START-LABEL> <COMMAND-LABEL> <LANGUAGE>---]] and
    [[/---<END-LABEL> <COMMAND-LABEL> <LANGUAGE>---]], the command label
    being uppercased. *)
Definition start_marker `{Builtins} (lang : string -> string)
    (command language : string) : string :=
  "[---" +:+ lang "block_start" +:+ " " +:+ upper (lang ("command_" +:+ command))
  +:+ " " +:+ language +:+ "---]".

Definition end_marker `{Builtins} (lang : string -> string)
    (command language : string) : string :=
  "[/---" +:+ lang "block_end" +:+ " " +:+ upper (lang ("command_" +:+ command))
  +:+ " " +:+ language +:+ "---]".

(** The settings file is absent, fails to load with one of the two
    exceptions the store catches, or holds a JSON object: the states in
    which [get_config] and [set_config] return. *)
Definition readable `{Builtins} (w : World) : bool :=
  match settings_file w with
  | FileMissing | FileUnreadable | FileObject _ => true
  | FileUndecodable _ | FileOther _ => false
  end.

(** What [get_config(key, dflt)] returns in world [w]; [dflt] where it
    raises. *)
Definition stored `{Builtins} (w : World) (key : string) (dflt : value) : value :=
  match fst (get_config key dflt w) with
  | Ok v => v
  | Raise _ => dflt
  end.

(** The world [set_config(key, val)] leaves behind. *)
Definition written `{Builtins} (key : string) (val : value) (w : World) : World :=
  snd (set_config key val w).

(** The request [process_text] sends from world [w] for a prompt, once
    the stored [max_tokens] and [temperature] have been converted. *)
Definition request_for `{Builtins} (lang : string -> string) (w : World)
    (prompt : string) (max_completion_tokens : Z) (temperature : float)
  : request :=
  mkRequest API_URL
    ("Bearer " +:+ py_str (stored w "openai_api_key" (VStr "")))
    (stored w "model" (VStr "gpt-4o-mini"))
    (lang "prompt_assistant") prompt max_completion_tokens temperature.

(** [process_text] gets as far as sending [req]: the command has a
    prompt, the store can be read and the stored [max_tokens] and
    [temperature] convert. *)
Definition request_built `{Builtins} (lang : string -> string) (w : World)
    (text command language : string) (req : request) : Prop :=
  readable w = true
  /\ exists prompt n t,
    build_prompt lang command text language = Some prompt
    /\ py_int (stored w "max_tokens" (VStr "1000")) = Ok n
    /\ py_float (stored w "temperature" (VStr "0.5")) = Ok t
    /\ req = request_for lang w prompt n t.

Definition quoted (s : string) : string :=
  String Sample.dquote (s +:+ String Sample.dquote "").

(** The response body of the specification's example, as text and as the
    document it denotes. *)
Definition hello_body : string :=
  "{" +:+ quoted "choices" +:+ ":[{" +:+ quoted "message" +:+ ":{"
  +:+ quoted "content" +:+ ":" +:+ quoted " Hello " +:+ "}}]}".

Definition hello_document {F : Type} : json F :=
  JObj {[ "choices" :=
    JArr [ JObj {[ "message" := JObj {[ "content" := JStr " Hello " ]} ]} ] ]}.

(** A response whose message has no text: [content] is [null]. *)
Definition null_body : string :=
  "{" +:+ quoted "choices" +:+ ":[{" +:+ quoted "message" +:+ ":{"
  +:+ quoted "content" +:+ ":null}}]}".

Definition null_document {F : Type} : json F :=
  JObj {[ "choices" :=
    JArr [ JObj {[ "message" := JObj {[ "content" := JNull ]} ]} ] ]}.

(** What a decoded response holds at [choices[0].message.content]: the
    member [content] of the object that is the member [message] of the
    object that is the first element of the list that is the member
    [choices] of the response object; [None] when there is no such
    path. *)
Definition content_at_path {F : Type} (response_data : json F) : option (json F) :=
  match response_data with
  | JObj members =>
      match members !! "choices" with
      | Some (JArr (JObj choice :: _)) =>
          match choice !! "message" with
          | Some (JObj message) => message !! "content"
          | _ => None
          end
      | _ => None
      end
  | _ => None
  end.

(** [hay.startswith(needle)] *)
Fixpoint starts_with (needle hay : string) : bool :=
  match needle, hay with
  | EmptyString, _ => true
  | String a needle', String b hay' => Ascii.eqb a b && starts_with needle' hay'
  | String _ _, EmptyString => false
  end.

(** The number of positions of [hay] at which [needle] occurs. *)
Fixpoint occurrences (needle hay : string) : nat :=
  match hay with
  | EmptyString => if starts_with needle hay then 1 else 0
  | String _ rest =>
      (if starts_with needle hay then 1 else 0) + occurrences needle rest
  end.

(** The text the specification gives for the cursor after [insert_text]. *)
Definition marked_output `{Builtins} (lang : string -> string)
    (selection new_text command language : string) : string :=
  selection +:+ nl +:+ nl +:+ start_marker lang command language +:+ nl
  +:+ new_text +:+ nl +:+ end_marker lang command language +:+ nl +:+ nl.

(** No opening bracket in [s]. *)
Definition no_bracket (s : string) : bool :=
  all_chars (fun c => negb (Ascii.eqb c "["%char)) s.

(** The world once [trigger] has made sure a Writer document is the
    current component. *)
Definition opened `{Builtins} (w : World) : World :=
  match component w with
  | Writer _ => w
  | _ => set_component (Writer "") w
  end.

(** Every character of [s] is one of the decimal digits 0..9. *)
Definition all_decimal (s : string) : bool :=
  all_chars (fun c => bool_decide (is_Some (decimal_digit c))) s.

(** A folder of [base] that holds the extension. *)
Definition holds_extension (p : Platform) (base folder : string) : bool :=
  isdir p (join p base folder)
  && match listdir p (join p base folder) with
     | Ok entries => bool_decide (EXTENSION_NAME ∈ entries)
     | Raise _ => false
     end.

(** Every installed copy, in the order of the potential paths and, within
    one of them, of its directory listing. *)
Definition installed_copies (p : Platform) (potential_paths : list string)
  : list string :=
  concat
    (map (fun potential_path =>
            let base := base_of p potential_path in
            if path_exists p base then
              match listdir p base with
              | Ok folders =>
                  map (fun folder => join p (join p base folder) EXTENSION_NAME)
                      (List.filter (holds_extension p base) folders)
              | Raise _ => []
              end
            else [])
         potential_paths).

(** Every directory can be listed. *)
Definition listable (p : Platform) : Prop :=
  forall path, isdir p path = true -> exists entries, listdir p path = Ok entries.

(** A potential path that exists is a directory. *)
Definition bases_are_directories (p : Platform) (potential_paths : list string)
  : Prop :=
  forall potential_path,
    potential_path ∈ potential_paths ->
    path_exists p (base_of p potential_path) = true ->
    isdir p (base_of p potential_path) = true.

(** The platform with another locale of the user interface. *)
Definition with_locale (locale : string) (p : Platform) : Platform :=
  mkPlatform (system p) (HAS_PATH_SUBSTITUTION p) (substituteVariables p)
    (fileUrlToSystemPath p) (home p) (install_path p) (join p) (path_exists p)
    (isdir p) (listdir p) locale (read_text p) (list_repr p).

(* ===================================================================== *)
(** ** A host for running the start-up code, and further worlds *)
(* ===================================================================== *)

Module Cases.

(** [a.endswith("/")] *)
Fixpoint ends_with_slash (a : string) : bool :=
  match a with
  | EmptyString => false
  | String c EmptyString => Ascii.eqb c "/"%char
  | String _ rest => ends_with_slash rest
  end.

(** [posixpath.join(a, b)] *)
Definition posix_join (a b : string) : string :=
  if starts_with "/" b then b
  else if negb (truthy a) || ends_with_slash a then a +:+ b
  else a +:+ "/" +:+ b.

(** [repr] of a list of strings without quotes or backslashes. *)
Fixpoint repr_items (l : list string) : string :=
  match l with
  | [] => ""
  | [a] => "'" +:+ a +:+ "'"
  | a :: rest => "'" +:+ a +:+ "', " +:+ repr_items rest
  end.

Definition repr_list (l : list string) : string := "[" +:+ repr_items l +:+ "]".

(** A POSIX host without [PathSubstitution] and without [winreg]: the
    directories with their listings, and the text files. *)
Definition host (system locale : string)
    (directories : gmap string (list string)) (files : gmap string string)
  : Platform :=
  mkPlatform system false (fun text => text) (fun url => url) "/home/ana"
    (Raise (HostError "No module named 'winreg'"))
    posix_join
    (fun path =>
       match directories !! path, files !! path with
       | None, None => false
       | _, _ => true
       end)
    (fun path =>
       match directories !! path with Some _ => true | None => false end)
    (fun path =>
       match directories !! path with
       | Some entries => Ok entries
       | None =>
           Raise (HostError
             ("[Errno 2] No such file or directory: '" +:+ path +:+ "'"))
       end)
    locale
    (fun path =>
       match files !! path with
       | Some text => Ok text
       | None =>
           Raise (HostError
             ("[Errno 2] No such file or directory: '" +:+ path +:+ "'"))
       end)
    repr_list.

Definition cache : string :=
  "/home/ana/.config/libreoffice/4/user/uno_packages/cache/uno_packages".

(** Where the second folder of the cache holds the extension. *)
Definition installed : string :=
  cache +:+ "/lu9920.tmp_/AIWriterExtension.oxt".

Definition english : string :=
  "{" +:+ quoted "error" +:+ ":" +:+ quoted "Error" +:+ "}".

Definition spanish : string :=
  "{" +:+ quoted "error" +:+ ":" +:+ quoted "Fallo" +:+ "}".

Definition directories : gmap string (list string) :=
  list_to_map
    [ (cache, ["lu4431.tmp_"; "lu9920.tmp_"; "registry.txt"]);
      (cache +:+ "/lu4431.tmp_", ["Other.oxt"]);
      (cache +:+ "/lu9920.tmp_", ["AIWriterExtension.oxt"]);
      (installed, ["AIWriterExtension.py"; "lang"]);
      (installed +:+ "/lang", ["en.json"; "es.json"]) ].

Definition files : gmap string string :=
  list_to_map
    [ (cache +:+ "/registry.txt", "");
      (installed +:+ "/AIWriterExtension.py", "");
      (installed +:+ "/lang/en.json", english);
      (installed +:+ "/lang/es.json", spanish) ].

(** A Linux host with the extension installed for the user. *)
Definition linux : Platform := host "Linux" "en-US" directories files.

(** The potential paths of the manual Linux branch on that host. *)
Definition linux_paths : list string :=
  [ cache; "/home/ana/uno_packages/cache/uno_packages" ].

(** A Linux host on which the extension is not installed. *)
Definition bare : Platform := host "Linux" "en-US" ∅ ∅.

(** Saved settings whose [max_tokens] was edited by hand. *)
Definition hand_edited : World :=
  Sample.with_selection "hola"
    (Sample.with_file
       (FileObject {[ "openai_api_key" := VStr "sk-test";
                      "max_tokens" := VStr "many" ]})
       Sample.fresh).


(** A settings file that holds the JSON list [[]]. *)
Definition listed : World :=
  Sample.with_file (FileOther OtherList) Sample.ready.

(** The ready world with French stored as the target language. *)
Definition bilingual : World :=
  Sample.with_file
    (FileObject (<[ "language" := VStr "fr" ]> Sample.saved_settings))
    Sample.ready.

(** The same on a profile that cannot be written. *)
Definition locked : World :=
  mkWorld (FileObject (<[ "language" := VStr "fr" ]> Sample.saved_settings))
          (Some "[Errno 13] Permission denied: '/profile/aiwriter.json'")
          "/profile/aiwriter.json" (Writer "hola") [] [] [] [].

(** An endpoint that answers with the example body, and a user who asks
    for [language] in the translation dialog. *)
Definition answering (language : string) : Env :=
  mkEnv (Reply 200 "OK" hello_body) Cancel (Confirm language).

(** A user who confirms the settings dialog with the four fields. *)
Definition entering (key model max_tokens temperature : string) : Env :=
  mkEnv (Unreachable (URLError "timed out"))
        (Confirm (mkSettingsForm key model max_tokens temperature)) Cancel.

End Cases.

Create Rewrite HintDb world.

(* ===================================================================== *)
(** ** Properties *)
(* ===================================================================== *)

Lemma append_assoc (a b c : string) : (a +:+ b) +:+ c = a +:+ b +:+ c.
Proof.
  induction a as [|x a IH]; [reflexivity|].
  change (String x ((a +:+ b) +:+ c) = String x (a +:+ b +:+ c)).
  now rewrite IH.
Qed.

Lemma append_nil_r (a : string) : a +:+ "" = a.
Proof.
  induction a as [|x a IH]; [reflexivity|].
  change (String x (a +:+ "") = String x a). now rewrite IH.
Qed.

Section Properties.
Context `{Builtins}.
Variable lang : string -> string.

(** *** Settings store *)

Lemma get_config_readable w key dflt :
  readable w = true -> get_config key dflt w = (Ok (stored w key dflt), w).
Proof.
  unfold stored, readable, get_config.
  destruct (settings_file w) as [| |msg|config_data|doc]; try discriminate;
    intros _; try reflexivity.
  now destruct (config_data !! key).
Qed.

Lemma set_config_readable w key val :
  readable w = true -> set_config key val w = (Ok tt, written key val w).
Proof.
  unfold written, readable, set_config.
  destruct (settings_file w); try discriminate; intros _; cbn;
    now destruct (write_error w).
Qed.

(** Outside the readable states every read of the store raises the same
    exception, and nothing changes. *)
Lemma get_config_escapes w :
  readable w = false ->
  exists e, forall key dflt, get_config key dflt w = (Raise e, w).
Proof.
  unfold readable, get_config.
  destruct (settings_file w) as [| |msg|config_data|doc]; try discriminate;
    intros _; eexists; intros key dflt; reflexivity.
Qed.

Lemma set_config_escapes w key val :
  readable w = false -> exists e, set_config key val w = (Raise e, w).
Proof.
  unfold readable, set_config.
  destruct (settings_file w) as [| |msg|config_data|doc]; try discriminate;
    intros _; eexists; reflexivity.
Qed.

Lemma bind_get_config {B} key dflt (k : value -> M B) w :
  readable w = true -> bind (get_config key dflt) k w = k (stored w key dflt) w.
Proof. intros Hr. unfold bind. now rewrite (get_config_readable _ _ _ Hr). Qed.

Lemma bind_set_config {B} key val (k : unit -> M B) w :
  readable w = true -> bind (set_config key val) k w = k tt (written key val w).
Proof. intros Hr. unfold bind. now rewrite (set_config_readable _ _ _ Hr). Qed.

Lemma stored_missing w key dflt :
  settings_file w = FileMissing -> stored w key dflt = dflt.
Proof. unfold stored, get_config. now intros ->. Qed.

Lemma stored_unreadable w key dflt :
  settings_file w = FileUnreadable -> stored w key dflt = dflt.
Proof. unfold stored, get_config. now intros ->. Qed.

Lemma stored_object w key dflt config_data :
  settings_file w = FileObject config_data ->
  stored w key dflt = default dflt (config_data !! key).
Proof.
  unfold stored, get_config. intros ->. now destruct (config_data !! key).
Qed.

(** What the file holds after [set_config] when it can be read and
    written. *)
Lemma written_file key val w :
  readable w = true ->
  write_error w = None ->
  exists config_data,
    settings_file (written key val w) = FileObject (<[key := val]> config_data)
    /\ (forall d, settings_file w = FileObject d -> config_data = d).
Proof.
  intros Hr Hw. unfold written, set_config. unfold readable in Hr.
  destruct (settings_file w) as [| |msg|d|doc]; try discriminate; cbn;
    rewrite Hw; cbn; eexists; (split; [reflexivity|]); intros d' Hd; congruence.
Qed.

(** When the file cannot be written, [set_config] prints and leaves it. *)
Lemma written_refused key val w e :
  write_error w = Some e ->
  settings_file (written key val w) = settings_file w.
Proof.
  intros Hw. unfold written, set_config.
  destruct (settings_file w) eqn:Hf; cbn; rewrite ?Hw; cbn; exact Hf.
Qed.

Lemma printed_refused key val w e :
  readable w = true ->
  write_error w = Some e ->
  printed (written key val w)
  = printed w ++ ["Error writing to " +:+ config_file_path w +:+ ": " +:+ e].
Proof.
  intros Hr Hw. unfold written, set_config. unfold readable in Hr.
  destruct (settings_file w); try discriminate; cbn; rewrite Hw; reflexivity.
Qed.

Lemma readable_written key val w : readable (written key val w) = readable w.
Proof.
  unfold written, set_config, readable.
  destruct (settings_file w) eqn:Hf; cbn; rewrite ?Hf; try reflexivity;
    destruct (write_error w); cbn; rewrite ?Hf; reflexivity.
Qed.

Lemma readable_opened w : readable (opened w) = readable w.
Proof. unfold opened. now destruct (component w). Qed.

Lemma get_config_same_file w1 w2 key dflt :
  settings_file w1 = settings_file w2 ->
  fst (get_config key dflt w1) = fst (get_config key dflt w2).
Proof.
  unfold get_config. intros ->.
  destruct (settings_file w2) as [| |msg|d|doc]; try reflexivity.
  now destruct (d !! key).
Qed.

Lemma stored_same_file w1 w2 key dflt :
  settings_file w1 = settings_file w2 -> stored w1 key dflt = stored w2 key dflt.
Proof.
  intros Hfile. unfold stored.
  now rewrite (get_config_same_file w1 w2 key dflt Hfile).
Qed.

Ltac solve_readable :=
  rewrite ?readable_written, ?readable_opened;
  match goal with
  | Hr : readable _ = true |- _ => exact Hr
  end.

Ltac store_step :=
  first [ rewrite bind_get_config by solve_readable
        | rewrite bind_set_config by solve_readable
        | rewrite get_config_readable by solve_readable
        | rewrite set_config_readable by solve_readable ];
  cbv beta.

(** C6 (as amended). In the states in which the settings file is absent,
    fails to load with [IOError] or [JSONDecodeError], or holds a JSON
    object: when the file can be written, [set_config] returns and
    [get_config] on the same key then returns the written value; when
    opening it for writing raises an I/O error, [set_config] prints the
    error and returns, the file is as before and [get_config] answers as
    it did before the call. [get_config] returns the supplied default,
    without raising and without changing anything, when the file is
    missing, when loading it fails with one of those two exceptions, and
    when it holds an object without the key. *)
Theorem settings_round_trip_and_fallback :
  (forall key val dflt w,
      readable w = true ->
      write_error w = None ->
      exists w',
        set_config key val w = (Ok tt, w')
        /\ get_config key dflt w' = (Ok val, w'))
  /\ (forall key val dflt w e,
      readable w = true ->
      write_error w = Some e ->
      exists w',
        set_config key val w = (Ok tt, w')
        /\ printed w'
           = printed w ++ ["Error writing to " +:+ config_file_path w +:+ ": " +:+ e]
        /\ settings_file w' = settings_file w
        /\ fst (get_config key dflt w') = fst (get_config key dflt w))
  /\ (forall key dflt w,
      settings_file w = FileMissing \/ settings_file w = FileUnreadable
      \/ (exists config_data,
            settings_file w = FileObject config_data /\ config_data !! key = None) ->
      get_config key dflt w = (Ok dflt, w)).
Proof.
  split; [|split].
  - intros key val dflt w Hr Hw. exists (written key val w).
    split; [now apply set_config_readable|].
    rewrite get_config_readable by solve_readable.
    destruct (written_file key val w Hr Hw) as (d & Hfile & _).
    rewrite (stored_object _ _ _ _ Hfile).
    now rewrite lookup_insert_eq.
  - intros key val dflt w e Hr Hw. exists (written key val w).
    split; [now apply set_config_readable|].
    split; [now apply printed_refused|].
    pose proof (written_refused key val w e Hw) as Hfile.
    split; [exact Hfile|].
    now apply get_config_same_file.
  - intros key dflt w Hcase.
    assert (Hr : readable w = true).
    { unfold readable.
      destruct Hcase as [-> | [-> | (d & -> & _)]]; reflexivity. }
    rewrite (get_config_readable _ _ _ Hr). f_equal. f_equal.
    destruct Hcase as [Hm | [Hu | (d & Hd & Hk)]].
    + now apply stored_missing.
    + now apply stored_unreadable.
    + rewrite (stored_object _ _ _ _ Hd). now rewrite Hk.
Qed.

(** C10. [set_config] writes only the given key: a different key that the
    settings file held before the call is read back with the same value
    after it. *)
Theorem set_config_keeps_other_keys key val other dflt w config_data v :
  settings_file w = FileObject config_data ->
  config_data !! other = Some v ->
  other <> key ->
  exists w',
    set_config key val w = (Ok tt, w')
    /\ get_config other dflt w' = (Ok v, w')
    /\ get_config other dflt w = (Ok v, w).
Proof.
  intros Hfile Hother Hne.
  assert (Hr : readable w = true) by (unfold readable; now rewrite Hfile).
  assert (Hbefore : stored w other dflt = v).
  { rewrite (stored_object _ _ _ _ Hfile). now rewrite Hother. }
  exists (written key val w).
  split; [now apply set_config_readable|].
  rewrite !get_config_readable by solve_readable. rewrite Hbefore.
  split; [|reflexivity]. f_equal. f_equal.
  destruct (write_error w) as [e|] eqn:Hw.
  - rewrite <- Hbefore. apply stored_same_file.
    now apply (written_refused key val w e).
  - destruct (written_file key val w Hr Hw) as (d & Hafter & Hd).
    rewrite (stored_object _ _ _ _ Hafter).
    rewrite (Hd _ Hfile).
    rewrite lookup_insert_ne by congruence. now rewrite Hother.
Qed.

(** *** Prompt builder *)

Lemma not_ai_command command :
  command ∉ ai_commands ->
  command <> "translate" /\ command <> "complete" /\ command <> "summarize"
  /\ command <> "improve" /\ command <> "expand".
Proof.
  unfold ai_commands. intros Hn.
  repeat split; intros ->; apply Hn; set_solver.
Qed.

Lemma build_prompt_unrecognized command text language :
  command ∉ ai_commands -> build_prompt lang command text language = None.
Proof.
  intros Hn. apply not_ai_command in Hn as (? & ? & ? & ? & ?).
  unfold build_prompt, prompt_map.
  repeat (rewrite lookup_insert_ne by congruence).
  now apply lookup_singleton_ne.
Qed.

Lemma build_prompt_recognized command text language :
  command ∈ ai_commands ->
  exists prompt, build_prompt lang command text language = Some prompt.
Proof.
  unfold ai_commands. intros Hin.
  repeat (apply elem_of_cons in Hin as [-> | Hin]); [..|now apply elem_of_nil in Hin];
    eexists; unfold build_prompt, prompt_map; vm_compute; reflexivity.
Qed.

(** C4. The prompt table: the two prompts of the specification, the
    prompt of each of the four plain commands and of [translate] for every
    text and language, and no prompt for a command outside the table, for
    which [process_text] returns [None] without doing anything. *)
Theorem build_prompt_table :
  build_prompt lang "translate" "hola" "en"
    = Some (lang "prompt_translate" +:+ " en: hola")
  /\ build_prompt lang "summarize" "hola" ""
    = Some (lang "prompt_summarize" +:+ ": hola")
  /\ (forall text language,
        build_prompt lang "complete" text language
          = Some (lang "prompt_complete" +:+ ": " +:+ text)
        /\ build_prompt lang "summarize" text language
          = Some (lang "prompt_summarize" +:+ ": " +:+ text)
        /\ build_prompt lang "improve" text language
          = Some (lang "prompt_improve" +:+ ": " +:+ text)
        /\ build_prompt lang "expand" text language
          = Some (lang "prompt_expand" +:+ ": " +:+ text)
        /\ build_prompt lang "translate" text language
          = Some (lang "prompt_translate" +:+ " " +:+ language +:+ ": " +:+ text))
  /\ (forall command text language,
        command ∉ ai_commands ->
        build_prompt lang command text language = None
        /\ forall env w,
            process_text lang env text command language w = (Ok None, w)).
Proof.
  split; [|split; [|split]].
  - reflexivity.
  - reflexivity.
  - intros text language. repeat split; reflexivity.
  - intros command text language Hn.
    pose proof (build_prompt_unrecognized command text language Hn) as Hb.
    split; [exact Hb|]. intros env w. unfold process_text. now rewrite Hb.
Qed.

(** *** Completion client *)

Lemma process_text_sends env text command language w prompt n t :
  readable w = true ->
  build_prompt lang command text language = Some prompt ->
  py_int (stored w "max_tokens" (VStr "1000")) = Ok n ->
  py_float (stored w "temperature" (VStr "0.5")) = Ok t ->
  process_text lang env text command language w
  = try_except
      (do response <- urlopen env (request_for lang w prompt n t);
       if (fst response =? 200)%Z
       then
         do response_data <- lift (json_loads (snd response));
         do content <- lift (message_content response_data);
         do stripped <- lift (strip_method content);
         ret (Some stripped)
       else
         do _ <- show_dialog (lang "error") (snd response);
         ret None)
      (fun e =>
         do _ <- show_dialog (lang "error") (exn_str e);
         ret None) w.
Proof.
  intros Hr Hp Hn Ht. unfold process_text. rewrite Hp.
  do 3 store_step. unfold bind at 1, lift at 1. rewrite Hn.
  store_step. unfold bind at 1, lift at 1. rewrite Ht.
  reflexivity.
Qed.

(** Where the store cannot be read, [process_text] raises at its first
    read, before anything is sent or shown. *)
Lemma process_text_escapes env text command language w :
  readable w = false ->
  is_Some (build_prompt lang command text language) ->
  exists e, process_text lang env text command language w = (Raise e, w).
Proof.
  intros Hr [prompt Hp]. destruct (get_config_escapes w Hr) as (e & He).
  exists e. unfold process_text. rewrite Hp. unfold bind at 1. now rewrite He.
Qed.

(** A reply whose status is outside 200..299 never reaches the status test
    of [process_text]: [urlopen] raises, and the dialog shows the text of
    the [HTTPError]. *)
Lemma process_text_error_status env text command language w req status reason body :
  request_built lang w text command language req ->
  endpoint env = Reply status reason body ->
  (status < 200 \/ 300 <= status)%Z ->
  process_text lang env text command language w
  = (Ok None,
     add_dialog (lang "error", "HTTP Error " +:+ pretty status +:+ ": " +:+ reason)
                (add_request req w)).
Proof.
  intros (Hr & prompt & n & t & Hp & Hn & Ht & ->) Hreply Hstatus.
  rewrite (process_text_sends _ _ _ _ _ _ _ _ Hr Hp Hn Ht).
  unfold try_except, bind, urlopen, bind, modify. rewrite Hreply.
  assert ((200 <=? status)%Z && (status <? 300)%Z = false) as ->.
  { apply andb_false_iff. destruct Hstatus; [left|right]; lia. }
  reflexivity.
Qed.

(** A reply with a status in 201..299 reaches the [else] branch: the
    dialog shows the response body. *)
Lemma process_text_other_success_status env text command language w req status reason body :
  request_built lang w text command language req ->
  endpoint env = Reply status reason body ->
  (200 < status < 300)%Z ->
  process_text lang env text command language w
  = (Ok None, add_dialog (lang "error", body) (add_request req w)).
Proof.
  intros (Hr & prompt & n & t & Hp & Hn & Ht & ->) Hreply Hstatus.
  rewrite (process_text_sends _ _ _ _ _ _ _ _ Hr Hp Hn Ht).
  unfold try_except, bind, urlopen, bind, modify. rewrite Hreply.
  assert ((200 <=? status)%Z && (status <? 300)%Z = true) as ->.
  { apply andb_true_iff. split; lia. }
  unfold ret. cbn [fst snd].
  assert ((status =? 200)%Z = false) as -> by lia.
  reflexivity.
Qed.

(** No reply: the dialog shows the text of the exception. *)
Lemma process_text_unreachable env text command language w req e :
  request_built lang w text command language req ->
  endpoint env = Unreachable e ->
  process_text lang env text command language w
  = (Ok None, add_dialog (lang "error", exn_str e) (add_request req w)).
Proof.
  intros (Hr & prompt & n & t & Hp & Hn & Ht & ->) Hreply.
  rewrite (process_text_sends _ _ _ _ _ _ _ _ Hr Hp Hn Ht).
  unfold try_except, bind, urlopen, bind, modify. rewrite Hreply.
  reflexivity.
Qed.

Lemma process_text_ok env text command language w req reason body :
  request_built lang w text command language req ->
  endpoint env = Reply 200 reason body ->
  process_text lang env text command language w
  = match json_loads body with
    | Raise e => (Ok None, add_dialog (lang "error", exn_str e) (add_request req w))
    | Ok response_data =>
        match message_content response_data with
        | Raise e => (Ok None, add_dialog (lang "error", exn_str e) (add_request req w))
        | Ok content =>
            match strip_method content with
            | Raise e => (Ok None, add_dialog (lang "error", exn_str e) (add_request req w))
            | Ok stripped => (Ok (Some stripped), add_request req w)
            end
        end
    end.
Proof.
  intros (Hr & prompt & n & t & Hp & Hn & Ht & ->) Hreply.
  rewrite (process_text_sends _ _ _ _ _ _ _ _ Hr Hp Hn Ht).
  unfold try_except, bind, urlopen, bind, modify. rewrite Hreply.
  simpl. unfold lift, ret.
  destruct (json_loads body) as [response_data|e]; [|reflexivity].
  destruct (message_content response_data) as [content|e]; [|reflexivity].
  destruct (strip_method content) as [stripped|e]; reflexivity.
Qed.

(** The path of the specification is the path the code follows. *)
Lemma message_content_at_path response_data v :
  content_at_path response_data = Some v -> message_content response_data = Ok v.
Proof.
  unfold content_at_path, message_content, getitem, getitem0.
  destruct response_data as [| | | | | |members]; try discriminate.
  destruct (members !! "choices") as [choices|]; [|discriminate].
  destruct choices as [| | | | |items|]; try discriminate.
  destruct items as [|first rest]; [discriminate|].
  destruct first as [| | | | | |choice]; try discriminate.
  destruct (choice !! "message") as [message|]; [|discriminate].
  destruct message as [| | | | | |message]; try discriminate.
  now intros ->.
Qed.

Lemma content_at_path_followed response_data v :
  message_content response_data = Ok v -> content_at_path response_data = Some v.
Proof.
  unfold content_at_path, message_content, getitem, getitem0.
  destruct response_data as [| | | | | |members]; try discriminate.
  destruct (members !! "choices") as [choices|]; [|discriminate].
  destruct choices as [| | | |text|items|]; try discriminate.
  - destruct text; discriminate.
  - destruct items as [|first rest]; [discriminate|].
    destruct first as [| | | | | |choice]; try discriminate.
    destruct (choice !! "message") as [message|]; [|discriminate].
    destruct message as [| | | | | |message]; try discriminate.
    destruct (message !! "content"); [now intros [= ->]|discriminate].
Qed.

(** C5 (as amended). When [process_text] has sent its request and the
    endpoint replies 200 with a body that [json.loads] decodes to a
    document holding a string at [choices[0].message.content],
    [process_text] returns that string stripped, and shows no dialog; when
    the path holds anything else, [process_text] shows the
    [AttributeError] of [strip] in an error box and returns [None]. For
    the body of the specification's example the result is ["Hello"]. *)
Theorem process_text_returns_trimmed_content
    env text command language w req reason :
  request_built lang w text command language req ->
  (forall body response_data content,
      endpoint env = Reply 200 reason body ->
      json_loads body = Ok response_data ->
      content_at_path response_data = Some (JStr content) ->
      process_text lang env text command language w
      = (Ok (Some (strip content)), add_request req w))
  /\ (forall body response_data other,
      endpoint env = Reply 200 reason body ->
      json_loads body = Ok response_data ->
      content_at_path response_data = Some other ->
      (forall content, other <> JStr content) ->
      process_text lang env text command language w
      = (Ok None,
         add_dialog
           (lang "error",
            "'" +:+ type_name other +:+ "' object has no attribute 'strip'")
           (add_request req w)))
  /\ (endpoint env = Reply 200 reason hello_body ->
      json_loads hello_body = Ok hello_document ->
      process_text lang env text command language w
      = (Ok (Some "Hello"), add_request req w)).
Proof.
  intros Hreq. split; [|split].
  - intros body response_data content Hreply Hjson Hpath.
    rewrite (process_text_ok _ _ _ _ _ _ _ _ Hreq Hreply).
    now rewrite Hjson, (message_content_at_path _ _ Hpath).
  - intros body response_data other Hreply Hjson Hpath Hother.
    rewrite (process_text_ok _ _ _ _ _ _ _ _ Hreq Hreply).
    rewrite Hjson, (message_content_at_path _ _ Hpath).
    destruct other as [| | | |content| |]; try reflexivity.
    now destruct (Hother content).
  - intros Hreply Hjson.
    rewrite (process_text_ok _ _ _ _ _ _ _ _ Hreq Hreply).
    now rewrite Hjson.
Qed.

(** *** Frame of the world operations *)

Lemma written_cases key val w :
  written key val w = w
  \/ (exists config_data,
        written key val w = set_settings_file (FileObject config_data) w)
  \/ (exists line, written key val w = add_printed line w).
Proof.
  unfold written, set_config.
  destruct (settings_file w); cbn; try (now left);
    destruct (write_error w); cbn; eauto.
Qed.

Lemma component_written key val w : component (written key val w) = component w.
Proof.
  destruct (written_cases key val w) as [-> | [(d & ->) | (l & ->)]]; reflexivity.
Qed.
Lemma dialogs_written key val w : dialogs (written key val w) = dialogs w.
Proof.
  destruct (written_cases key val w) as [-> | [(d & ->) | (l & ->)]]; reflexivity.
Qed.
Lemma requests_written key val w : requests (written key val w) = requests w.
Proof.
  destruct (written_cases key val w) as [-> | [(d & ->) | (l & ->)]]; reflexivity.
Qed.
Lemma forms_written key val w : forms (written key val w) = forms w.
Proof.
  destruct (written_cases key val w) as [-> | [(d & ->) | (l & ->)]]; reflexivity.
Qed.

Hint Rewrite component_written dialogs_written requests_written forms_written : world.

Ltac eval_dict :=
  repeat match goal with
  | |- context [dict_is_empty ?d] =>
      let b := eval vm_compute in (dict_is_empty d) in
      change (dict_is_empty d) with b
  | |- context [dict_getitem ?d ?k] =>
      let r := eval vm_compute in (dict_getitem d k) in
      change (dict_getitem d k) with r
  end.

Lemma opened_writer w : exists s, component (opened w) = Writer s.
Proof. unfold opened. destruct (component w) eqn:Hc; eauto. Qed.

Lemma opened_on_writer w s : component w = Writer s -> opened w = w.
Proof. unfold opened. now intros ->. Qed.

Lemma stored_opened w key dflt : stored (opened w) key dflt = stored w key dflt.
Proof. apply stored_same_file. unfold opened. now destruct (component w). Qed.

Lemma get_document_writer w s : component w = Writer s -> get_document w = (Ok true, w).
Proof. unfold get_document, gets. now intros ->. Qed.

Lemma getString_writer w s : component w = Writer s -> getString w = (Ok s, w).
Proof. unfold getString. now intros ->. Qed.

Lemma trigger_before_key env command w s :
  component w = Writer s ->
  trigger lang env command w
  = if String.eqb command "hello" then (Ok tt, w)
    else if String.eqb command "settings"
    then try_except (settings_flow lang env) append_error w
    else if negb (truthy (strip s))
    then (Ok tt, add_dialog (lang "error", lang "no_text_selected") w)
    else
      (do openai_api_key <- get_config "openai_api_key" (VStr "");
       if is_empty_str openai_api_key
       then show_dialog (lang "error") (lang "no_api_key")
       else if String.eqb command "translate"
       then try_except (translate_flow lang env s command) translate_handler
       else complete_and_insert lang env s command "") w.
Proof.
  intros Hc. unfold trigger, bind at 1, ensure_writer, modify. rewrite Hc.
  destruct (String.eqb command "hello"); [reflexivity|].
  destruct (String.eqb command "settings"); [reflexivity|].
  destruct (String.eqb command "translate");
    unfold bind at 1; rewrite (get_document_writer _ _ Hc); cbn [negb];
    unfold bind at 1; rewrite (getString_writer _ _ Hc);
    (destruct (truthy (strip s)); cbn [negb]; reflexivity).
Qed.

Lemma trigger_on_writer env command w s :
  readable w = true ->
  component w = Writer s ->
  trigger lang env command w
  = if String.eqb command "hello" then (Ok tt, w)
    else if String.eqb command "settings"
    then try_except (settings_flow lang env) append_error w
    else if negb (truthy (strip s))
    then (Ok tt, add_dialog (lang "error", lang "no_text_selected") w)
    else if is_empty_str (stored w "openai_api_key" (VStr ""))
    then (Ok tt, add_dialog (lang "error", lang "no_api_key") w)
    else if String.eqb command "translate"
    then try_except (translate_flow lang env s command) translate_handler w
    else complete_and_insert lang env s command "" w.
Proof.
  intros Hr Hc. rewrite (trigger_before_key _ _ _ _ Hc).
  destruct (String.eqb command "hello"); [reflexivity|].
  destruct (String.eqb command "settings"); [reflexivity|].
  destruct (negb (truthy (strip s))); [reflexivity|].
  store_step.
  destruct (is_empty_str (stored w "openai_api_key" (VStr "")));
    [reflexivity|].
  now destruct (String.eqb command "translate").
Qed.

(** Where the store cannot be read, the commands of the pipeline raise
    at the read of the API key, which stands outside every [try]. *)
Lemma trigger_escapes env command w s :
  readable w = false ->
  component w = Writer s ->
  exists e,
    (forall key dflt, get_config key dflt w = (Raise e, w))
    /\ trigger lang env command w
       = if String.eqb command "hello" then (Ok tt, w)
         else if String.eqb command "settings"
         then try_except (settings_flow lang env) append_error w
         else if negb (truthy (strip s))
         then (Ok tt, add_dialog (lang "error", lang "no_text_selected") w)
         else (Raise e, w).
Proof.
  intros Hr Hc. destruct (get_config_escapes w Hr) as (e & He).
  exists e. split; [exact He|].
  rewrite (trigger_before_key _ _ _ _ Hc).
  destruct (String.eqb command "hello"); [reflexivity|].
  destruct (String.eqb command "settings"); [reflexivity|].
  destruct (negb (truthy (strip s))); [reflexivity|].
  unfold bind at 1. now rewrite He.
Qed.

Lemma trigger_opened env command w :
  trigger lang env command w = trigger lang env command (opened w).
Proof.
  destruct (opened_writer w) as (s & Hs).
  unfold trigger at 2. unfold bind at 1, ensure_writer, modify. rewrite Hs.
  reflexivity.
Qed.

Lemma ai_command_cases command :
  command ∈ ai_commands ->
  String.eqb command "hello" = false /\ String.eqb command "settings" = false.
Proof.
  unfold ai_commands. intros Hin.
  repeat (apply elem_of_cons in Hin as [-> | Hin]); [..|now apply elem_of_nil in Hin];
    split; reflexivity.
Qed.

Lemma trigger_blank env command w s :
  command ∈ ai_commands -> component w = Writer s -> strip s = "" ->
  trigger lang env command w
  = (Ok tt, add_dialog (lang "error", lang "no_text_selected") w).
Proof.
  intros Hin Hc Hs. rewrite (trigger_before_key _ _ _ _ Hc).
  destruct (ai_command_cases _ Hin) as (-> & ->). now rewrite Hs.
Qed.

Lemma truthy_nonempty s : s <> "" -> truthy s = true.
Proof. now destruct s. Qed.

Lemma trigger_no_key env command w s :
  readable w = true ->
  command ∈ ai_commands -> component w = Writer s -> strip s <> "" ->
  is_empty_str (stored w "openai_api_key" (VStr "")) = true ->
  trigger lang env command w
  = (Ok tt, add_dialog (lang "error", lang "no_api_key") w).
Proof.
  intros Hr Hin Hc Hs Hk. rewrite (trigger_on_writer _ _ _ _ Hr Hc).
  destruct (ai_command_cases _ Hin) as (-> & ->).
  rewrite (truthy_nonempty _ Hs). cbn. now rewrite Hk.
Qed.

(** The configured API key is the empty string. *)
Lemma configured_empty_key w :
  get_config "openai_api_key" (VStr "") w = (Ok (VStr ""), w) ->
  readable w = true
  /\ is_empty_str (stored w "openai_api_key" (VStr "")) = true.
Proof.
  intros Hget. split.
  - destruct (readable w) eqn:Hr; [reflexivity|].
    destruct (get_config_escapes w Hr) as (e & He).
    rewrite He in Hget. discriminate Hget.
  - unfold stored. now rewrite Hget.
Qed.

(** C2 (as amended). With an empty API key configured, no command of the
    pipeline sends anything to the endpoint; the "no API key" error box is
    what [trigger] shows when a document is open and its selection is not
    blank, the selection being checked before the key. The configured key
    is what [get_config] returns for it, the store being readable. *)
Theorem empty_api_key_short_circuits env command w :
  command ∈ ai_commands ->
  get_config "openai_api_key" (VStr "") w = (Ok (VStr ""), w) ->
  requests (snd (trigger lang env command w)) = requests w
  /\ (forall s, component w = Writer s -> strip s <> "" ->
        trigger lang env command w
        = (Ok tt, add_dialog (lang "error", lang "no_api_key") w)).
Proof.
  intros Hin Hget.
  destruct (configured_empty_key w Hget) as (Hr & Hk).
  split.
  - rewrite trigger_opened. destruct (opened_writer w) as (s & Hs).
    assert (Hreq : requests (opened w) = requests w).
    { unfold opened. now destruct (component w). }
    destruct (decide (strip s = "")) as [Hb|Hb].
    + rewrite (trigger_blank _ _ _ _ Hin Hs Hb). exact Hreq.
    + rewrite (trigger_no_key env command (opened w) s); trivial.
      * now rewrite readable_opened.
      * now rewrite stored_opened.
  - intros s Hc Hs. now apply (trigger_no_key env command w s).
Qed.


(** *** Result inserter *)

Lemma block_is_marked_output new_text selection command language :
  block lang selection new_text (lang ("command_" +:+ command)) language
  = marked_output lang selection new_text command language.
Proof.
  unfold block, marked_output, start_marker, end_marker.
  rewrite !append_assoc. reflexivity.
Qed.

Lemma insert_text_writes new_text selection command w old :
  readable w = true \/ String.eqb command "translate" = false ->
  component w = Writer old ->
  insert_text lang new_text selection command w
  = (Ok tt,
     set_component
       (Writer (marked_output lang selection new_text command
                  (if String.eqb command "translate"
                   then py_str (stored w "language" (VStr ""))
                   else ""))) w).
Proof.
  intros Hcase Hc. unfold insert_text.
  destruct (String.eqb command "translate").
  - destruct Hcase as [Hr|Hf]; [|discriminate Hf].
    unfold bind at 1. store_step. unfold ret, setString. rewrite Hc.
    now rewrite block_is_marked_output.
  - unfold bind, ret, setString. rewrite Hc.
    now rewrite block_is_marked_output.
Qed.

(** In every state [insert_text] either writes a marked block or raises
    and leaves the world as it was. *)
Lemma insert_text_outcome new_text selection command w old :
  component w = Writer old ->
  (exists marker_language,
      insert_text lang new_text selection command w
      = (Ok tt,
         set_component
           (Writer (marked_output lang selection new_text command
                      marker_language)) w))
  \/ exists e, insert_text lang new_text selection command w = (Raise e, w).
Proof.
  intros Hc. destruct (readable w) eqn:Hr.
  - left. eexists. apply (insert_text_writes _ _ _ _ old); [now left|exact Hc].
  - destruct (String.eqb command "translate") eqn:Ht.
    + right. destruct (get_config_escapes w Hr) as (e & He). exists e.
      unfold insert_text. rewrite Ht. unfold bind. now rewrite He.
    + left. eexists.
      apply (insert_text_writes _ _ _ _ old); [now right|exact Hc].
Qed.

Lemma starts_with_app (a b : string) : starts_with a (a +:+ b) = true.
Proof.
  induction a as [|x a IH]; [reflexivity|].
  change (String x a +:+ b) with (String x (a +:+ b)).
  cbn [starts_with]. now rewrite Ascii.eqb_refl.
Qed.

Lemma starts_with_prefix (needle rest hay : string) :
  hay = needle +:+ rest -> starts_with needle hay = true.
Proof. intros ->. apply starts_with_app. Qed.

Lemma all_chars_app p (a b : string) :
  all_chars p (a +:+ b) = all_chars p a && all_chars p b.
Proof.
  induction a as [|x a IH]; [reflexivity|].
  change (String x a +:+ b) with (String x (a +:+ b)).
  cbn [all_chars]. rewrite IH. now rewrite andb_assoc.
Qed.

Lemma occurrences_nil tail : occurrences (String "["%char tail) "" = 0.
Proof. reflexivity. Qed.

Lemma occurrences_skip tail (hay1 hay2 : string) :
  no_bracket hay1 = true ->
  occurrences (String "["%char tail) (hay1 +:+ hay2)
  = occurrences (String "["%char tail) hay2.
Proof.
  induction hay1 as [|x hay1 IH]; [reflexivity|].
  change (String x hay1 +:+ hay2) with (String x (hay1 +:+ hay2)).
  unfold no_bracket. cbn [all_chars occurrences starts_with].
  intros [Hx Hrest]%andb_true_iff.
  apply negb_true_iff in Hx. rewrite Ascii.eqb_sym in Hx. rewrite Hx.
  now apply IH.
Qed.

Lemma occurrences_none tail (hay : string) :
  no_bracket hay = true -> occurrences (String "["%char tail) hay = 0.
Proof.
  intros Hn. rewrite <- (append_nil_r hay).
  now rewrite (occurrences_skip _ _ _ Hn).
Qed.


Lemma marked_output_shape selection new_text command language :
  marked_output lang selection new_text command language
  = selection +:+ (nl +:+ nl)
    +:+ String "["%char
          (("---" +:+ lang "block_start" +:+ " "
            +:+ upper (lang ("command_" +:+ command)) +:+ " " +:+ language
            +:+ "---]" +:+ nl +:+ new_text +:+ nl)
           +:+ String "["%char
                 ("/---" +:+ lang "block_end" +:+ " "
                  +:+ upper (lang ("command_" +:+ command)) +:+ " "
                  +:+ language +:+ "---]" +:+ nl +:+ nl)).
Proof.
  unfold marked_output, start_marker, end_marker.
  rewrite !append_assoc. reflexivity.
Qed.

Section Counting.
Variables selection new_text command language : string.
Hypothesis Hselection : no_bracket selection = true.
Hypothesis Hnew_text : no_bracket new_text = true.
Hypothesis Hstart : no_bracket (lang "block_start") = true.
Hypothesis Hend : no_bracket (lang "block_end") = true.
Hypothesis Hlabel : no_bracket (upper (lang ("command_" +:+ command))) = true.
Hypothesis Hlanguage : no_bracket language = true.

Ltac solve_no_bracket :=
  unfold no_bracket in *; rewrite !all_chars_app;
  rewrite ?Hselection, ?Hnew_text, ?Hstart, ?Hend, ?Hlabel, ?Hlanguage;
  reflexivity.

Lemma one_start_marker :
  occurrences (start_marker lang command language)
              (marked_output lang selection new_text command language) = 1.
Proof.
  rewrite marked_output_shape.
  change (start_marker lang command language)
    with (String "["%char ("---" +:+ lang "block_start" +:+ " "
            +:+ upper (lang ("command_" +:+ command)) +:+ " " +:+ language
            +:+ "---]")).
  rewrite (occurrences_skip _ _ _ Hselection).
  rewrite occurrences_skip by reflexivity.
  cbn [occurrences].
  match goal with
  | |- (if starts_with ?n ?h then _ else _) + _ = _ =>
      assert (starts_with n h = true) as ->
  end.
  { apply (starts_with_prefix _
             (nl +:+ new_text +:+ nl
              +:+ String "["%char
                    ("/---" +:+ lang "block_end" +:+ " "
                     +:+ upper (lang ("command_" +:+ command)) +:+ " "
                     +:+ language +:+ "---]" +:+ nl +:+ nl))).
    change (String "["%char ?x +:+ ?y) with (String "["%char (x +:+ y)).
    rewrite !append_assoc. reflexivity. }
  rewrite occurrences_skip by solve_no_bracket.
  cbn [occurrences].
  match goal with
  | |- _ + ((if starts_with ?n ?h then _ else _) + _) = _ =>
      assert (starts_with n h = false) as -> by reflexivity
  end.
  rewrite occurrences_none by solve_no_bracket.
  reflexivity.
Qed.

Lemma one_end_marker :
  occurrences (end_marker lang command language)
              (marked_output lang selection new_text command language) = 1.
Proof.
  rewrite marked_output_shape.
  change (end_marker lang command language)
    with (String "["%char ("/---" +:+ lang "block_end" +:+ " "
            +:+ upper (lang ("command_" +:+ command)) +:+ " " +:+ language
            +:+ "---]")).
  rewrite (occurrences_skip _ _ _ Hselection).
  rewrite occurrences_skip by reflexivity.
  cbn [occurrences].
  match goal with
  | |- (if starts_with ?n ?h then _ else _) + _ = _ =>
      assert (starts_with n h = false) as -> by reflexivity
  end.
  rewrite occurrences_skip by solve_no_bracket.
  cbn [occurrences].
  match goal with
  | |- _ + ((if starts_with ?n ?h then _ else _) + _) = _ =>
      assert (starts_with n h = true) as ->
  end.
  { apply (starts_with_prefix _ (nl +:+ nl)).
    change (String "["%char ?x +:+ ?y) with (String "["%char (x +:+ y)).
    rewrite !append_assoc. reflexivity. }
  rewrite occurrences_none by solve_no_bracket.
  reflexivity.
Qed.

End Counting.

(** C7 (as amended). [insert_text] replaces the text under the view cursor
    with the selection, two newlines, the start marker, a newline, the
    generated text, a newline, the end marker and two newlines; the
    language of the markers is empty for every command but [translate],
    for which it is the stored target language, the store being readable.
    The selection is a prefix of the new text, and the new text holds exactly one start marker and
    one end marker when neither the selection, the generated text, the
    labels nor the language contain an opening bracket. *)
Theorem insert_text_marks_the_result new_text selection command w old :
  component w = Writer old ->
  (command <> "translate" ->
     insert_text lang new_text selection command w
     = (Ok tt,
        set_component
          (Writer (marked_output lang selection new_text command "")) w))
  /\ (command = "translate" ->
     readable w = true ->
     insert_text lang new_text selection command w
     = (Ok tt,
        set_component
          (Writer (marked_output lang selection new_text command
                     (py_str (stored w "language" (VStr ""))))) w))
  /\ (forall language,
       starts_with selection
         (marked_output lang selection new_text command language) = true
       /\ (no_bracket selection = true -> no_bracket new_text = true ->
           no_bracket (lang "block_start") = true ->
           no_bracket (lang "block_end") = true ->
           no_bracket (upper (lang ("command_" +:+ command))) = true ->
           no_bracket language = true ->
           occurrences (start_marker lang command language)
             (marked_output lang selection new_text command language) = 1
           /\ occurrences (end_marker lang command language)
             (marked_output lang selection new_text command language) = 1)).
Proof.
  intros Hc. split; [|split].
  - intros Hne. apply String.eqb_neq in Hne.
    rewrite (insert_text_writes _ _ _ _ _ (or_intror Hne) Hc).
    now rewrite Hne.
  - intros -> Hr. now rewrite (insert_text_writes _ _ _ _ _ (or_introl Hr) Hc).
  - intros language. split.
    + unfold marked_output. apply starts_with_app.
    + intros. split; [now apply one_start_marker|now apply one_end_marker].
Qed.



(** *** Dialog adapters *)

Lemma stored_add_form title w key dflt :
  stored (add_form title w) key dflt = stored w key dflt.
Proof. now apply stored_same_file. Qed.

Lemma settings_box_shown env title w :
  readable w = true ->
  settings_box env title w
  = match settings_user env with
    | Fails e => raise e
    | Confirm fields =>
        do temperature <- lift (float_of_string (edit_temperature fields));
        let result : gmap string value :=
          {[ "openai_api_key" := VStr (edit_openai_api_key fields);
             "model" := VStr (edit_model fields);
             "temperature" := VFloat temperature ]} in
        if isdigit (edit_max_tokens fields)
        then
          do max_tokens <- lift (int_of_string (edit_max_tokens fields));
          ret (<["max_tokens" := VInt max_tokens]> result)
        else ret result
    | Cancel =>
        do openai_api_key <- get_config "openai_api_key" (VStr "");
        do model <- get_config "model" (VStr "gpt-4o-mini");
        do max_tokens <- get_config "max_tokens" (VStr "1000");
        do temperature <- get_config "temperature" (VStr "0.5");
        do temperature <- lift (py_float temperature);
        ret ({[ "openai_api_key" := VStr (py_str openai_api_key);
                "model" := VStr (py_str model);
                "max_tokens" := VStr (py_str max_tokens);
                "temperature" := VFloat temperature ]} : gmap string value)
    end (add_form title w).
Proof.
  intros Hr. unfold settings_box. do 8 store_step.
  unfold bind at 1, modify at 1. reflexivity.
Qed.

(** Where the store cannot be read, filling the form raises: the form is
    not executed. *)
Lemma settings_box_escapes env title w :
  readable w = false -> exists e, settings_box env title w = (Raise e, w).
Proof.
  intros Hr. destruct (get_config_escapes w Hr) as (e & He). exists e.
  unfold settings_box. unfold bind at 1. now rewrite He.
Qed.

Lemma translation_box_escapes env title w :
  readable w = false -> exists e, translation_box env title w = (Raise e, w).
Proof.
  intros Hr. destruct (get_config_escapes w Hr) as (e & He). exists e.
  unfold translation_box. unfold bind at 1. now rewrite He.
Qed.

Lemma settings_box_confirm env title w fields :
  readable w = true ->
  settings_user env = Confirm fields ->
  settings_box env title w
  = match float_of_string (edit_temperature fields) with
    | Raise e => (Raise e, add_form title w)
    | Ok temperature =>
        let result : gmap string value :=
          {[ "openai_api_key" := VStr (edit_openai_api_key fields);
             "model" := VStr (edit_model fields);
             "temperature" := VFloat temperature ]} in
        if isdigit (edit_max_tokens fields)
        then match int_of_string (edit_max_tokens fields) with
             | Ok n => (Ok (<["max_tokens" := VInt n]> result), add_form title w)
             | Raise e => (Raise e, add_form title w)
             end
        else (Ok result, add_form title w)
    end.
Proof.
  intros Hr Hu. rewrite (settings_box_shown _ _ _ Hr), Hu.
  unfold bind, lift, ret.
  destruct (float_of_string (edit_temperature fields)) as [t|e]; [|reflexivity].
  cbn zeta. destruct (isdigit (edit_max_tokens fields)); [|reflexivity].
  now destruct (int_of_string (edit_max_tokens fields)).
Qed.

Lemma settings_box_cancel env title w :
  readable w = true ->
  settings_user env = Cancel ->
  settings_box env title w
  = match py_float (stored w "temperature" (VStr "0.5")) with
    | Raise e => (Raise e, add_form title w)
    | Ok temperature =>
        (Ok ({[ "openai_api_key" :=
                  VStr (py_str (stored w "openai_api_key" (VStr "")));
                "model" := VStr (py_str (stored w "model" (VStr "gpt-4o-mini")));
                "max_tokens" :=
                  VStr (py_str (stored w "max_tokens" (VStr "1000")));
                "temperature" := VFloat temperature ]} : gmap string value),
         add_form title w)
    end.
Proof.
  intros Hr Hu. rewrite (settings_box_shown _ _ _ Hr), Hu.
  assert (Hr' : readable (add_form title w) = true) by exact Hr.
  do 4 store_step. rewrite !stored_add_form.
  unfold bind, lift, ret.
  now destruct (py_float (stored w "temperature" (VStr "0.5"))).
Qed.

Lemma settings_box_fails env title w e :
  readable w = true ->
  settings_user env = Fails e ->
  settings_box env title w = (Raise e, add_form title w).
Proof.
  intros Hr Hu. now rewrite (settings_box_shown _ _ _ Hr), Hu.
Qed.

Lemma decimal_digit_not_space c d : decimal_digit c = Some d -> isspace c = false.
Proof.
  unfold decimal_digit, isspace.
  destruct (Nat.leb 48 (nat_of_ascii c) && Nat.leb (nat_of_ascii c) 57) eqn:Hd;
    [|discriminate].
  intros _. apply andb_true_iff in Hd as [H1%Nat.leb_le H2%Nat.leb_le].
  repeat (apply orb_false_iff; split);
    try (apply andb_false_iff; (left; apply Nat.leb_gt; lia) || (right; apply Nat.leb_gt; lia));
    apply Nat.eqb_neq; lia.
Qed.

Lemma rstrip_decimal s : all_decimal s = true -> rstrip s = s.
Proof.
  induction s as [|c s IH]; [reflexivity|].
  unfold all_decimal. cbn [all_chars rstrip].
  intros [Hc Hs]%andb_true_iff. apply bool_decide_eq_true in Hc as [d Hd].
  rewrite (IH Hs). destruct s; [|reflexivity].
  now rewrite (decimal_digit_not_space _ _ Hd).
Qed.

Lemma strip_decimal s : all_decimal s = true -> strip s = s.
Proof.
  intros Hs. unfold strip.
  assert (lstrip s = s) as ->.
  { destruct s as [|c s]; [reflexivity|].
    unfold all_decimal in Hs. cbn [all_chars] in Hs.
    apply andb_true_iff in Hs as [Hc _].
    apply bool_decide_eq_true in Hc as [d Hd].
    cbn [lstrip]. now rewrite (decimal_digit_not_space _ _ Hd). }
  now apply rstrip_decimal.
Qed.

Lemma int_digits_decimal s acc after :
  all_decimal s = true -> (after = true \/ s <> "") ->
  exists n, int_digits acc after s = Some n.
Proof.
  revert acc after. induction s as [|c s IH]; intros acc after Hs Hne.
  - destruct Hne as [-> | Hne]; [now eexists|congruence].
  - unfold all_decimal in Hs. cbn [all_chars] in Hs.
    apply andb_true_iff in Hs as [Hc Hs].
    apply bool_decide_eq_true in Hc as [d Hd].
    cbn [int_digits]. rewrite Hd. apply IH; [exact Hs|now left].
Qed.

Lemma int_of_string_decimal s :
  all_decimal s = true -> s <> "" -> exists n, int_of_string s = Ok n.
Proof.
  intros Hs Hne. unfold int_of_string. rewrite (strip_decimal _ Hs).
  destruct (int_digits_decimal s 0 false Hs (or_intror Hne)) as (n & Hn).
  destruct s as [|c s]; [congruence|].
  assert (Hc : exists d, decimal_digit c = Some d).
  { unfold all_decimal in Hs. cbn [all_chars] in Hs.
    apply andb_true_iff in Hs as [Hc _].
    now apply bool_decide_eq_true in Hc as [d Hd]; eauto. }
  destruct Hc as (d & Hd).
  destruct (decide (c = "-"%char)) as [->|Hm]; [discriminate Hd|].
  destruct (decide (c = "+"%char)) as [->|Hp]; [discriminate Hd|].
  assert (match String c s with
          | String "-" r => Z.opp <$> int_digits 0 false r
          | String "+" r => int_digits 0 false r
          | _ => int_digits 0 false (String c s)
          end = int_digits 0 false (String c s)) as ->.
  { destruct c as [[] [] [] [] [] [] [] []]; try reflexivity; congruence. }
  rewrite Hn. eauto.
Qed.

Lemma isdigit_decimal s : all_decimal s = true -> s <> "" -> isdigit s = true.
Proof.
  intros Hs Hne. unfold isdigit. rewrite (truthy_nonempty _ Hne). cbn.
  clear Hne. induction s as [|c s IH]; [reflexivity|].
  unfold all_decimal in Hs. cbn [all_chars] in *.
  apply andb_true_iff in Hs as [Hc Hs]. rewrite (IH Hs), andb_true_r.
  apply bool_decide_eq_true in Hc as [d Hd].
  unfold decimal_digit in Hd. unfold isdigit_char.
  destruct (Nat.leb 48 (nat_of_ascii c) && Nat.leb (nat_of_ascii c) 57);
    [reflexivity|discriminate].
Qed.


(** C9 (as amended). A confirmed settings dialog that returns a record
    has converted the temperature field with [float], and the record has
    the key [max_tokens] exactly when the field passes [isdigit], its value
    then being the integer the field denotes; with a readable store the
    dialog does return a record whenever the temperature field is a float
    literal and the [max_tokens] field is either not all digits or made of
    the digits 0..9. A cancelled dialog returns, for the API key, the model
    and [max_tokens], the stored value (the default when there is none)
    rendered by [str], and for the temperature that value converted with
    [float]. *)
Theorem settings_box_record env title w :
  (forall fields r w',
      settings_user env = Confirm fields ->
      settings_box env title w = (Ok r, w') ->
      (exists t,
          float_of_string (edit_temperature fields) = Ok t
          /\ r !! "temperature" = Some (VFloat t))
      /\ (is_Some (r !! "max_tokens") <-> isdigit (edit_max_tokens fields) = true)
      /\ (forall v, r !! "max_tokens" = Some v ->
            exists n, int_of_string (edit_max_tokens fields) = Ok n /\ v = VInt n))
  /\ (forall fields t,
      readable w = true ->
      settings_user env = Confirm fields ->
      float_of_string (edit_temperature fields) = Ok t ->
      isdigit (edit_max_tokens fields) = false
      \/ all_decimal (edit_max_tokens fields) = true ->
      exists r, settings_box env title w = (Ok r, add_form title w))
  /\ (forall t,
      readable w = true ->
      settings_user env = Cancel ->
      py_float (stored w "temperature" (VStr "0.5")) = Ok t ->
      exists r,
        settings_box env title w = (Ok r, add_form title w)
        /\ r !! "openai_api_key"
           = Some (VStr (py_str (stored w "openai_api_key" (VStr ""))))
        /\ r !! "model"
           = Some (VStr (py_str (stored w "model" (VStr "gpt-4o-mini"))))
        /\ r !! "max_tokens"
           = Some (VStr (py_str (stored w "max_tokens" (VStr "1000"))))
        /\ r !! "temperature" = Some (VFloat t)).
Proof.
  split; [|split].
  - intros fields r w' Hu. destruct (readable w) eqn:Hr.
    2:{ destruct (settings_box_escapes env title w Hr) as (e & ->).
        discriminate. }
    rewrite (settings_box_confirm _ _ _ _ Hr Hu).
    destruct (float_of_string (edit_temperature fields)) as [t|e]; [|discriminate].
    cbn zeta. destruct (isdigit (edit_max_tokens fields)) eqn:Hd.
    + destruct (int_of_string (edit_max_tokens fields)) as [n|e]; [|discriminate].
      intros [= <- <-]. split; [eexists; split; reflexivity|]. split.
      * split; [reflexivity|]. intros _. eexists. reflexivity.
      * intros v Hv. exists n. split; [reflexivity|].
        change (Some (VInt n) = Some v) in Hv. congruence.
    + intros [= <- <-]. split; [eexists; split; reflexivity|]. split.
      * split; [|discriminate]. intros [v Hv]. discriminate Hv.
      * intros v Hv. discriminate Hv.
  - intros fields t Hr Hu Ht Hmt. rewrite (settings_box_confirm _ _ _ _ Hr Hu), Ht.
    cbn zeta. destruct (isdigit (edit_max_tokens fields)) eqn:Hd; [|eauto].
    destruct Hmt as [Hmt|Hmt]; [discriminate|].
    assert (Hne : edit_max_tokens fields <> "").
    { intros Hempty. rewrite Hempty in Hd. discriminate Hd. }
    destruct (int_of_string_decimal _ Hmt Hne) as (n & ->). eauto.
  - intros t Hr Hu Ht. rewrite (settings_box_cancel _ _ _ Hr Hu), Ht.
    eexists. split; [reflexivity|]. repeat split; reflexivity.
Qed.

(** *** Dispatcher: the settings branch *)

Ltac store_run :=
  repeat (first [ rewrite get_config_readable by solve_readable
                | rewrite set_config_readable by solve_readable ];
          cbv beta iota).

Lemma settings_flow_outcome env w r w' :
  settings_flow lang env w = (r, w') ->
  component w' = component w
  /\ dialogs w' = dialogs w
  /\ requests w' = requests w
  /\ forms w' = (if readable w then forms w ++ [lang "settings"] else forms w).
Proof.
  unfold settings_flow. unfold bind at 1.
  destruct (readable w) eqn:Hr.
  2:{ destruct (settings_box_escapes env (lang "settings") w Hr) as (e & ->).
      intros [= <- <-]. auto. }
  assert (Hr' : readable (add_form (lang "settings") w) = true) by exact Hr.
  destruct (settings_user env) as [fields| |e] eqn:Hu.
  - rewrite (settings_box_confirm _ _ _ _ Hr Hu).
    destruct (float_of_string (edit_temperature fields)) as [t|e];
      [|intros [= <- <-]; cbn; auto].
    cbn zeta. destruct (isdigit (edit_max_tokens fields)).
    + destruct (int_of_string (edit_max_tokens fields)) as [n|e];
        [|intros [= <- <-]; cbn; auto].
      unfold bind, lift, ret. eval_dict. cbv beta iota. store_run.
      intros [= <- <-]. autorewrite with world. auto.
    + unfold bind, lift, ret. eval_dict. cbv beta iota. store_run.
      intros [= <- <-]. autorewrite with world. auto.
  - rewrite (settings_box_cancel _ _ _ Hr Hu).
    destruct (py_float (stored w "temperature" (VStr "0.5"))) as [t|e];
      [|intros [= <- <-]; cbn; auto].
    unfold bind, lift, ret. eval_dict. cbv beta iota. store_run.
    intros [= <- <-]. autorewrite with world. auto.
  - rewrite (settings_box_fails _ _ _ _ Hr Hu). intros [= <- <-]. cbn. auto.
Qed.

Lemma settings_flow_frame env w :
  component (snd (settings_flow lang env w)) = component w
  /\ dialogs (snd (settings_flow lang env w)) = dialogs w
  /\ requests (snd (settings_flow lang env w)) = requests w
  /\ forms (snd (settings_flow lang env w))
     = (if readable w then forms w ++ [lang "settings"] else forms w).
Proof.
  destruct (settings_flow lang env w) as [r w'] eqn:Hflow.
  exact (settings_flow_outcome _ _ _ _ Hflow).
Qed.

Lemma trigger_settings env w s :
  component w = Writer s ->
  trigger lang env "settings" w
  = match settings_flow lang env w with
    | (Ok a, w') => (Ok a, w')
    | (Raise e, w') =>
        (Ok tt, set_component (Writer (s +:+ ":error: " +:+ exn_str e)) w')
    end.
Proof.
  intros Hc. rewrite (trigger_before_key _ _ _ _ Hc).
  change (String.eqb "settings" "hello") with false.
  change (String.eqb "settings" "settings") with true. cbn match.
  unfold try_except.
  pose proof (settings_flow_frame env w) as (Hcomp & _).
  destruct (settings_flow lang env w) as [[a|e] w']; [reflexivity|].
  cbn [snd] in Hcomp. rewrite Hc in Hcomp.
  unfold append_error, bind. rewrite (getString_writer _ _ Hcomp).
  unfold setString. now rewrite Hcomp.
Qed.

Lemma opened_frame w :
  requests (opened w) = requests w /\ forms (opened w) = forms w
  /\ dialogs (opened w) = dialogs w.
Proof. unfold opened. now destruct (component w). Qed.

(** C3. When the selection of the document [trigger] works on (the
    current Writer document, or the empty one it opens when there is
    none) is empty or whitespace only, every command of the pipeline shows
    the "no text selected" error box and returns: nothing is sent to the
    endpoint. The [settings] command does not look at the selection:
    whatever it is, no error box is shown and, the store being readable,
    the settings form is executed. *)
Theorem blank_selection_is_rejected env command w s :
  command ∈ ai_commands ->
  component (opened w) = Writer s ->
  strip s = "" ->
  trigger lang env command w
  = (Ok tt, add_dialog (lang "error", lang "no_text_selected") (opened w))
  /\ requests (snd (trigger lang env command w)) = requests w
  /\ (readable w = true ->
      forms (snd (trigger lang env "settings" w)) = forms w ++ [lang "settings"])
  /\ dialogs (snd (trigger lang env "settings" w)) = dialogs w.
Proof.
  intros Hin Hc Hs.
  destruct (opened_frame w) as (Hreq & Hforms & Hdialogs).
  rewrite (trigger_opened env command w), (trigger_opened env "settings" w).
  rewrite (trigger_blank _ _ _ _ Hin Hc Hs).
  split; [reflexivity|]. split; [exact Hreq|].
  rewrite (trigger_settings _ _ _ Hc).
  pose proof (settings_flow_frame env (opened w)) as (_ & Hd & _ & Hf).
  rewrite Hforms, readable_opened in Hf. rewrite Hdialogs in Hd.
  split.
  - intros Hr. rewrite Hr in Hf.
    destruct (settings_flow lang env (opened w)) as [[a|e] w']; cbn [snd] in *; auto.
  - destruct (settings_flow lang env (opened w)) as [[a|e] w']; cbn [snd] in *; auto.
Qed.

(** *** Where failures are reported *)

(** The ways one call of [process_text] ends. *)
Lemma process_text_cases env text command language w :
  (build_prompt lang command text language = None
   /\ process_text lang env text command language w = (Ok None, w))
  \/ (exists e, process_text lang env text command language w = (Raise e, w)
       /\ is_Some (build_prompt lang command text language)
       /\ (readable w = false
           \/ py_int (stored w "max_tokens" (VStr "1000")) = Raise e
           \/ py_float (stored w "temperature" (VStr "0.5")) = Raise e))
  \/ (exists req,
       request_built lang w text command language req
       /\ ((exists new_text,
              process_text lang env text command language w
              = (Ok (Some new_text), add_request req w))
           \/ (exists msg,
              process_text lang env text command language w
              = (Ok None, add_dialog (lang "error", msg) (add_request req w))))).
Proof.
  destruct (build_prompt lang command text language) as [prompt|] eqn:Hp.
  2:{ left. split; [reflexivity|]. unfold process_text. now rewrite Hp. }
  right.
  destruct (readable w) eqn:Hr.
  2:{ left.
      assert (Hsome : is_Some (build_prompt lang command text language))
        by (rewrite Hp; eauto).
      destruct (process_text_escapes env text command language w Hr Hsome)
        as (e & He).
      exists e. split; [exact He|]. split; [eauto|now left]. }
  destruct (py_int (stored w "max_tokens" (VStr "1000"))) as [n|e] eqn:Hn.
  2:{ left. exists e. split; [|split; [eauto|now right; left]].
      unfold process_text. rewrite Hp.
      do 3 store_step. unfold bind at 1, lift at 1. now rewrite Hn. }
  destruct (py_float (stored w "temperature" (VStr "0.5"))) as [t|e] eqn:Ht.
  2:{ left. exists e. split; [|split; [eauto|now right; right]].
      unfold process_text. rewrite Hp.
      do 3 store_step. unfold bind at 1, lift at 1. rewrite Hn.
      store_step. unfold bind at 1, lift at 1. now rewrite Ht. }
  right. exists (request_for lang w prompt n t).
  assert (Hreq : request_built lang w text command language
                   (request_for lang w prompt n t)).
  { split; [exact Hr|]. exists prompt, n, t. auto. }
  split; [exact Hreq|].
  destruct (endpoint env) as [status reason body|e] eqn:Hreply.
  - destruct (decide (status = 200%Z)) as [->|Hne].
    + rewrite (process_text_ok _ _ _ _ _ _ _ _ Hreq Hreply).
      destruct (json_loads body) as [response_data|e]; [|right; eauto].
      destruct (message_content response_data) as [content|e]; [|right; eauto].
      destruct (strip_method content) as [stripped|e]; [left|right]; eauto.
    + destruct (decide (200 < status < 300)%Z) as [Hin|Hout].
      * rewrite (process_text_other_success_status _ _ _ _ _ _ _ _ _ Hreq Hreply Hin).
        right; eauto.
      * rewrite (process_text_error_status _ _ _ _ _ _ _ _ _ Hreq Hreply) by lia.
        right; eauto.
  - rewrite (process_text_unreachable _ _ _ _ _ _ _ Hreq Hreply). right; eauto.
Qed.


(** What [process_text] leaves untouched, and what an exception of it
    leaves untouched. *)
Lemma process_text_frame env text command language w r w' :
  process_text lang env text command language w = (r, w') ->
  component w' = component w
  /\ settings_file w' = settings_file w
  /\ forms w' = forms w
  /\ match r with
     | Raise _ => w' = w
     | Ok (Some _) => dialogs w' = dialogs w
     | Ok None => True
     end.
Proof.
  destruct (process_text_cases env text command language w)
    as [(_ & ->) | [(e & -> & _) | (req & _ & [(t & ->) | (msg & ->)])]];
    intros [= <- <-]; auto.
Qed.

Lemma process_text_component env text command language w :
  component (snd (process_text lang env text command language w)) = component w.
Proof.
  destruct (process_text lang env text command language w) as [r w'] eqn:Hp.
  now destruct (process_text_frame _ _ _ _ _ _ _ Hp).
Qed.

(** The pipeline after the checks: the document holds the selection or a
    marked block, and an exception has shown no dialog. *)
Lemma complete_and_insert_outcome env s command language w r w' :
  component w = Writer s ->
  complete_and_insert lang env s command language w = (r, w') ->
  (component w' = Writer s
   \/ exists new_text marker_language,
        component w' = Writer (marked_output lang s new_text command marker_language))
  /\ match r with
     | Raise _ => dialogs w' = dialogs w /\ component w' = Writer s
     | Ok _ => True
     end.
Proof.
  intros Hc. unfold complete_and_insert, bind.
  destruct (process_text lang env s command language w) as [r0 w0] eqn:Hp.
  destruct (process_text_frame _ _ _ _ _ _ _ Hp) as (Hc0 & _ & _ & Hr0).
  rewrite Hc in Hc0.
  destruct r0 as [[new_text|]|e].
  - destruct (truthy new_text).
    + destruct (insert_text_outcome new_text s command w0 s Hc0)
        as [(l & ->) | (e & ->)]; intros [= <- <-].
      * split; [|exact I]. right. cbn. eauto.
      * split; [now left|]. split; [exact Hr0|exact Hc0].
    + intros [= <- <-]. split; [now left|exact I].
  - intros [= <- <-]. split; [now left|exact I].
  - intros [= <- <-]. subst w0. split; [now left|]. split; [reflexivity|exact Hc].
Qed.

Lemma complete_and_insert_component env s command language w :
  component w = Writer s ->
  component (snd (complete_and_insert lang env s command language w)) = Writer s
  \/ exists new_text marker_language,
       component (snd (complete_and_insert lang env s command language w))
       = Writer (marked_output lang s new_text command marker_language).
Proof.
  intros Hc.
  destruct (complete_and_insert lang env s command language w) as [r w'] eqn:Hci.
  exact (proj1 (complete_and_insert_outcome _ _ _ _ _ _ _ Hc Hci)).
Qed.

Lemma translation_box_outcome env title w :
  readable w = true ->
  exists r,
    translation_box env title w = (r, add_form title w)
    /\ match r with
       | Ok d => exists language, d = {[ "language" := VStr language ]}
       | Raise _ => True
       end.
Proof.
  intros Hr. unfold translation_box. do 2 store_step.
  unfold bind at 1, modify at 1.
  assert (Hr' : readable (add_form title w) = true) by exact Hr.
  destruct (translation_user env) as [language| |e].
  - eexists. split; [reflexivity|]. cbn. eauto.
  - store_step. eexists. split; [reflexivity|]. cbn. eauto.
  - eexists. split; [reflexivity|]. exact I.
Qed.

Lemma translate_flow_outcome env s command w r w' :
  component w = Writer s ->
  translate_flow lang env s command w = (r, w') ->
  (component w' = Writer s
   \/ exists new_text marker_language,
        component w' = Writer (marked_output lang s new_text command marker_language))
  /\ match r with
     | Raise _ => dialogs w' = dialogs w /\ component w' = Writer s
     | Ok _ => True
     end.
Proof.
  intros Hc. unfold translate_flow. unfold bind at 1.
  destruct (readable w) eqn:Hr.
  2:{ destruct (translation_box_escapes env (lang "translate") w Hr) as (e & ->).
      intros [= <- <-]. split; [now left|]. split; [reflexivity|exact Hc]. }
  destruct (translation_box_outcome env (lang "translate") w Hr) as (r0 & -> & Hr0).
  destruct r0 as [d|e].
  2:{ intros [= <- <-]. split; [left; exact Hc|]. split; [reflexivity|exact Hc]. }
  destruct Hr0 as (language & ->). eval_dict. cbn match.
  unfold bind at 1, lift at 1.
  assert (Hr' : readable (add_form (lang "translate") w) = true) by exact Hr.
  store_step.
  destruct (negb (is_empty_str (VStr language))).
  - intros Hflow.
    assert (Hc2 : component (written "language" (VStr language)
                               (add_form (lang "translate") w)) = Writer s).
    { now rewrite component_written. }
    destruct (complete_and_insert_outcome _ _ _ _ _ _ _ Hc2 Hflow) as (Hdoc & Hraise).
    split; [exact Hdoc|].
    destruct r as [a|e]; [exact I|].
    destruct Hraise as (Hd & Hcomp). split; [|exact Hcomp].
    rewrite Hd. now rewrite dialogs_written.
  - intros [= <- <-]. split; [|exact I]. left. now rewrite component_written.
Qed.

Lemma translate_flow_component env s command w :
  component w = Writer s ->
  component (snd (translate_flow lang env s command w)) = Writer s
  \/ exists new_text marker_language,
       component (snd (translate_flow lang env s command w))
       = Writer (marked_output lang s new_text command marker_language).
Proof.
  intros Hc. destruct (translate_flow lang env s command w) as [r w'] eqn:Hflow.
  exact (proj1 (translate_flow_outcome _ _ _ _ _ _ Hc Hflow)).
Qed.

(** Outside the [settings] branch no handler writes into the document:
    after the command the text under the cursor is the selection, or the
    selection followed by a marked result. *)
Lemma other_commands_never_write_errors env command w s :
  command <> "settings" ->
  component w = Writer s ->
  component (snd (trigger lang env command w)) = Writer s
  \/ exists new_text marker_language,
       component (snd (trigger lang env command w))
       = Writer (marked_output lang s new_text command marker_language).
Proof.
  intros Hne Hc. apply String.eqb_neq in Hne.
  destruct (readable w) eqn:Hr.
  - rewrite (trigger_on_writer _ _ _ _ Hr Hc).
    destruct (String.eqb command "hello"); [now left|].
    rewrite Hne.
    destruct (negb (truthy (strip s))); [now left|].
    destruct (is_empty_str (stored w "openai_api_key" (VStr ""))); [now left|].
    destruct (String.eqb command "translate").
    + unfold try_except, translate_handler, raise.
      pose proof (translate_flow_component env s command w Hc) as Ht.
      destruct (translate_flow lang env s command w) as [[a|e] w']; exact Ht.
    + now apply complete_and_insert_component.
  - destruct (trigger_escapes env command w s Hr Hc) as (e & _ & ->).
    destruct (String.eqb command "hello"); [now left|].
    rewrite Hne. destruct (negb (truthy (strip s))); now left.
Qed.



End Properties.

(* ===================================================================== *)
(** ** The model on concrete inputs *)
(* ===================================================================== *)

(** C1. An endpoint that answers 500 with the body [boom]: the dialog of
    [process_text] carries the text of the [HTTPError] that [urlopen]
    raised, and the body of the response is not shown. *)
Theorem status_500_dialog_shows_http_error :
  process_text Sample.lang
    (mkEnv (Reply 500 "Internal Server Error" "boom") Cancel Cancel)
    "hola" "complete" "" Sample.ready
  = (Ok None,
     add_dialog ("Error", "HTTP Error 500: Internal Server Error")
       (add_request
          (request_for Sample.lang Sample.ready
             "Complete the following text: hola" 1000 (Sample.mkDecimal 5 1))
          Sample.ready))
  /\ ("Error", "boom") ∉
       dialogs (snd (process_text Sample.lang
         (mkEnv (Reply 500 "Internal Server Error" "boom") Cancel Cancel)
         "hola" "complete" "" Sample.ready)).
Proof.
  split; [reflexivity|].
  intros Hin. apply list_elem_of_singleton in Hin. discriminate Hin.
Qed.

(** On a profile that cannot be written [set_config] prints the error and
    returns; the value is not read back. *)
Lemma refused_write_is_not_read_back :
  exists w',
    set_config "temperature" (VFloat (Sample.mkDecimal 7 1)) Sample.read_only
    = (Ok tt, w')
    /\ get_config "temperature" (VStr "0.5") w' = (Ok (VStr "0.5"), w')
    /\ get_config "temperature" (VStr "0.5") w'
       <> (Ok (VFloat (Sample.mkDecimal 7 1)), w')
    /\ printed w'
       = ["Error writing to /profile/aiwriter.json: [Errno 13] Permission denied: '/profile/aiwriter.json'"].
Proof.
  eexists. split; [reflexivity|]. split; [reflexivity|]. split; [|reflexivity].
  intros Heq. apply (f_equal fst) in Heq.
  change (Ok (VStr (H := Sample.builtins) "0.5")
          = Ok (VFloat (Sample.mkDecimal 7 1))) in Heq.
  discriminate Heq.
Qed.

(** A 200 response whose body holds [null] at
    [choices[0].message.content]: the path is there, and [process_text]
    shows the error of [strip] and returns [None]. *)
Lemma null_content_is_not_returned :
  json_loads null_body = Ok null_document
  /\ content_at_path (null_document (F := float)) = Some JNull
  /\ process_text Sample.lang (mkEnv (Reply 200 "OK" null_body) Cancel Cancel)
       "hola" "complete" "" Sample.ready
     = (Ok None,
        add_dialog ("Error", "'NoneType' object has no attribute 'strip'")
          (add_request
             (request_for Sample.lang Sample.ready
                "Complete the following text: hola" 1000 (Sample.mkDecimal 5 1))
             Sample.ready)).
Proof. split; [reflexivity|]. split; reflexivity. Qed.


(** With nothing selected and no API key, [complete] shows the "no text
    selected" box, not the "no API key" one. *)
Lemma blank_selection_hides_missing_key :
  get_config "openai_api_key" (VStr "") Sample.fresh = (Ok (VStr ""), Sample.fresh)
  /\ trigger Sample.lang Sample.quiet "complete" Sample.fresh
     = (Ok tt, add_dialog ("Error", "No text selected") Sample.fresh)
  /\ (Sample.lang "error", Sample.lang "no_api_key") ∉
       dialogs (snd (trigger Sample.lang Sample.quiet "complete" Sample.fresh)).
Proof.
  split; [reflexivity|]. split; [reflexivity|].
  intros Hin. apply list_elem_of_singleton in Hin. discriminate Hin.
Qed.

(** A selection that already holds a start marker: after [insert_text]
    the text under the cursor holds two of them. *)
Lemma selected_marker_is_counted_twice :
  exists output,
    component (snd (insert_text Sample.lang "Y" "[---START IMPROVE ---]" "improve"
                      (Sample.with_selection "[---START IMPROVE ---]" Sample.fresh)))
    = Writer output
    /\ occurrences (start_marker Sample.lang "improve" "") output = 2.
Proof. eexists. split; reflexivity. Qed.

(** After a confirmed dialog the store holds [max_tokens] as the integer
    1000; a cancelled dialog returns it as the string ["1000"]. *)
Lemma cancel_returns_max_tokens_as_text :
  get_config "max_tokens" (VStr "1000") Sample.ready = (Ok (VInt 1000), Sample.ready)
  /\ exists r,
       fst (settings_box Sample.quiet "Settings" Sample.ready) = Ok r
       /\ r !! "max_tokens" = Some (VStr "1000")
       /\ r !! "max_tokens" <> Some (stored Sample.ready "max_tokens" (VStr "1000")).
Proof.
  split; [reflexivity|]. eexists. split; [reflexivity|].
  split; [reflexivity|]. intros Heq.
  change (Some (VStr (H := Sample.builtins) "1000") = Some (VInt 1000)) in Heq.
  discriminate Heq.
Qed.

(** *** The theorems at the sample instance *)

Lemma ai_command_complete : "complete" ∈ ai_commands.
Proof. unfold ai_commands. apply list_elem_of_further, list_elem_of_here. Defined.

Lemma ai_command_improve : "improve" ∈ ai_commands.
Proof.
  unfold ai_commands.
  do 3 apply list_elem_of_further. apply list_elem_of_here.
Defined.

Lemma ready_request_built :
  request_built Sample.lang Sample.ready "hola" "complete" ""
    (request_for Sample.lang Sample.ready "Complete the following text: hola"
       1000 (Sample.mkDecimal 5 1)).
Proof.
  split; [reflexivity|].
  exists "Complete the following text: hola".
  exists 1000%Z.
  exists (Sample.mkDecimal 5 1).
  repeat split; reflexivity.
Defined.

Lemma empty_api_key_short_circuits_witness :
  "complete" ∈ ai_commands
  /\ get_config "openai_api_key" (VStr "") (Sample.with_selection "hola" Sample.fresh)
     = (Ok (VStr ""), Sample.with_selection "hola" Sample.fresh)
  /\ requests (snd (trigger Sample.lang Sample.quiet "complete"
                      (Sample.with_selection "hola" Sample.fresh))) = []
  /\ trigger Sample.lang Sample.quiet "complete"
       (Sample.with_selection "hola" Sample.fresh)
     = (Ok tt, add_dialog ("Error", "No API key configured")
                 (Sample.with_selection "hola" Sample.fresh)).
Proof.
  split; [exact ai_command_complete|]. split; [reflexivity|].
  destruct (empty_api_key_short_circuits Sample.lang Sample.quiet "complete"
              (Sample.with_selection "hola" Sample.fresh)
              ai_command_complete eq_refl) as [Hreq Hdialog].
  split; [exact Hreq|].
  apply (Hdialog "hola"); [reflexivity|]. discriminate.
Defined.

Lemma blank_selection_is_rejected_witness :
  "improve" ∈ ai_commands
  /\ component (Sample.with_selection "  " Sample.ready) = Writer "  "
  /\ strip "  " = ""
  /\ trigger Sample.lang Sample.quiet "improve" (Sample.with_selection "  " Sample.ready)
     = (Ok tt, add_dialog ("Error", "No text selected")
                 (Sample.with_selection "  " Sample.ready))
  /\ forms (snd (trigger Sample.lang Sample.quiet "settings"
                   (Sample.with_selection "  " Sample.ready))) = ["Settings"].
Proof.
  split; [exact ai_command_improve|]. split; [reflexivity|]. split; [reflexivity|].
  destruct (blank_selection_is_rejected Sample.lang Sample.quiet "improve"
              (Sample.with_selection "  " Sample.ready) "  "
              ai_command_improve eq_refl eq_refl) as (Hd & _ & Hf & _).
  split; [exact Hd|exact (Hf eq_refl)].
Defined.

Lemma build_prompt_table_witness :
  ("hello" ∉ ai_commands)
  /\ build_prompt Sample.lang "hello" "hola" "" = None
  /\ build_prompt Sample.lang "translate" "hola" "en"
     = Some "Translate the following text to en: hola".
Proof.
  assert (Hn : "hello" ∉ ai_commands).
  { unfold ai_commands. intros Hin.
    repeat (apply elem_of_cons in Hin as [Hin|Hin]; [discriminate Hin|]).
    now apply elem_of_nil in Hin. }
  split; [exact Hn|].
  destruct (build_prompt_table Sample.lang) as (Htr & _ & _ & Hun).
  split; [exact (proj1 (Hun "hello" "hola" "" Hn))|exact Htr].
Defined.

Lemma process_text_returns_trimmed_content_witness :
  request_built Sample.lang Sample.ready "hola" "complete" ""
    (request_for Sample.lang Sample.ready "Complete the following text: hola"
       1000 (Sample.mkDecimal 5 1))
  /\ json_loads hello_body = Ok hello_document
  /\ content_at_path (hello_document (F := float)) = Some (JStr " Hello ")
  /\ process_text Sample.lang (mkEnv (Reply 200 "OK" hello_body) Cancel Cancel)
       "hola" "complete" "" Sample.ready
     = (Ok (Some "Hello"),
        add_request
          (request_for Sample.lang Sample.ready
             "Complete the following text: hola" 1000 (Sample.mkDecimal 5 1))
          Sample.ready).
Proof.
  split; [exact ready_request_built|].
  assert (Hjson : json_loads hello_body = Ok hello_document)
    by reflexivity.
  split; [exact Hjson|]. split; [reflexivity|].
  destruct (process_text_returns_trimmed_content Sample.lang
              (mkEnv (Reply 200 "OK" hello_body) Cancel Cancel)
              "hola" "complete" "" Sample.ready _ "OK" ready_request_built)
    as [Hstring _].
  exact (Hstring hello_body hello_document " Hello " eq_refl Hjson eq_refl).
Defined.

Lemma settings_round_trip_and_fallback_witness :
  readable Sample.fresh = true
  /\ write_error Sample.fresh = None
  /\ (exists w',
        set_config "temperature" (VFloat (Sample.mkDecimal 7 1)) Sample.fresh
        = (Ok tt, w')
        /\ get_config "temperature" (VStr "0.5") w'
           = (Ok (VFloat (Sample.mkDecimal 7 1)), w'))
  /\ readable Sample.read_only = true
  /\ (exists w',
        set_config "temperature" (VFloat (Sample.mkDecimal 7 1)) Sample.read_only
        = (Ok tt, w')
        /\ settings_file w' = FileMissing)
  /\ settings_file Sample.fresh = FileMissing
  /\ get_config "language" (VStr "") Sample.fresh = (Ok (VStr ""), Sample.fresh).
Proof.
  destruct (settings_round_trip_and_fallback (H := Sample.builtins))
    as (Hround & Hrefused & Hfallback).
  split; [reflexivity|]. split; [reflexivity|].
  split; [exact (Hround "temperature" _ (VStr "0.5") Sample.fresh eq_refl eq_refl)|].
  split; [reflexivity|].
  split.
  - destruct (Hrefused "temperature"
                (VFloat (H := Sample.builtins) (Sample.mkDecimal 7 1)) (VStr "0.5")
                Sample.read_only _ eq_refl eq_refl) as (w' & Hset & _ & Hfile & _).
    exists w'. split; [exact Hset|exact Hfile].
  - split; [reflexivity|].
    exact (Hfallback "language" (VStr "") Sample.fresh (or_introl eq_refl)).
Defined.

Lemma set_config_keeps_other_keys_witness :
  settings_file Sample.ready = FileObject Sample.saved_settings
  /\ Sample.saved_settings !! "model" = Some (VStr "gpt-4o-mini")
  /\ "model" <> "temperature"
  /\ exists w',
       set_config "temperature" (VFloat (Sample.mkDecimal 7 1)) Sample.ready
       = (Ok tt, w')
       /\ get_config "model" (VStr "") w' = (Ok (VStr "gpt-4o-mini"), w').
Proof.
  assert (Hne : "model" <> "temperature") by discriminate.
  split; [reflexivity|]. split; [reflexivity|]. split; [exact Hne|].
  destruct (set_config_keeps_other_keys "temperature"
              (VFloat (H := Sample.builtins) (Sample.mkDecimal 7 1))
              "model" (VStr "") Sample.ready
              Sample.saved_settings (VStr "gpt-4o-mini")
              eq_refl eq_refl Hne) as (w' & Hset & Hafter & _).
  exists w'. split; [exact Hset|exact Hafter].
Defined.

Lemma insert_text_marks_the_result_witness :
  component (Sample.with_selection "X" Sample.ready) = Writer "X"
  /\ "improve" <> "translate"
  /\ insert_text Sample.lang "Y" "X" "improve" (Sample.with_selection "X" Sample.ready)
     = (Ok tt,
        set_component
          (Writer (marked_output Sample.lang "X" "Y" "improve" ""))
          (Sample.with_selection "X" Sample.ready))
  /\ occurrences (start_marker Sample.lang "improve" "")
       (marked_output Sample.lang "X" "Y" "improve" "") = 1
  /\ occurrences (end_marker Sample.lang "improve" "")
       (marked_output Sample.lang "X" "Y" "improve" "") = 1.
Proof.
  assert (Hne : "improve" <> "translate") by discriminate.
  split; [reflexivity|]. split; [exact Hne|].
  destruct (insert_text_marks_the_result Sample.lang "Y" "X" "improve"
              (Sample.with_selection "X" Sample.ready) "X" eq_refl)
    as (Hplain & _ & Hcount).
  split; [exact (Hplain Hne)|].
  exact (proj2 (Hcount "") eq_refl eq_refl eq_refl eq_refl eq_refl eq_refl).
Defined.


Lemma settings_box_record_witness :
  readable Sample.ready = true
  /\ settings_user Sample.quiet = Cancel
  /\ py_float (stored Sample.ready "temperature" (VStr "0.5"))
     = Ok (Sample.mkDecimal 5 1)
  /\ exists r,
       settings_box Sample.quiet "Settings" Sample.ready
       = (Ok r, add_form "Settings" Sample.ready)
       /\ r !! "max_tokens" = Some (VStr "1000")
       /\ r !! "temperature" = Some (VFloat (Sample.mkDecimal 5 1)).
Proof.
  split; [reflexivity|]. split; [reflexivity|]. split; [reflexivity|].
  destruct (settings_box_record Sample.quiet "Settings" Sample.ready)
    as (_ & _ & Hcancel).
  destruct (Hcancel (Sample.mkDecimal 5 1) eq_refl eq_refl eq_refl)
    as (r & Hbox & _ & _ & Hmax & Htemp).
  exists r. split; [exact Hbox|]. split; [exact Hmax|exact Htemp].
Defined.

(* ===================================================================== *)
(** ** Further properties: the store, the pipeline, the start-up code *)
(* ===================================================================== *)

Section Store.
Context `{Builtins}.

(** X1. On a writable profile whose settings file is missing or cannot be
    loaded, [set_config] leaves a file holding the one pair it was given:
    every other key then reads as the caller's default, so the settings an
    unloadable file held are gone after the first write. *)
Theorem set_config_replaces_unusable_file key val w :
  write_error w = None ->
  settings_file w = FileMissing \/ settings_file w = FileUnreadable ->
  exists w',
    set_config key val w = (Ok tt, w')
    /\ settings_file w' = FileObject {[ key := val ]}
    /\ forall other dflt,
         other <> key -> get_config other dflt w' = (Ok dflt, w').
Proof.
  intros Hw Hfile.
  exists (set_settings_file (FileObject {[ key := val ]}) w).
  split; [|split; [reflexivity|]].
  - unfold set_config. rewrite Hw.
    destruct Hfile as [-> | ->]; cbn; now rewrite insert_empty.
  - intros other dflt Hne. unfold get_config. cbn.
    now rewrite lookup_singleton_ne by congruence.
Qed.

(** X2. On a writable profile two writes to the same key leave the world
    the second write alone would leave. *)
Theorem set_config_last_write_wins key v1 v2 w :
  write_error w = None ->
  (do _ <- set_config key v1; set_config key v2) w = set_config key v2 w.
Proof.
  intros Hw. unfold bind, set_config. rewrite Hw.
  destruct (settings_file w) eqn:Hf; cbn; rewrite ?Hw, ?Hf; cbn;
    rewrite ?insert_insert_eq; reflexivity.
Qed.

(** X3. On a writable profile writes to two different keys can be swapped:
    both orders leave the same world. *)
Theorem set_config_commutes k1 v1 k2 v2 w :
  write_error w = None ->
  k1 <> k2 ->
  (do _ <- set_config k2 v2; set_config k1 v1) w
  = (do _ <- set_config k1 v1; set_config k2 v2) w.
Proof.
  intros Hw Hne. unfold bind, set_config. rewrite Hw.
  destruct (settings_file w) eqn:Hf; cbn; rewrite ?Hw, ?Hf; cbn;
    rewrite ?(insert_insert_ne _ k1 k2) by exact Hne; reflexivity.
Qed.

End Store.

(** [int(str(n))] is [n]. *)

Lemma decimal_digit_pretty_char (d : N) :
  (d < 10)%N -> decimal_digit (pretty_N_char d) = Some (Z.of_N d).
Proof.
  intros Hd.
  assert (d = 0 \/ d = 1 \/ d = 2 \/ d = 3 \/ d = 4 \/ d = 5 \/ d = 6
          \/ d = 7 \/ d = 8 \/ d = 9)%N as Hcases by lia.
  repeat (destruct Hcases as [-> | Hcases]; [reflexivity|]). now subst.
Qed.

Lemma int_digits_pretty_go (x : N) :
  forall s after,
    (0 < x)%N ->
    int_digits 0 after (pretty_N_go x s) = int_digits (Z.of_N x) true s.
Proof.
  induction (N.lt_wf_0 x) as [x _ IH]. intros s after Hx.
  rewrite pretty_N_go_step by exact Hx.
  assert (Hmod : (x `mod` 10 < 10)%N) by (apply N.mod_lt; lia).
  destruct (decide (x `div` 10 = 0)%N) as [Hz | Hnz].
  - rewrite Hz, pretty_N_go_0. cbn [int_digits].
    rewrite (decimal_digit_pretty_char _ Hmod). f_equal.
    pose proof (N.div_mod x 10 ltac:(discriminate)) as Hdm. rewrite Hz in Hdm.
    change (Z.of_N (x `mod` 10) = Z.of_N x). f_equal. symmetry. exact Hdm.
  - rewrite IH; [|apply N.div_lt; [exact Hx|reflexivity]
                  |apply N.neq_0_lt_0; exact Hnz].
    cbn [int_digits]. rewrite (decimal_digit_pretty_char _ Hmod). f_equal.
    pose proof (N.div_mod x 10 ltac:(discriminate)) as Hdm.
    change 10%Z with (Z.of_N 10).
    rewrite <- N2Z.inj_mul, <- N2Z.inj_add. f_equal. symmetry. exact Hdm.
Qed.

Lemma all_decimal_pretty_go (x : N) :
  forall s, all_decimal s = true -> all_decimal (pretty_N_go x s) = true.
Proof.
  induction (N.lt_wf_0 x) as [x _ IH]. intros s Hs.
  destruct (decide (x = 0)%N) as [-> | Hx]; [now rewrite pretty_N_go_0|].
  rewrite pretty_N_go_step by lia.
  apply IH; [apply N.div_lt; lia|].
  unfold all_decimal in *. cbn [all_chars]. rewrite Hs, andb_true_r.
  apply bool_decide_eq_true.
  rewrite (decimal_digit_pretty_char (x `mod` 10)); [eauto|].
  apply N.mod_lt; lia.
Qed.

Lemma pretty_go_nonempty (x : N) s : (0 < x)%N -> pretty_N_go x s <> "".
Proof.
  revert s. induction (N.lt_wf_0 x) as [x _ IH]. intros s Hx.
  rewrite pretty_N_go_step by exact Hx.
  destruct (decide (x `div` 10 = 0)%N) as [Hz | Hnz].
  - rewrite Hz, pretty_N_go_0. discriminate.
  - apply IH; [apply N.div_lt; [exact Hx|reflexivity]
              |apply N.neq_0_lt_0; exact Hnz].
Qed.

Lemma pretty_positive_digits (p : positive) :
  all_decimal (pretty p) = true /\ pretty p <> ""
  /\ forall after, int_digits 0 after (pretty p) = Some (Z.pos p).
Proof.
  unfold pretty, pretty_positive, pretty, pretty_N.
  destruct (decide (N.pos p = 0%N)) as [Hz|_]; [discriminate Hz|].
  split; [now apply all_decimal_pretty_go|].
  split; [apply pretty_go_nonempty; lia|].
  intros after. rewrite int_digits_pretty_go by lia. reflexivity.
Qed.

Lemma first_char_decimal s :
  all_decimal s = true -> s <> "" ->
  match s with
  | String "-" r => Z.opp <$> int_digits 0 false r
  | String "+" r => int_digits 0 false r
  | _ => int_digits 0 false s
  end = int_digits 0 false s.
Proof.
  intros Hs Hne. destruct s as [|c s]; [congruence|].
  unfold all_decimal in Hs. cbn [all_chars] in Hs.
  apply andb_true_iff in Hs as [Hc _].
  apply bool_decide_eq_true in Hc as [d Hd].
  destruct (decide (c = "-"%char)) as [->|Hm]; [discriminate Hd|].
  destruct (decide (c = "+"%char)) as [->|Hp]; [discriminate Hd|].
  destruct c as [[] [] [] [] [] [] [] []]; try reflexivity; congruence.
Qed.

Lemma int_of_string_pretty (n : Z) : int_of_string (pretty n) = Ok n.
Proof.
  destruct n as [|p|p].
  - reflexivity.
  - change (pretty (Z.pos p)) with (pretty p).
    destruct (pretty_positive_digits p) as (Hdec & Hne & Hval).
    unfold int_of_string. rewrite (strip_decimal _ Hdec).
    rewrite (first_char_decimal _ Hdec Hne), Hval. reflexivity.
  - change (pretty (Z.neg p)) with ("-" +:+ pretty p).
    destruct (pretty_positive_digits p) as (Hdec & Hne & Hval).
    unfold int_of_string.
    assert (Hstrip : strip ("-" +:+ pretty p) = String "-" (pretty p)).
    { change ("-" +:+ pretty p) with (String "-"%char (pretty p)).
      unfold strip. cbn [lstrip]. change (isspace "-") with false. cbn match.
      cbn [rstrip]. rewrite (rstrip_decimal _ Hdec).
      destruct (pretty p); [congruence|reflexivity]. }
    rewrite Hstrip, Hval. reflexivity.
Qed.

Section Pipeline.
Context `{Builtins}.
Variable lang : string -> string.

Ltac eval_record :=
  repeat match goal with
  | |- context [dict_is_empty ?d] =>
      let b := eval vm_compute in (dict_is_empty d) in
      change (dict_is_empty d) with b
  | |- context [dict_getitem ?d ?k] =>
      let r := eval vm_compute in (dict_getitem d k) in
      change (dict_getitem d k) with r
  end.

Ltac solve_readable :=
  rewrite ?readable_written, ?readable_opened;
  match goal with
  | Hr : readable _ = true |- _ => exact Hr
  end.

Ltac store_step :=
  first [ rewrite bind_get_config by solve_readable
        | rewrite bind_set_config by solve_readable
        | rewrite get_config_readable by solve_readable
        | rewrite set_config_readable by solve_readable ];
  cbv beta.

Ltac store_run :=
  repeat (first [ rewrite get_config_readable by solve_readable
                | rewrite set_config_readable by solve_readable ];
          cbv beta iota).

(** *** Store helpers *)

Lemma write_error_written key val w :
  write_error (written key val w) = write_error w.
Proof.
  destruct (written_cases key val w) as [-> | [(d & ->) | (l & ->)]]; reflexivity.
Qed.

Lemma stored_written_same key val dflt w :
  readable w = true ->
  write_error w = None -> stored (written key val w) key dflt = val.
Proof.
  intros Hr Hw. destruct (written_file key val w Hr Hw) as (d & Hfile & _).
  rewrite (stored_object _ _ _ _ Hfile). now rewrite lookup_insert_eq.
Qed.

Lemma stored_written_other key val other dflt w :
  other <> key ->
  stored (written key val w) other dflt = stored w other dflt.
Proof.
  intros Hne. unfold stored, written, get_config, set_config.
  destruct (settings_file w) as [| |msg|d|doc] eqn:Hf; cbn; rewrite ?Hf;
    try reflexivity;
    destruct (write_error w); cbn; rewrite ?Hf;
    rewrite ?lookup_insert_ne by congruence; rewrite ?lookup_empty;
    try reflexivity; now destruct (d !! other).
Qed.

Lemma stored_add_request req w key dflt :
  stored (add_request req w) key dflt = stored w key dflt.
Proof. now apply stored_same_file. Qed.

Lemma stored_add_form' title w key dflt :
  stored (add_form title w) key dflt = stored w key dflt.
Proof. now apply stored_same_file. Qed.

(** *** Completion client *)

Lemma process_text_env env env' text command language w :
  endpoint env = endpoint env' ->
  process_text lang env text command language w
  = process_text lang env' text command language w.
Proof.
  intros He. unfold process_text, urlopen. now rewrite He.
Qed.

(** X4. One call of [process_text] never touches the settings file, the
    document or the forms. Either it sends nothing and shows nothing, or it
    sends exactly one request: to [API_URL], authorized with the stored
    key, carrying the assistant text of the language file and the prompt of
    the command; and then it shows at most one dialog, titled with the
    error label. *)
Theorem process_text_sends_at_most_one_request env text command language w :
  settings_file (snd (process_text lang env text command language w)) = settings_file w
  /\ component (snd (process_text lang env text command language w)) = component w
  /\ forms (snd (process_text lang env text command language w)) = forms w
  /\ ((requests (snd (process_text lang env text command language w)) = requests w
       /\ dialogs (snd (process_text lang env text command language w)) = dialogs w)
      \/ exists req,
           requests (snd (process_text lang env text command language w))
           = requests w ++ [req]
           /\ req_url req = API_URL
           /\ req_authorization req
              = "Bearer " +:+ py_str (stored w "openai_api_key" (VStr ""))
           /\ req_assistant_text req = lang "prompt_assistant"
           /\ build_prompt lang command text language = Some (req_user_text req)
           /\ (dialogs (snd (process_text lang env text command language w)) = dialogs w
               \/ exists msg,
                    dialogs (snd (process_text lang env text command language w))
                    = dialogs w ++ [(lang "error", msg)])).
Proof.
  destruct (process_text_cases lang env text command language w)
    as [(_ & ->) | [(e & -> & _) | (req & Hreq & Hres)]].
  - repeat split; try reflexivity. now left.
  - repeat split; try reflexivity. now left.
  - destruct Hreq as (_ & prompt & n & t & Hp & _ & _ & ->).
    destruct Hres as [(new_text & ->) | (msg & ->)];
      (split; [reflexivity|]); (split; [reflexivity|]); (split; [reflexivity|]);
      right; eexists; (split; [reflexivity|]); repeat split; eauto.
Qed.

(** X5. The conversions [int(max_tokens)] and [float(temperature)] of
    [process_text] stand outside its [try]: for a command other than
    [translate], on a non-blank selection and with an API key read from a
    readable store, a stored value that does not convert makes [trigger]
    raise that error; no dialog is shown, nothing is sent and the document
    is left as it was. *)
Theorem unconvertible_setting_escapes_trigger env command w s e :
  readable w = true ->
  command ∈ ai_commands ->
  command <> "translate" ->
  component w = Writer s ->
  strip s <> "" ->
  is_empty_str (stored w "openai_api_key" (VStr "")) = false ->
  py_int (stored w "max_tokens" (VStr "1000")) = Raise e
  \/ (exists n, py_int (stored w "max_tokens" (VStr "1000")) = Ok n)
     /\ py_float (stored w "temperature" (VStr "0.5")) = Raise e ->
  trigger lang env command w = (Raise e, w).
Proof.
  intros Hr Hin Hnt Hc Hs Hk Hconv.
  rewrite (trigger_on_writer _ _ _ _ _ Hr Hc).
  destruct (ai_command_cases _ Hin) as (-> & ->).
  rewrite (truthy_nonempty _ Hs), Hk. cbn [negb].
  apply String.eqb_neq in Hnt. rewrite Hnt.
  destruct (build_prompt_recognized lang command s "" Hin) as (prompt & Hp).
  unfold complete_and_insert, bind at 1, process_text. rewrite Hp.
  do 3 store_step. unfold bind at 1, lift at 1.
  destruct Hconv as [Hn | ((n & Hn) & Ht)]; rewrite Hn; [reflexivity|].
  store_step. unfold bind at 1, lift at 1. now rewrite Ht.
Qed.

(** *** The pipeline after validation *)

Lemma complete_and_insert_reply env s command language w req reason body data c :
  component w = Writer s ->
  request_built lang w s command language req ->
  endpoint env = Reply 200 reason body ->
  json_loads body = Ok data ->
  message_content data = Ok (JStr c) ->
  complete_and_insert lang env s command language w
  = if truthy (strip c)
    then (Ok tt,
          set_component
            (Writer (marked_output lang s (strip c) command
                       (if String.eqb command "translate"
                        then py_str (stored w "language" (VStr ""))
                        else "")))
            (add_request req w))
    else (Ok tt, add_request req w).
Proof.
  intros Hc Hreq Hreply Hjson Hpath.
  unfold complete_and_insert, bind.
  rewrite (process_text_ok _ _ _ _ _ _ _ _ _ Hreq Hreply), Hjson, Hpath.
  cbn [strip_method]. destruct (truthy (strip c)); [|reflexivity].
  destruct Hreq as (Hr & _).
  rewrite (insert_text_writes lang _ _ _ (add_request req w) s (or_introl Hr) Hc).
  now rewrite stored_add_request.
Qed.

Lemma plain_command_runs_pipeline env command w s :
  readable w = true ->
  command ∈ ai_commands -> command <> "translate" ->
  component w = Writer s -> strip s <> "" ->
  is_empty_str (stored w "openai_api_key" (VStr "")) = false ->
  trigger lang env command w = complete_and_insert lang env s command "" w.
Proof.
  intros Hr Hin Hnt Hc Hs Hk.
  rewrite (trigger_on_writer _ _ _ _ _ Hr Hc).
  destruct (ai_command_cases _ Hin) as (-> & ->).
  rewrite (truthy_nonempty _ Hs), Hk. cbn [negb].
  apply String.eqb_neq in Hnt. now rewrite Hnt.
Qed.

(** X6. The whole pipeline of a command other than [translate]: with a
    non-blank selection, an API key and an endpoint that answers 200 with a
    document whose content is the string [c], [trigger] sends the one
    request and replaces the selection by the marked block around
    [c.strip()], with no language in the markers; when [c.strip()] is
    empty it sends the request and inserts nothing. *)
Theorem trigger_inserts_the_completion
    env command w s req reason body data c :
  command ∈ ai_commands -> command <> "translate" ->
  component w = Writer s -> strip s <> "" ->
  is_empty_str (stored w "openai_api_key" (VStr "")) = false ->
  request_built lang w s command "" req ->
  endpoint env = Reply 200 reason body ->
  json_loads body = Ok data ->
  message_content data = Ok (JStr c) ->
  (strip c <> "" ->
     trigger lang env command w
     = (Ok tt,
        set_component (Writer (marked_output lang s (strip c) command ""))
          (add_request req w)))
  /\ (strip c = "" -> trigger lang env command w = (Ok tt, add_request req w)).
Proof.
  intros Hin Hnt Hc Hs Hk Hreq Hreply Hjson Hpath.
  rewrite (plain_command_runs_pipeline _ _ _ _ (proj1 Hreq) Hin Hnt Hc Hs Hk).
  rewrite (complete_and_insert_reply _ _ _ _ _ _ _ _ _ _ Hc Hreq Hreply Hjson Hpath).
  apply String.eqb_neq in Hnt. rewrite Hnt. split.
  - intros Hne. now rewrite (truthy_nonempty _ Hne).
  - intros ->. reflexivity.
Qed.

(** X7. A command outside the table ([hello] and [settings] apart) still
    goes through the checks of the pipeline: a blank selection gives the
    "no text selected" dialog and, the store being readable, a missing key
    the "no API key" dialog; once both pass, nothing is sent, shown or
    written. *)
Theorem unknown_command_is_validated_then_ignored env command w s :
  command ∉ ai_commands -> command <> "hello" -> command <> "settings" ->
  component w = Writer s ->
  (strip s = "" ->
     trigger lang env command w
     = (Ok tt, add_dialog (lang "error", lang "no_text_selected") w))
  /\ (strip s <> "" ->
      readable w = true ->
      is_empty_str (stored w "openai_api_key" (VStr "")) = true ->
      trigger lang env command w
      = (Ok tt, add_dialog (lang "error", lang "no_api_key") w))
  /\ (strip s <> "" ->
      readable w = true ->
      is_empty_str (stored w "openai_api_key" (VStr "")) = false ->
      trigger lang env command w = (Ok tt, w)).
Proof.
  intros Hn Hh Hst Hc.
  apply String.eqb_neq in Hh, Hst.
  assert (Htr : String.eqb command "translate" = false).
  { apply String.eqb_neq. intros ->. apply Hn. unfold ai_commands. set_solver. }
  split; [|split].
  - intros Hs. rewrite (trigger_before_key _ _ _ _ _ Hc), Hh, Hst, Hs.
    reflexivity.
  - intros Hs Hr Hk. rewrite (trigger_on_writer _ _ _ _ _ Hr Hc), Hh, Hst, Hk.
    now rewrite (truthy_nonempty _ Hs).
  - intros Hs Hr Hk. rewrite (trigger_on_writer _ _ _ _ _ Hr Hc), Hh, Hst, Hk, Htr.
    rewrite (truthy_nonempty _ Hs). cbn [negb].
    unfold complete_and_insert, bind, process_text.
    now rewrite (build_prompt_unrecognized lang command s "" Hn).
Qed.

(** X8. Whatever the command and however it ends, the current component
    after [trigger] is a Writer document; [hello] does nothing but open
    one when none is current. *)
Theorem trigger_leaves_a_writer_document env command w :
  (exists s, component (snd (trigger lang env command w)) = Writer s)
  /\ trigger lang env "hello" w = (Ok tt, opened w).
Proof.
  split.
  - rewrite trigger_opened. destruct (opened_writer w) as (s & Hs).
    destruct (decide (command = "settings")) as [->|Hne].
    + rewrite (trigger_settings _ _ _ _ Hs).
      pose proof (settings_flow_frame lang env (opened w)) as (Hcomp & _).
      destruct (settings_flow lang env (opened w)) as [[a|e] w'];
        cbn [snd] in *; [rewrite Hcomp|]; eauto.
    + destruct (other_commands_never_write_errors lang env command (opened w) s Hne Hs)
        as [Hsame | (t & l & Hmarked)]; eauto.
  - rewrite trigger_opened. destruct (opened_writer w) as (s & Hs).
    now rewrite (trigger_before_key _ _ _ _ _ Hs).
Qed.


(** *** The translate branch *)

Lemma translation_box_with env title w language :
  readable w = true ->
  translation_user env = Confirm language
  \/ (translation_user env = Cancel
      /\ language = py_str (stored w "language" (VStr ""))) ->
  translation_box env title w
  = (Ok {[ "language" := VStr language ]}, add_form title w).
Proof.
  intros Hr Hu. unfold translation_box. do 2 store_step.
  unfold bind at 1, modify at 1.
  assert (Hr' : readable (add_form title w) = true) by exact Hr.
  destruct Hu as [-> | (-> & ->)]; [reflexivity|].
  store_step. now rewrite stored_add_form.
Qed.

Lemma translate_flow_with env s command w language :
  readable w = true ->
  translation_user env = Confirm language
  \/ (translation_user env = Cancel
      /\ language = py_str (stored w "language" (VStr ""))) ->
  translate_flow lang env s command w
  = if is_empty_str (VStr language)
    then (Ok tt, written "language" (VStr language) (add_form (lang "translate") w))
    else complete_and_insert lang env s command language
           (written "language" (VStr language) (add_form (lang "translate") w)).
Proof.
  intros Hr Hu. unfold translate_flow. unfold bind at 1.
  rewrite (translation_box_with env (lang "translate") w language Hr Hu).
  eval_record. cbn match.
  unfold bind at 1, lift at 1.
  assert (Hr' : readable (add_form (lang "translate") w) = true) by exact Hr.
  store_step.
  now destruct (is_empty_str (VStr language)).
Qed.

Lemma translate_runs_flow env w s :
  readable w = true ->
  component w = Writer s -> strip s <> "" ->
  is_empty_str (stored w "openai_api_key" (VStr "")) = false ->
  trigger lang env "translate" w
  = try_except (translate_flow lang env s "translate") translate_handler w.
Proof.
  intros Hr Hc Hs Hk. rewrite (trigger_on_writer _ _ _ _ _ Hr Hc).
  now rewrite (truthy_nonempty _ Hs), Hk.
Qed.

Lemma nonempty_language language : language <> "" -> is_empty_str (VStr language) = false.
Proof. now destruct language. Qed.

Lemma complete_and_insert_env env env' s command language w :
  endpoint env = endpoint env' ->
  complete_and_insert lang env s command language w
  = complete_and_insert lang env' s command language w.
Proof.
  intros He. unfold complete_and_insert, bind.
  now rewrite (process_text_env env env' s command language w He).
Qed.

(** X9. Cancelling the translation dialog does not cancel the
    translation: [translate] then behaves exactly as if the user had
    confirmed the stored target language. *)
Theorem cancelled_translation_uses_stored_language env env' w :
  endpoint env = endpoint env' ->
  translation_user env = Cancel ->
  translation_user env' = Confirm (py_str (stored w "language" (VStr ""))) ->
  trigger lang env "translate" w = trigger lang env' "translate" w.
Proof.
  intros He Hcancel Hconfirm.
  rewrite (trigger_opened lang env), (trigger_opened lang env').
  destruct (opened_writer w) as (s & Hs).
  destruct (readable (opened w)) eqn:Hr.
  2:{ destruct (trigger_escapes lang env "translate" (opened w) s Hr Hs)
        as (e & He1 & ->).
      destruct (trigger_escapes lang env' "translate" (opened w) s Hr Hs)
        as (e' & He2 & ->).
      specialize (He1 "" (VStr "")). rewrite He2 in He1.
      injection He1 as <-. reflexivity. }
  rewrite !(trigger_on_writer _ _ _ _ _ Hr Hs).
  change (String.eqb "translate" "hello") with false.
  change (String.eqb "translate" "settings") with false.
  change (String.eqb "translate" "translate") with true. cbn match.
  destruct (negb (truthy (strip s))); [reflexivity|].
  destruct (is_empty_str (stored (opened w) "openai_api_key" (VStr "")));
    [reflexivity|].
  unfold try_except.
  rewrite (translate_flow_with env s "translate" (opened w)
             (py_str (stored w "language" (VStr ""))) Hr).
  2:{ right. split; [exact Hcancel|]. now rewrite stored_opened. }
  rewrite (translate_flow_with env' s "translate" (opened w)
             (py_str (stored w "language" (VStr ""))) Hr)
    by (now left).
  destruct (is_empty_str (VStr (py_str (stored w "language" (VStr "")))));
    [reflexivity|].
  now rewrite (complete_and_insert_env env env' _ _ _ _ He).
Qed.

Lemma translate_success env w s language req reason body data c :
  component w = Writer s -> strip s <> "" ->
  is_empty_str (stored w "openai_api_key" (VStr "")) = false ->
  translation_user env = Confirm language -> language <> "" ->
  request_built lang
    (written "language" (VStr language) (add_form (lang "translate") w))
    s "translate" language req ->
  endpoint env = Reply 200 reason body ->
  json_loads body = Ok data ->
  message_content data = Ok (JStr c) ->
  strip c <> "" ->
  trigger lang env "translate" w
  = (Ok tt,
     set_component
       (Writer (marked_output lang s (strip c) "translate"
                  (py_str (stored
                             (written "language" (VStr language)
                                (add_form (lang "translate") w))
                             "language" (VStr "")))))
       (add_request req
          (written "language" (VStr language) (add_form (lang "translate") w)))).
Proof.
  intros Hc Hs Hk Hu Hl Hreq Hreply Hjson Hpath Hne.
  assert (Hr : readable w = true).
  { destruct Hreq as (Hr & _). now rewrite readable_written in Hr. }
  rewrite (translate_runs_flow _ _ _ Hr Hc Hs Hk). unfold try_except.
  rewrite (translate_flow_with env s "translate" w language Hr) by (now left).
  rewrite (nonempty_language _ Hl).
  assert (Hc1 : component (written "language" (VStr language)
                             (add_form (lang "translate") w)) = Writer s).
  { now rewrite component_written. }
  rewrite (complete_and_insert_reply _ _ _ _ _ _ _ _ _ _ Hc1 Hreq Hreply Hjson Hpath).
  rewrite (truthy_nonempty _ Hne).
  change (String.eqb "translate" "translate") with true. cbn match.
  reflexivity.
Qed.

(** X10. A translation on a writable profile: the language entered in the
    dialog is stored, the prompt asks for that language, and the markers
    of the inserted block name it. *)
Theorem translation_marks_the_entered_language
    env w s language req reason body data c :
  component w = Writer s -> strip s <> "" ->
  is_empty_str (stored w "openai_api_key" (VStr "")) = false ->
  translation_user env = Confirm language -> language <> "" ->
  write_error w = None ->
  request_built lang
    (written "language" (VStr language) (add_form (lang "translate") w))
    s "translate" language req ->
  endpoint env = Reply 200 reason body ->
  json_loads body = Ok data ->
  message_content data = Ok (JStr c) ->
  strip c <> "" ->
  trigger lang env "translate" w
  = (Ok tt,
     set_component
       (Writer (marked_output lang s (strip c) "translate" language))
       (add_request req
          (written "language" (VStr language) (add_form (lang "translate") w))))
  /\ req_user_text req
     = lang "prompt_translate" +:+ " " +:+ language +:+ ": " +:+ s.
Proof.
  intros Hc Hs Hk Hu Hl Hw Hreq Hreply Hjson Hpath Hne. split.
  - rewrite (translate_success _ _ _ _ _ _ _ _ _ Hc Hs Hk Hu Hl Hreq Hreply Hjson Hpath Hne).
    destruct Hreq as (Hr & _). rewrite readable_written in Hr.
    now rewrite (stored_written_same "language" (VStr language) (VStr "")
                   (add_form (lang "translate") w) Hr Hw).
  - destruct Hreq as (_ & prompt & n & t & Hp & _ & _ & ->).
    cbn in Hp. injection Hp as <-. reflexivity.
Qed.

(** X11. A translation on a profile that cannot be written: the prompt
    asks for the language entered in the dialog, but [insert_text] reads
    the language back from the store, so the markers of the inserted block
    name the language stored before. *)
Theorem refused_write_marks_the_old_language
    env w s language req reason body data c e :
  component w = Writer s -> strip s <> "" ->
  is_empty_str (stored w "openai_api_key" (VStr "")) = false ->
  translation_user env = Confirm language -> language <> "" ->
  write_error w = Some e ->
  request_built lang
    (written "language" (VStr language) (add_form (lang "translate") w))
    s "translate" language req ->
  endpoint env = Reply 200 reason body ->
  json_loads body = Ok data ->
  message_content data = Ok (JStr c) ->
  strip c <> "" ->
  trigger lang env "translate" w
  = (Ok tt,
     set_component
       (Writer (marked_output lang s (strip c) "translate"
                  (py_str (stored w "language" (VStr "")))))
       (add_request req
          (written "language" (VStr language) (add_form (lang "translate") w))))
  /\ req_user_text req
     = lang "prompt_translate" +:+ " " +:+ language +:+ ": " +:+ s.
Proof.
  intros Hc Hs Hk Hu Hl Hw Hreq Hreply Hjson Hpath Hne. split.
  - rewrite (translate_success _ _ _ _ _ _ _ _ _ Hc Hs Hk Hu Hl Hreq Hreply Hjson Hpath Hne).
    rewrite (stored_same_file
               (written "language" (VStr language) (add_form (lang "translate") w))
               w "language" (VStr "")); [reflexivity|].
    exact (written_refused "language" (VStr language)
             (add_form (lang "translate") w) e Hw).
  - destruct Hreq as (_ & prompt & n & t & Hp & _ & _ & ->).
    cbn in Hp. injection Hp as <-. reflexivity.
Qed.

(** X12. Confirming the translation dialog with an empty language (on a
    readable store) stores the empty language and ends the command: no
    request, no dialog, no change of the document. *)
Theorem empty_target_language_is_stored_and_nothing_sent env w s :
  readable w = true ->
  component w = Writer s -> strip s <> "" ->
  is_empty_str (stored w "openai_api_key" (VStr "")) = false ->
  translation_user env = Confirm "" ->
  trigger lang env "translate" w
  = (Ok tt, written "language" (VStr "") (add_form (lang "translate") w)).
Proof.
  intros Hr Hc Hs Hk Hu.
  rewrite (translate_runs_flow _ _ _ Hr Hc Hs Hk). unfold try_except.
  now rewrite (translate_flow_with env s "translate" w "" Hr) by (now left).
Qed.

(** X13. The handler of the [translate] branch calls [getByIndex] on the
    selected text, a [str]: on a readable store, a failure of the
    translation dialog, or a stored [max_tokens] that does not convert,
    leaves [trigger] with an
    [AttributeError], and the error text is not written into the
    document. In the second case the entered language has been stored. *)
Theorem translate_failures_end_in_attribute_error env w s :
  readable w = true ->
  component w = Writer s -> strip s <> "" ->
  is_empty_str (stored w "openai_api_key" (VStr "")) = false ->
  (forall e,
      translation_user env = Fails e ->
      trigger lang env "translate" w
      = (Raise (AttributeError "'str' object has no attribute 'getByIndex'"),
         add_form (lang "translate") w))
  /\ (forall language e,
      translation_user env = Confirm language -> language <> "" ->
      py_int (stored w "max_tokens" (VStr "1000")) = Raise e ->
      trigger lang env "translate" w
      = (Raise (AttributeError "'str' object has no attribute 'getByIndex'"),
         written "language" (VStr language) (add_form (lang "translate") w))).
Proof.
  intros Hr Hc Hs Hk. split.
  - intros e Hu. rewrite (translate_runs_flow _ _ _ Hr Hc Hs Hk).
    unfold try_except, translate_flow, translation_box.
    unfold bind at 1. do 2 store_step.
    unfold bind at 1, modify at 1. now rewrite Hu.
  - intros language e Hu Hl Hn.
    rewrite (translate_runs_flow _ _ _ Hr Hc Hs Hk). unfold try_except.
    rewrite (translate_flow_with env s "translate" w language Hr) by (now left).
    rewrite (nonempty_language _ Hl).
    unfold complete_and_insert, bind at 1, process_text.
    change (build_prompt lang "translate" s language)
      with (Some (lang "prompt_translate" +:+ " " +:+ language +:+ ": " +:+ s)).
    cbn match.
    assert (Hr' : readable (add_form (lang "translate") w) = true) by exact Hr.
    do 3 store_step. unfold bind at 1, lift at 1.
    rewrite (stored_written_other "language" _ "max_tokens") by discriminate.
    rewrite stored_add_form', Hn. reflexivity.
Qed.


(** *** The settings branch *)

Lemma settings_flow_confirmed env w fields t n :
  readable w = true ->
  settings_user env = Confirm fields ->
  float_of_string (edit_temperature fields) = Ok t ->
  isdigit (edit_max_tokens fields) = true ->
  int_of_string (edit_max_tokens fields) = Ok n ->
  settings_flow lang env w
  = (Ok tt,
     written "temperature" (VFloat t)
       (written "max_tokens" (VInt n)
          (written "model" (VStr (edit_model fields))
             (written "openai_api_key" (VStr (edit_openai_api_key fields))
                (add_form (lang "settings") w))))).
Proof.
  intros Hr Hu Ht Hd Hn. unfold settings_flow. unfold bind at 1.
  rewrite (settings_box_confirm _ _ _ _ Hr Hu), Ht. cbn zeta. rewrite Hd, Hn.
  assert (Hr' : readable (add_form (lang "settings") w) = true) by exact Hr.
  unfold bind, lift. eval_record. cbv beta iota. store_run. reflexivity.
Qed.

Lemma settings_flow_without_max_tokens env w fields t :
  readable w = true ->
  settings_user env = Confirm fields ->
  float_of_string (edit_temperature fields) = Ok t ->
  isdigit (edit_max_tokens fields) = false ->
  settings_flow lang env w
  = (Raise (KeyError "'max_tokens'"),
     written "model" (VStr (edit_model fields))
       (written "openai_api_key" (VStr (edit_openai_api_key fields))
          (add_form (lang "settings") w))).
Proof.
  intros Hr Hu Ht Hd. unfold settings_flow. unfold bind at 1.
  rewrite (settings_box_confirm _ _ _ _ Hr Hu), Ht. cbn zeta. rewrite Hd.
  assert (Hr' : readable (add_form (lang "settings") w) = true) by exact Hr.
  unfold bind, lift. eval_record. cbv beta iota. store_run. reflexivity.
Qed.

Lemma settings_flow_bad_temperature env w fields e :
  readable w = true ->
  settings_user env = Confirm fields ->
  float_of_string (edit_temperature fields) = Raise e ->
  settings_flow lang env w = (Raise e, add_form (lang "settings") w).
Proof.
  intros Hr Hu Ht. unfold settings_flow. unfold bind at 1.
  now rewrite (settings_box_confirm _ _ _ _ Hr Hu), Ht.
Qed.

Lemma settings_flow_cancelled env w t :
  readable w = true ->
  settings_user env = Cancel ->
  py_float (stored w "temperature" (VStr "0.5")) = Ok t ->
  settings_flow lang env w
  = (Ok tt,
     written "temperature" (VFloat t)
       (written "max_tokens"
          (VStr (py_str (stored w "max_tokens" (VStr "1000"))))
          (written "model"
             (VStr (py_str (stored w "model" (VStr "gpt-4o-mini"))))
             (written "openai_api_key"
                (VStr (py_str (stored w "openai_api_key" (VStr ""))))
                (add_form (lang "settings") w))))).
Proof.
  intros Hr Hu Ht. unfold settings_flow. unfold bind at 1.
  rewrite (settings_box_cancel _ _ _ Hr Hu), Ht.
  assert (Hr' : readable (add_form (lang "settings") w) = true) by exact Hr.
  generalize (py_str (stored w "max_tokens" (VStr "1000"))).
  generalize (py_str (stored w "model" (VStr "gpt-4o-mini"))).
  generalize (py_str (stored w "openai_api_key" (VStr ""))).
  intros k m mt. unfold bind, lift. eval_record. cbv beta iota. store_run.
  reflexivity.
Qed.

Lemma write_error_opened_form title w :
  write_error w = None -> write_error (add_form title (opened w)) = None.
Proof. unfold opened. now destruct (component w). Qed.

Lemma readable_opened_form title w :
  readable w = true -> readable (add_form title (opened w)) = true.
Proof. intros Hr. now rewrite <- (readable_opened w) in Hr. Qed.

Lemma four_writes_read_back w0 v1 v2 v3 v4 :
  readable w0 = true ->
  write_error w0 = None ->
  let w4 :=
    written "temperature" v4
      (written "max_tokens" v3
         (written "model" v2 (written "openai_api_key" v1 w0))) in
  (forall dflt, stored w4 "openai_api_key" dflt = v1)
  /\ (forall dflt, stored w4 "model" dflt = v2)
  /\ (forall dflt, stored w4 "max_tokens" dflt = v3)
  /\ (forall dflt, stored w4 "temperature" dflt = v4)
  /\ (forall other dflt,
        other <> "openai_api_key" -> other <> "model" ->
        other <> "max_tokens" -> other <> "temperature" ->
        stored w4 other dflt = stored w0 other dflt).
Proof.
  intros Hr Hw. cbn zeta. repeat split; intros.
  - rewrite !stored_written_other by discriminate.
    now apply stored_written_same.
  - rewrite !stored_written_other by discriminate.
    apply stored_written_same;
      [now rewrite readable_written|now rewrite write_error_written].
  - rewrite stored_written_other by discriminate.
    apply stored_written_same;
      [now rewrite !readable_written|now rewrite !write_error_written].
  - apply stored_written_same;
      [now rewrite !readable_written|now rewrite !write_error_written].
  - now rewrite !stored_written_other by assumption.
Qed.

(** X14. A confirmed settings dialog whose temperature converts and whose
    [max_tokens] field is a non-empty run of the digits 0..9, on a readable
    store and a writable profile: the four settings read back as entered ([max_tokens] as an
    integer, [temperature] as a float), every other key and the dialogs
    are as before, and the document is only opened. *)
Theorem confirmed_settings_are_persisted env w fields t :
  readable w = true ->
  settings_user env = Confirm fields ->
  float_of_string (edit_temperature fields) = Ok t ->
  all_decimal (edit_max_tokens fields) = true ->
  edit_max_tokens fields <> "" ->
  write_error w = None ->
  exists n,
    int_of_string (edit_max_tokens fields) = Ok n
    /\ fst (trigger lang env "settings" w) = Ok tt
    /\ (forall dflt,
          stored (snd (trigger lang env "settings" w)) "openai_api_key" dflt
          = VStr (edit_openai_api_key fields))
    /\ (forall dflt,
          stored (snd (trigger lang env "settings" w)) "model" dflt
          = VStr (edit_model fields))
    /\ (forall dflt,
          stored (snd (trigger lang env "settings" w)) "max_tokens" dflt
          = VInt n)
    /\ (forall dflt,
          stored (snd (trigger lang env "settings" w)) "temperature" dflt
          = VFloat t)
    /\ (forall other dflt,
          other <> "openai_api_key" -> other <> "model" ->
          other <> "max_tokens" -> other <> "temperature" ->
          stored (snd (trigger lang env "settings" w)) other dflt
          = stored w other dflt)
    /\ component (snd (trigger lang env "settings" w)) = component (opened w)
    /\ dialogs (snd (trigger lang env "settings" w)) = dialogs w.
Proof.
  intros Hr Hu Ht Hdec Hne Hw.
  destruct (int_of_string_decimal _ Hdec Hne) as (n & Hn). exists n.
  split; [exact Hn|].
  rewrite trigger_opened. destruct (opened_writer w) as (s & Hs).
  rewrite (trigger_settings _ _ _ _ Hs).
  assert (Hro : readable (opened w) = true) by (now rewrite readable_opened).
  rewrite (settings_flow_confirmed _ _ _ _ _ Hro Hu Ht (isdigit_decimal _ Hdec Hne) Hn).
  cbn [fst snd].
  pose proof (write_error_opened_form (lang "settings") w Hw) as Hw0.
  pose proof (readable_opened_form (lang "settings") w Hr) as Hr0.
  destruct (four_writes_read_back (add_form (lang "settings") (opened w))
              (VStr (edit_openai_api_key fields)) (VStr (edit_model fields))
              (VInt n) (VFloat t) Hr0 Hw0) as (H1 & H2 & H3 & H4 & H5).
  split; [reflexivity|]. split; [exact H1|]. split; [exact H2|].
  split; [exact H3|]. split; [exact H4|]. split.
  - intros other dflt ? ? ? ?. rewrite H5 by assumption.
    rewrite stored_add_form'. apply stored_opened.
  - split.
    + now rewrite !component_written.
    + rewrite !dialogs_written. unfold opened. now destruct (component w).
Qed.

(** X15. On a readable store, a confirmed settings dialog whose
    [max_tokens] field is not all digits is saved by halves: the error ['max_tokens'] is appended to the
    selection after the API key and the model have been written, while
    [max_tokens] and [temperature] keep their stored values. *)
Theorem missing_max_tokens_persists_half_the_form env w s fields t :
  readable w = true ->
  component w = Writer s ->
  settings_user env = Confirm fields ->
  float_of_string (edit_temperature fields) = Ok t ->
  isdigit (edit_max_tokens fields) = false ->
  trigger lang env "settings" w
  = (Ok tt,
     set_component (Writer (s +:+ ":error: 'max_tokens'"))
       (written "model" (VStr (edit_model fields))
          (written "openai_api_key" (VStr (edit_openai_api_key fields))
             (add_form (lang "settings") w))))
  /\ (forall dflt,
        stored (snd (trigger lang env "settings" w)) "temperature" dflt
        = stored w "temperature" dflt)
  /\ (forall dflt,
        stored (snd (trigger lang env "settings" w)) "max_tokens" dflt
        = stored w "max_tokens" dflt)
  /\ (write_error w = None ->
      forall dflt,
        stored (snd (trigger lang env "settings" w)) "openai_api_key" dflt
        = VStr (edit_openai_api_key fields)
        /\ stored (snd (trigger lang env "settings" w)) "model" dflt
           = VStr (edit_model fields)).
Proof.
  intros Hr Hc Hu Ht Hd.
  rewrite (trigger_settings _ _ _ _ Hc).
  rewrite (settings_flow_without_max_tokens _ _ _ _ Hr Hu Ht Hd).
  split; [reflexivity|]. cbn [snd].
  assert (Hdoc : forall c w0 k d,
             stored (set_component c w0) k d = stored w0 k d).
  { intros. now apply stored_same_file. }
  split; [|split].
  - intros dflt. rewrite Hdoc.
    rewrite !stored_written_other by discriminate. apply stored_add_form'.
  - intros dflt. rewrite Hdoc.
    rewrite !stored_written_other by discriminate. apply stored_add_form'.
  - intros Hw dflt. rewrite !Hdoc.
    assert (Hr0 : readable (add_form (lang "settings") w) = true) by exact Hr.
    split.
    + rewrite stored_written_other by discriminate.
      now apply stored_written_same.
    + apply stored_written_same;
        [now rewrite readable_written|now rewrite write_error_written].
Qed.

(** X16. On a readable store, a confirmed settings dialog whose
    temperature does not convert saves nothing: the conversion error is appended to the selection and
    the settings file is as before. *)
Theorem bad_temperature_persists_nothing env w s fields e :
  readable w = true ->
  component w = Writer s ->
  settings_user env = Confirm fields ->
  float_of_string (edit_temperature fields) = Raise e ->
  trigger lang env "settings" w
  = (Ok tt,
     set_component (Writer (s +:+ ":error: " +:+ exn_str e))
       (add_form (lang "settings") w))
  /\ settings_file (snd (trigger lang env "settings" w)) = settings_file w.
Proof.
  intros Hr Hc Hu Ht.
  rewrite (trigger_settings _ _ _ _ Hc).
  rewrite (settings_flow_bad_temperature _ _ _ _ Hr Hu Ht). split; reflexivity.
Qed.

Lemma trigger_settings_cancelled env w t :
  readable w = true ->
  settings_user env = Cancel ->
  py_float (stored w "temperature" (VStr "0.5")) = Ok t ->
  trigger lang env "settings" w
  = (Ok tt,
     written "temperature" (VFloat t)
       (written "max_tokens"
          (VStr (py_str (stored w "max_tokens" (VStr "1000"))))
          (written "model"
             (VStr (py_str (stored w "model" (VStr "gpt-4o-mini"))))
             (written "openai_api_key"
                (VStr (py_str (stored w "openai_api_key" (VStr ""))))
                (add_form (lang "settings") (opened w)))))).
Proof.
  intros Hr Hu Ht.
  rewrite trigger_opened. destruct (opened_writer w) as (s & Hs).
  rewrite (trigger_settings _ _ _ _ Hs).
  assert (Hro : readable (opened w) = true) by (now rewrite readable_opened).
  assert (Ht' : py_float (stored (opened w) "temperature" (VStr "0.5")) = Ok t).
  { now rewrite stored_opened. }
  rewrite (settings_flow_cancelled _ _ _ Hro Hu Ht').
  now rewrite !stored_opened.
Qed.

(** X17. Cancelling the settings dialog still writes: on a readable
    store and a writable profile the settings file exists afterwards and holds the four
    settings, either as they were read ([max_tokens] as text) or with
    their defaults; every other key is as before. *)
Theorem cancelled_settings_are_written_back env w t :
  readable w = true ->
  settings_user env = Cancel ->
  py_float (stored w "temperature" (VStr "0.5")) = Ok t ->
  write_error w = None ->
  fst (trigger lang env "settings" w) = Ok tt
  /\ (exists config_data,
        settings_file (snd (trigger lang env "settings" w)) = FileObject config_data)
  /\ (forall dflt,
        stored (snd (trigger lang env "settings" w)) "openai_api_key" dflt
        = VStr (py_str (stored w "openai_api_key" (VStr ""))))
  /\ (forall dflt,
        stored (snd (trigger lang env "settings" w)) "model" dflt
        = VStr (py_str (stored w "model" (VStr "gpt-4o-mini"))))
  /\ (forall dflt,
        stored (snd (trigger lang env "settings" w)) "max_tokens" dflt
        = VStr (py_str (stored w "max_tokens" (VStr "1000"))))
  /\ (forall dflt,
        stored (snd (trigger lang env "settings" w)) "temperature" dflt
        = VFloat t)
  /\ (forall other dflt,
        other <> "openai_api_key" -> other <> "model" ->
        other <> "max_tokens" -> other <> "temperature" ->
        stored (snd (trigger lang env "settings" w)) other dflt
        = stored w other dflt).
Proof.
  intros Hr Hu Ht Hw.
  rewrite (trigger_settings_cancelled _ _ _ Hr Hu Ht). cbn [fst snd].
  pose proof (write_error_opened_form (lang "settings") w Hw) as Hw0.
  pose proof (readable_opened_form (lang "settings") w Hr) as Hr0.
  destruct (four_writes_read_back (add_form (lang "settings") (opened w))
              (VStr (py_str (stored w "openai_api_key" (VStr ""))))
              (VStr (py_str (stored w "model" (VStr "gpt-4o-mini"))))
              (VStr (py_str (stored w "max_tokens" (VStr "1000"))))
              (VFloat t) Hr0 Hw0) as (H1 & H2 & H3 & H4 & H5).
  split; [reflexivity|]. split.
  - match goal with
    | |- exists d, settings_file (written ?k ?v ?w0) = _ =>
        destruct (written_file k v w0) as (d & Hd & _);
          [now rewrite !readable_written|now rewrite !write_error_written|];
          eauto
    end.
  - split; [exact H1|]. split; [exact H2|]. split; [exact H3|].
    split; [exact H4|].
    intros other dflt ? ? ? ?. rewrite H5 by assumption.
    rewrite stored_add_form'. apply stored_opened.
Qed.

(** X18. The text that a cancelled settings dialog writes back under
    [max_tokens] converts to the number [process_text] would have sent
    before: on a readable store and a writable profile, when the stored
    value is no float, [int] of the setting is the
    same before and after. *)
Theorem cancel_keeps_the_token_limit env w t :
  readable w = true ->
  settings_user env = Cancel ->
  py_float (stored w "temperature" (VStr "0.5")) = Ok t ->
  write_error w = None ->
  (forall f, stored w "max_tokens" (VStr "1000") <> VFloat f) ->
  py_int (stored (snd (trigger lang env "settings" w)) "max_tokens" (VStr "1000"))
  = py_int (stored w "max_tokens" (VStr "1000")).
Proof.
  intros Hr Hu Ht Hw Hnf.
  rewrite (trigger_settings_cancelled _ _ _ Hr Hu Ht). cbn [snd].
  pose proof (write_error_opened_form (lang "settings") w Hw) as Hw0.
  pose proof (readable_opened_form (lang "settings") w Hr) as Hr0.
  rewrite stored_written_other by discriminate.
  rewrite stored_written_same
    by (now rewrite ?readable_written, ?write_error_written).
  destruct (stored w "max_tokens" (VStr "1000")) as [s|n|f].
  - reflexivity.
  - cbn [py_str py_int]. apply int_of_string_pretty.
  - now destruct (Hnf f).
Qed.

(** X23. A settings file that can be neither loaded nor taken for absent
    (undecodable bytes, or JSON that is no object) stops every command
    that reads the store: the settings command does not show its form and
    appends the error of the read to the selection, and the other
    commands, on a non-blank selection, fail with that error, which no
    handler catches; no error box is shown. *)
Theorem unloadable_settings_stop_every_command env w s :
  readable w = false ->
  component w = Writer s ->
  exists e,
    (forall key dflt, get_config key dflt w = (Raise e, w))
    /\ (forall msg,
          settings_file w = FileUndecodable msg -> e = UnicodeDecodeError msg)
    /\ (forall doc,
          settings_file w = FileOther doc ->
          e = AttributeError
                ("'" +:+ other_type_name doc +:+ "' object has no attribute 'get'"))
    /\ trigger lang env "settings" w
       = (Ok tt, set_component (Writer (s +:+ ":error: " +:+ exn_str e)) w)
    /\ (forall command,
          command <> "hello" -> command <> "settings" -> strip s <> "" ->
          trigger lang env command w = (Raise e, w)).
Proof.
  intros Hr Hc. destruct (get_config_escapes w Hr) as (e & He).
  exists e. split; [exact He|].
  split; [|split; [|split]].
  - intros msg Hf. specialize (He "" (VStr "")).
    unfold get_config in He. rewrite Hf in He. now injection He as <-.
  - intros doc Hf. specialize (He "" (VStr "")).
    unfold get_config in He. rewrite Hf in He. now injection He as <-.
  - rewrite (trigger_settings _ _ _ _ Hc).
    unfold settings_flow, settings_box. unfold bind at 1. unfold bind at 1.
    now rewrite He.
  - intros command Hh Hst Hs.
    destruct (trigger_escapes lang env command w s Hr Hc) as (e' & He' & ->).
    apply String.eqb_neq in Hh, Hst. rewrite Hh, Hst.
    rewrite (truthy_nonempty _ Hs). cbn [negb].
    specialize (He' "" (VStr "")). rewrite He in He'. now injection He' as ->.
Qed.

End Pipeline.

Section StartupProperties.
Context `{Builtins}.

Lemma head_app_nonempty {A} (l1 l2 : list A) x :
  head l1 = Some x -> head (l1 ++ l2) = Some x.
Proof. now destruct l1. Qed.

Lemma head_app_empty {A} (l1 l2 : list A) :
  head l1 = None -> head (l1 ++ l2) = head l2.
Proof. now destruct l1. Qed.

Lemma search_folders_finds p base folders found :
  search_folders p base folders = Ok found ->
  found = head (map (fun folder => join p (join p base folder) EXTENSION_NAME)
                    (List.filter (holds_extension p base) folders)).
Proof.
  induction folders as [|folder rest IH]; [now intros [= <-]|].
  cbn [search_folders List.filter]. unfold holds_extension at 1.
  destruct (isdir p (join p base folder)); [|exact IH].
  destruct (listdir p (join p base folder)) as [entries|e]; [|discriminate].
  cbn [andb]. destruct (bool_decide (EXTENSION_NAME ∈ entries)); [|exact IH].
  now intros [= <-].
Qed.

Lemma search_folders_listable p base folders :
  listable p ->
  exists found, search_folders p base folders = Ok found.
Proof.
  intros Hl. induction folders as [|folder rest IH]; [now eexists|].
  cbn [search_folders].
  destruct (isdir p (join p base folder)) eqn:Hd; [|exact IH].
  destruct (Hl _ Hd) as (entries & ->).
  destruct (bool_decide (EXTENSION_NAME ∈ entries)); [now eexists|exact IH].
Qed.

Lemma search_paths_finds p potential_paths found :
  search_paths p potential_paths = Ok found ->
  found = head (installed_copies p potential_paths).
Proof.
  induction potential_paths as [|potential_path rest IH]; [now intros [= <-]|].
  unfold installed_copies. cbn [search_paths map concat].
  fold (installed_copies p rest).
  destruct (path_exists p (base_of p potential_path)); [|exact IH].
  destruct (listdir p (base_of p potential_path)) as [folders|e]; [|discriminate].
  destruct (search_folders p (base_of p potential_path) folders)
    as [[path|]|e] eqn:Hf; [| |discriminate].
  - intros [= <-]. apply search_folders_finds in Hf.
    symmetry. now apply head_app_nonempty.
  - intros Hrest. apply search_folders_finds in Hf.
    rewrite head_app_empty by (now symmetry). now apply IH.
Qed.

Lemma search_paths_listable p potential_paths :
  listable p -> bases_are_directories p potential_paths ->
  exists found, search_paths p potential_paths = Ok found.
Proof.
  intros Hl. induction potential_paths as [|potential_path rest IH];
    intros Hb; [now eexists|].
  assert (Hrest : bases_are_directories p rest).
  { intros q Hq. apply Hb. now apply list_elem_of_further. }
  cbn [search_paths].
  destruct (path_exists p (base_of p potential_path)) eqn:He; [|now apply IH].
  destruct (Hl _ (Hb potential_path (list_elem_of_here _ _) He)) as (folders & ->).
  destruct (search_folders_listable p (base_of p potential_path) folders Hl)
    as ([path|] & ->); [now eexists|now apply IH].
Qed.

(** X19. When every directory can be listed and every potential path
    that exists is a directory, the two loops of [find_extension_path]
    return the first installed copy, in the order of the potential paths
    and of their listings, and [None] exactly when there is none. *)
Theorem search_returns_the_first_installed_copy p potential_paths :
  listable p -> bases_are_directories p potential_paths ->
  search_paths p potential_paths = Ok (head (installed_copies p potential_paths)).
Proof.
  intros Hl Hb.
  destruct (search_paths_listable p potential_paths Hl Hb) as (found & Hs).
  rewrite Hs. f_equal. now apply search_paths_finds.
Qed.

(** X20. With the language file loaded, [find_extension_path] ends in one
    of three ways: it returns the first installed copy and shows nothing;
    it returns [None] after exactly one dialog titled with the error
    label; or a directory listing raised, the error escapes and nothing
    is shown. *)
Theorem find_extension_path_reports_every_failure p table w :
  (exists potential_paths path,
      choose_paths p = Paths potential_paths
      /\ head (installed_copies p potential_paths) = Some path
      /\ find_extension_path p (Some table) w = (Ok (Some path), w))
  \/ (exists message,
        find_extension_path p (Some table) w
        = (Ok None, add_dialog (table "error", message) w))
  \/ (exists potential_paths e,
        choose_paths p = Paths potential_paths
        /\ search_paths p potential_paths = Raise e
        /\ find_extension_path p (Some table) w = (Raise e, w)).
Proof.
  unfold find_extension_path.
  destruct (choose_paths p) as [potential_paths| |e] eqn:Hc.
  - destruct (search_paths p potential_paths) as [[path|]|e] eqn:Hs.
    + left. exists potential_paths, path. split; [reflexivity|].
      split; [|reflexivity]. symmetry. now apply search_paths_finds.
    + right; left. eexists. reflexivity.
    + right; right. exists potential_paths, e.
      split; [reflexivity|]. split; [exact Hs|reflexivity].
  - right; left. eexists. reflexivity.
  - right; left. eexists. reflexivity.
Qed.

(** X21. [__init__] calls [get_language] before [self.lang] exists. When
    the extension cannot be located (unsupported system, registry lookup
    failed, or no installed copy under the potential paths) the error
    dialog of [find_extension_path] is never shown: reading [self.lang]
    raises [AttributeError], and that is how the construction ends. *)
Theorem missing_extension_fails_construction p w :
  (forall potential_paths,
      choose_paths p = Paths potential_paths ->
      search_paths p potential_paths = Ok None) ->
  load_lang p w
  = (Raise (AttributeError "'AIWriterExtension' object has no attribute 'lang'"), w).
Proof.
  intros Hmissing. unfold load_lang, get_language, find_extension_path.
  destruct (choose_paths p) as [potential_paths| |e]; [|reflexivity..].
  unfold bind at 1. unfold bind at 1. unfold bind at 1. unfold lift at 1.
  now rewrite (Hmissing potential_paths eq_refl).
Qed.

Lemma search_folders_with_locale locale p base folders :
  search_folders (with_locale locale p) base folders = search_folders p base folders.
Proof.
  induction folders as [|folder rest IH]; [reflexivity|].
  cbn [search_folders]. rewrite IH. reflexivity.
Qed.

Lemma search_paths_with_locale locale p potential_paths :
  search_paths (with_locale locale p) potential_paths
  = search_paths p potential_paths.
Proof.
  induction potential_paths as [|potential_path rest IH]; [reflexivity|].
  cbn [search_paths]. rewrite IH.
  change (base_of (with_locale locale p) potential_path)
    with (base_of p potential_path).
  change (path_exists (with_locale locale p)) with (path_exists p).
  change (listdir (with_locale locale p)) with (listdir p).
  destruct (path_exists p (base_of p potential_path)); [|reflexivity].
  destruct (listdir p (base_of p potential_path)) as [folders|e]; [|reflexivity].
  now rewrite search_folders_with_locale.
Qed.

Lemma find_extension_path_with_locale locale p lang :
  find_extension_path (with_locale locale p) lang = find_extension_path p lang.
Proof.
  unfold find_extension_path.
  change (choose_paths (with_locale locale p)) with (choose_paths p).
  destruct (choose_paths p) as [potential_paths| |e]; [|reflexivity..].
  rewrite search_paths_with_locale. reflexivity.
Qed.

(** X22. [get_language] looks at the first two characters of the locale
    only: two locales of the user interface that agree on them load the
    same language file, with the same outcome. *)
Theorem language_file_depends_on_two_characters p lang locale1 locale2 w :
  String.substring 0 2 locale1 = String.substring 0 2 locale2 ->
  get_language (with_locale locale1 p) lang w
  = get_language (with_locale locale2 p) lang w.
Proof.
  intros Hprefix. unfold get_language.
  rewrite !find_extension_path_with_locale.
  unfold get_ui_language. cbn [ooLocale with_locale].
  rewrite Hprefix. reflexivity.
Qed.

End StartupProperties.

(* ===================================================================== *)
(** ** The further properties on concrete inputs *)
(* ===================================================================== *)

Lemma set_config_replaces_unusable_file_witness :
  write_error (Sample.with_file FileUnreadable Sample.fresh) = None
  /\ exists w',
       set_config "model" (VStr "gpt-4o")
         (Sample.with_file FileUnreadable Sample.fresh)
       = (Ok tt, w')
       /\ settings_file w' = FileObject {[ "model" := VStr "gpt-4o" ]}
       /\ get_config "temperature" (VStr "0.5") w' = (Ok (VStr "0.5"), w').
Proof.
  split; [reflexivity|].
  destruct (set_config_replaces_unusable_file "model" (VStr "gpt-4o")
              (Sample.with_file FileUnreadable Sample.fresh)
              eq_refl (or_intror eq_refl)) as (w' & Hset & Hfile & Hother).
  exists w'. split; [exact Hset|]. split; [exact Hfile|].
  apply Hother. discriminate.
Defined.

Lemma set_config_last_write_wins_witness :
  write_error Sample.ready = None
  /\ (do _ <- set_config "model" (VStr "gpt-4"); set_config "model" (VStr "gpt-4o"))
       Sample.ready
     = set_config "model" (VStr "gpt-4o") Sample.ready.
Proof.
  split; [reflexivity|].
  exact (set_config_last_write_wins "model" (VStr "gpt-4") (VStr "gpt-4o")
           Sample.ready eq_refl).
Defined.

Lemma set_config_commutes_witness :
  write_error Sample.ready = None
  /\ "model" <> "language"
  /\ (do _ <- set_config "language" (VStr "en"); set_config "model" (VStr "gpt-4o"))
       Sample.ready
     = (do _ <- set_config "model" (VStr "gpt-4o"); set_config "language" (VStr "en"))
         Sample.ready.
Proof.
  assert (Hne : "model" <> "language") by discriminate.
  split; [reflexivity|]. split; [exact Hne|].
  exact (set_config_commutes "model" (VStr "gpt-4o") "language" (VStr "en")
           Sample.ready eq_refl Hne).
Defined.

Lemma unconvertible_setting_escapes_trigger_witness :
  readable Cases.hand_edited = true
  /\ py_int (stored Cases.hand_edited "max_tokens" (VStr "1000"))
     = Raise (ValueError "invalid literal for int() with base 10: 'many'")
  /\ trigger Sample.lang Sample.quiet "complete" Cases.hand_edited
     = (Raise (ValueError "invalid literal for int() with base 10: 'many'"),
        Cases.hand_edited).
Proof.
  split; [reflexivity|]. split; [reflexivity|].
  assert (Hne : "complete" <> "translate") by discriminate.
  assert (Hs : strip "hola" <> "") by discriminate.
  exact (unconvertible_setting_escapes_trigger Sample.lang Sample.quiet
           "complete" Cases.hand_edited "hola" _ eq_refl
           ai_command_complete Hne eq_refl Hs eq_refl (or_introl eq_refl)).
Defined.

Lemma trigger_inserts_the_completion_witness :
  trigger Sample.lang (Cases.answering "") "complete" Sample.ready
  = (Ok tt,
     set_component
       (Writer (marked_output Sample.lang "hola" "Hello" "complete" ""))
       (add_request
          (request_for Sample.lang Sample.ready
             "Complete the following text: hola" 1000 (Sample.mkDecimal 5 1))
          Sample.ready)).
Proof.
  assert (Hne : "complete" <> "translate") by discriminate.
  assert (Hs : strip "hola" <> "") by discriminate.
  assert (Hc : strip " Hello " <> "") by discriminate.
  assert (Hjson : json_loads hello_body = Ok hello_document) by reflexivity.
  assert (Hpath : message_content (hello_document (F := float))
                  = Ok (JStr " Hello ")) by reflexivity.
  exact (proj1 (trigger_inserts_the_completion Sample.lang (Cases.answering "")
                  "complete" Sample.ready "hola" _ "OK" hello_body
                  hello_document " Hello "
                  ai_command_complete Hne eq_refl Hs eq_refl
                  ready_request_built eq_refl Hjson Hpath) Hc).
Defined.

Lemma unknown_command_is_validated_then_ignored_witness :
  ("rewrite" ∉ ai_commands)
  /\ trigger Sample.lang Sample.quiet "rewrite" Sample.ready = (Ok tt, Sample.ready)
  /\ trigger Sample.lang Sample.quiet "rewrite" (Sample.with_selection " " Sample.ready)
     = (Ok tt, add_dialog ("Error", "No text selected")
                 (Sample.with_selection " " Sample.ready)).
Proof.
  assert (Hn : "rewrite" ∉ ai_commands).
  { unfold ai_commands. intros Hin.
    repeat (apply elem_of_cons in Hin as [Hin|Hin]; [discriminate Hin|]).
    now apply elem_of_nil in Hin. }
  assert (Hh : "rewrite" <> "hello") by discriminate.
  assert (Hst : "rewrite" <> "settings") by discriminate.
  assert (Hs : strip "hola" <> "") by discriminate.
  split; [exact Hn|]. split.
  - exact (proj2 (proj2 (unknown_command_is_validated_then_ignored Sample.lang
                           Sample.quiet "rewrite" Sample.ready "hola"
                           Hn Hh Hst eq_refl)) Hs eq_refl eq_refl).
  - exact (proj1 (unknown_command_is_validated_then_ignored Sample.lang
                    Sample.quiet "rewrite"
                    (Sample.with_selection " " Sample.ready) " "
                    Hn Hh Hst eq_refl) eq_refl).
Defined.

Lemma cancelled_translation_uses_stored_language_witness :
  py_str (stored Cases.bilingual "language" (VStr "")) = "fr"
  /\ trigger Sample.lang (mkEnv (Reply 200 "OK" hello_body) Cancel Cancel)
       "translate" Cases.bilingual
     = trigger Sample.lang (Cases.answering "fr") "translate" Cases.bilingual.
Proof.
  split; [reflexivity|].
  exact (cancelled_translation_uses_stored_language Sample.lang
           (mkEnv (Reply 200 "OK" hello_body) Cancel Cancel)
           (Cases.answering "fr") Cases.bilingual eq_refl eq_refl eq_refl).
Defined.

Lemma translation_request_built (w : World) :
  readable w = true ->
  py_int (stored w "max_tokens" (VStr "1000")) = Ok 1000%Z ->
  py_float (stored w "temperature" (VStr "0.5")) = Ok (Sample.mkDecimal 5 1) ->
  request_built Sample.lang w "hola" "translate" "en"
    (request_for Sample.lang w "Translate the following text to en: hola"
       1000 (Sample.mkDecimal 5 1)).
Proof.
  intros Hr Hn Ht. split; [exact Hr|].
  exists "Translate the following text to en: hola".
  exists 1000%Z.
  exists (Sample.mkDecimal 5 1).
  split; [reflexivity|]. split; [exact Hn|]. split; [exact Ht|reflexivity].
Defined.

Lemma translation_marks_the_entered_language_witness :
  write_error Sample.ready = None
  /\ trigger Sample.lang (Cases.answering "en") "translate" Sample.ready
     = (Ok tt,
        set_component
          (Writer (marked_output Sample.lang "hola" "Hello" "translate" "en"))
          (add_request
             (request_for Sample.lang
                (written "language" (VStr "en")
                   (add_form "Translate" Sample.ready))
                "Translate the following text to en: hola"
                1000 (Sample.mkDecimal 5 1))
             (written "language" (VStr "en")
                (add_form "Translate" Sample.ready)))).
Proof.
  split; [reflexivity|].
  assert (Hs : strip "hola" <> "") by discriminate.
  assert (Hl : "en" <> "") by discriminate.
  assert (Hc : strip " Hello " <> "") by discriminate.
  assert (Hjson : json_loads hello_body = Ok hello_document) by reflexivity.
  assert (Hpath : message_content (hello_document (F := float))
                  = Ok (JStr " Hello ")) by reflexivity.
  exact (proj1 (translation_marks_the_entered_language Sample.lang
                  (Cases.answering "en") Sample.ready "hola" "en" _
                  "OK" hello_body hello_document " Hello "
                  eq_refl Hs eq_refl eq_refl Hl eq_refl
                  (translation_request_built
                     (written "language" (VStr "en")
                        (add_form "Translate" Sample.ready))
                     eq_refl eq_refl eq_refl)
                  eq_refl Hjson Hpath Hc)).
Defined.

Lemma refused_write_marks_the_old_language_witness :
  write_error Cases.locked
  = Some "[Errno 13] Permission denied: '/profile/aiwriter.json'"
  /\ trigger Sample.lang (Cases.answering "en") "translate" Cases.locked
     = (Ok tt,
        set_component
          (Writer (marked_output Sample.lang "hola" "Hello" "translate" "fr"))
          (add_request
             (request_for Sample.lang
                (written "language" (VStr "en")
                   (add_form "Translate" Cases.locked))
                "Translate the following text to en: hola"
                1000 (Sample.mkDecimal 5 1))
             (written "language" (VStr "en")
                (add_form "Translate" Cases.locked)))).
Proof.
  split; [reflexivity|].
  assert (Hs : strip "hola" <> "") by discriminate.
  assert (Hl : "en" <> "") by discriminate.
  assert (Hc : strip " Hello " <> "") by discriminate.
  assert (Hjson : json_loads hello_body = Ok hello_document) by reflexivity.
  assert (Hpath : message_content (hello_document (F := float))
                  = Ok (JStr " Hello ")) by reflexivity.
  exact (proj1 (refused_write_marks_the_old_language Sample.lang
                  (Cases.answering "en") Cases.locked "hola" "en" _
                  "OK" hello_body hello_document " Hello " _
                  eq_refl Hs eq_refl eq_refl Hl eq_refl
                  (translation_request_built
                     (written "language" (VStr "en")
                        (add_form "Translate" Cases.locked))
                     eq_refl eq_refl eq_refl)
                  eq_refl Hjson Hpath Hc)).
Defined.

Lemma empty_target_language_witness :
  trigger Sample.lang (Cases.answering "") "translate" Cases.bilingual
  = (Ok tt,
     written "language" (VStr "") (add_form "Translate" Cases.bilingual))
  /\ get_config "language" (VStr "fr")
       (snd (trigger Sample.lang (Cases.answering "") "translate" Cases.bilingual))
     = (Ok (VStr ""),
        snd (trigger Sample.lang (Cases.answering "") "translate" Cases.bilingual)).
Proof.
  assert (Hs : strip "hola" <> "") by discriminate.
  pose proof (empty_target_language_is_stored_and_nothing_sent Sample.lang
                (Cases.answering "") Cases.bilingual "hola"
                eq_refl eq_refl Hs eq_refl eq_refl) as Hrun.
  split; [exact Hrun|]. reflexivity.
Defined.

Lemma translate_failures_end_in_attribute_error_witness :
  trigger Sample.lang
    (mkEnv (Reply 200 "OK" hello_body) Cancel
           (Fails (HostError "the dialog could not be created")))
    "translate" Sample.ready
  = (Raise (AttributeError "'str' object has no attribute 'getByIndex'"),
     add_form "Translate" Sample.ready).
Proof.
  assert (Hs : strip "hola" <> "") by discriminate.
  exact (proj1 (translate_failures_end_in_attribute_error Sample.lang
                  (mkEnv (Reply 200 "OK" hello_body) Cancel
                         (Fails (HostError "the dialog could not be created")))
                  Sample.ready "hola" eq_refl eq_refl Hs eq_refl)
           (HostError "the dialog could not be created") eq_refl).
Defined.

Lemma confirmed_settings_are_persisted_witness :
  exists n,
    int_of_string "2000" = Ok n
    /\ stored
         (snd (trigger Sample.lang (Cases.entering "sk-new" "gpt-4o" "2000" "0.7")
                 "settings" Sample.fresh))
         "max_tokens" (VStr "1000")
       = VInt n
    /\ stored
         (snd (trigger Sample.lang (Cases.entering "sk-new" "gpt-4o" "2000" "0.7")
                 "settings" Sample.fresh))
         "temperature" (VStr "0.5")
       = VFloat (Sample.mkDecimal 7 1).
Proof.
  assert (Hne : "2000" <> "") by discriminate.
  destruct (confirmed_settings_are_persisted Sample.lang
              (Cases.entering "sk-new" "gpt-4o" "2000" "0.7") Sample.fresh
              (mkSettingsForm "sk-new" "gpt-4o" "2000" "0.7")
              (Sample.mkDecimal 7 1) eq_refl eq_refl eq_refl eq_refl Hne eq_refl)
    as (n & Hn & _ & _ & _ & Hmax & Htemp & _).
  exists n. split; [exact Hn|]. split; [apply Hmax|apply Htemp].
Defined.

Lemma missing_max_tokens_persists_half_the_form_witness :
  isdigit "many" = false
  /\ stored
       (snd (trigger Sample.lang (Cases.entering "sk-new" "gpt-4o" "many" "0.7")
               "settings" Sample.ready))
       "model" (VStr "gpt-4o-mini")
     = VStr "gpt-4o"
  /\ stored
       (snd (trigger Sample.lang (Cases.entering "sk-new" "gpt-4o" "many" "0.7")
               "settings" Sample.ready))
       "temperature" (VStr "0.5")
     = stored Sample.ready "temperature" (VStr "0.5").
Proof.
  split; [reflexivity|].
  destruct (missing_max_tokens_persists_half_the_form Sample.lang
              (Cases.entering "sk-new" "gpt-4o" "many" "0.7") Sample.ready "hola"
              (mkSettingsForm "sk-new" "gpt-4o" "many" "0.7")
              (Sample.mkDecimal 7 1) eq_refl eq_refl eq_refl eq_refl eq_refl)
    as (_ & Htemp & _ & Hsaved).
  split; [exact (proj2 (Hsaved eq_refl (VStr "gpt-4o-mini")))|apply Htemp].
Defined.

Lemma bad_temperature_persists_nothing_witness :
  trigger Sample.lang (Cases.entering "sk-new" "gpt-4o" "2000" "warm")
    "settings" Sample.ready
  = (Ok tt,
     set_component
       (Writer "hola:error: could not convert string to float: 'warm'")
       (add_form "Settings" Sample.ready))
  /\ settings_file
       (snd (trigger Sample.lang (Cases.entering "sk-new" "gpt-4o" "2000" "warm")
               "settings" Sample.ready))
     = FileObject Sample.saved_settings.
Proof.
  exact (bad_temperature_persists_nothing Sample.lang
           (Cases.entering "sk-new" "gpt-4o" "2000" "warm") Sample.ready "hola"
           (mkSettingsForm "sk-new" "gpt-4o" "2000" "warm")
           (ValueError "could not convert string to float: 'warm'")
           eq_refl eq_refl eq_refl eq_refl).
Defined.

Lemma cancelled_settings_are_written_back_witness :
  settings_file Sample.fresh = FileMissing
  /\ (exists config_data,
        settings_file (snd (trigger Sample.lang Sample.quiet "settings" Sample.fresh))
        = FileObject config_data)
  /\ stored (snd (trigger Sample.lang Sample.quiet "settings" Sample.fresh))
       "max_tokens" (VInt 0)
     = VStr "1000".
Proof.
  split; [reflexivity|].
  destruct (cancelled_settings_are_written_back Sample.lang Sample.quiet
              Sample.fresh (Sample.mkDecimal 5 1) eq_refl eq_refl eq_refl eq_refl)
    as (_ & Hfile & _ & _ & Hmax & _).
  split; [exact Hfile|apply Hmax].
Defined.

Lemma cancel_keeps_the_token_limit_witness :
  get_config "max_tokens" (VStr "1000") Sample.ready = (Ok (VInt 1000), Sample.ready)
  /\ py_int (stored
               (snd (trigger Sample.lang Sample.quiet "settings" Sample.ready))
               "max_tokens" (VStr "1000"))
     = Ok 1000%Z.
Proof.
  split; [reflexivity|].
  assert (Hnf : forall f : float,
             stored Sample.ready "max_tokens" (VStr "1000") <> VFloat f).
  { intros f Hf.
    change (VInt (H := Sample.builtins) 1000 = VFloat f) in Hf.
    discriminate Hf. }
  exact (cancel_keeps_the_token_limit Sample.lang Sample.quiet Sample.ready
           (Sample.mkDecimal 5 1) eq_refl eq_refl eq_refl eq_refl Hnf).
Defined.

Lemma unloadable_settings_stop_every_command_witness :
  readable Cases.listed = false
  /\ trigger Sample.lang Sample.quiet "settings" Cases.listed
     = (Ok tt,
        set_component
          (Writer "hola:error: 'list' object has no attribute 'get'")
          Cases.listed)
  /\ trigger Sample.lang Sample.quiet "summarize" Cases.listed
     = (Raise (AttributeError "'list' object has no attribute 'get'"),
        Cases.listed).
Proof.
  split; [reflexivity|].
  destruct (unloadable_settings_stop_every_command Sample.lang Sample.quiet
              Cases.listed "hola" eq_refl eq_refl)
    as (e & _ & _ & Hlist & Hsettings & Hother).
  rewrite (Hlist OtherList eq_refl) in Hsettings, Hother.
  split; [exact Hsettings|].
  apply Hother; discriminate.
Defined.

Lemma missing_extension_fails_construction_witness :
  choose_paths Cases.bare = Paths Cases.linux_paths
  /\ search_paths Cases.bare Cases.linux_paths = Ok None
  /\ load_lang Cases.bare Sample.fresh
     = (Raise (AttributeError "'AIWriterExtension' object has no attribute 'lang'"),
        Sample.fresh).
Proof.
  split; [reflexivity|]. split; [reflexivity|].
  apply missing_extension_fails_construction.
  intros potential_paths Hchosen.
  change (Paths Cases.linux_paths = Paths potential_paths) in Hchosen.
  injection Hchosen as <-. reflexivity.
Defined.

Lemma cases_linux_listable : listable Cases.linux.
Proof.
  intros path. unfold Cases.linux, Cases.host. cbn [isdir listdir].
  destruct (Cases.directories !! path) as [entries|]; [eauto|discriminate].
Defined.

Lemma cases_linux_bases : bases_are_directories Cases.linux Cases.linux_paths.
Proof.
  intros potential_path Hin Hexists. unfold Cases.linux_paths in Hin.
  apply elem_of_cons in Hin as [->|Hin]; [reflexivity|].
  apply elem_of_cons in Hin as [->|Hin]; [discriminate Hexists|].
  now apply elem_of_nil in Hin.
Defined.

Lemma search_returns_the_first_installed_copy_witness :
  choose_paths Cases.linux = Paths Cases.linux_paths
  /\ installed_copies Cases.linux Cases.linux_paths = [Cases.installed]
  /\ search_paths Cases.linux Cases.linux_paths = Ok (Some Cases.installed).
Proof.
  split; [reflexivity|]. split; [reflexivity|].
  exact (search_returns_the_first_installed_copy Cases.linux Cases.linux_paths
           cases_linux_listable cases_linux_bases).
Defined.

Lemma language_file_depends_on_two_characters_witness :
  get_language (with_locale "en-GB" Cases.linux) None Sample.fresh
  = (Ok Cases.english, Sample.fresh)
  /\ get_language (with_locale "en-US" Cases.linux) None Sample.fresh
     = get_language (with_locale "en-GB" Cases.linux) None Sample.fresh
  /\ get_language (with_locale "fr-FR" Cases.linux) None Sample.fresh
     = (Ok Cases.spanish, Sample.fresh).
Proof.
  split; [reflexivity|]. split; [|reflexivity].
  exact (language_file_depends_on_two_characters Cases.linux None
           "en-US" "en-GB" Sample.fresh eq_refl).
Defined.
